(** * cv-ranker-fe: evaluation pipeline and bounded search history

    A shallow embedding of the recruiter front end:
    - [db_manager.py]: the SQLite search history ([Db]);
    - [app_with_progress.py]: validators, payload builder, the two HTTP
      clients and [execute_ranking] ([Progress]);
    - [app_gdpr_compliant.py]: [rank_cv_with_social_and_flowise] ([Gdpr]),
      the form check and the file upload ([GdprForm]);
    - [db_manager.py]: clean-up, reading one record and export file names
      ([Maintenance]);
    - [file_handler.py]: the checks on an uploaded file and the choice of
      reader ([FileHandler]);
    - [app_with_progress.py]: the history tab ([HistoryTab]).

    Conventions.
    - A Python [str] is a [string]; a character is its code point, below 256.
      The character classes of [str.isspace], [str.isdigit], [str.lower] and
      of the regular expression class [\s] are those of CPython on that range.
    - Floats that the code computes ([num_links / 4], [min]) are dyadic and
      are kept exact in [Q]; a float decoded from a reply is a finite
      double, kept as its value in [Q].
    - The outside world (the two HTTP services, the clock, SQLite failing)
      is an explicit argument; the database and the log of outgoing calls
      are explicit state.
    - The body of a reply is any JSON value, decoded as [response.json()]
      decodes it; what Python raises on a value of the wrong type is part
      of the model, with the texts of CPython 3.11.
    - Functions that only render text are parameters; a renderer that can
      raise on a reply gives the text or the text of the exception.
    - Message texts are kept without their pictographs; rendering of
      Markdown and HTML is a parameter. *)

From Stdlib Require Import ZArith QArith Qminmax Ascii String List Sorting Permutation Lia.
From stdpp Require Import base option list sorting gmap strings pretty.

Local Open Scope Z_scope.

(* ===================================================================== *)
(** * Python built-ins *)
(* ===================================================================== *)

Module Py.

(** Python values: those the front end puts in its dictionaries and those
    decoded from the JSON body of a reply. [PList] is a list of strings as
    the front end builds it, [PArr] any list, [PDict] a dictionary. *)
#[warnings="-register-all"]
Inductive pyval :=
| PNone
| PBool (b : bool)
| PInt (z : Z)
| PFloat (q : Q)
| PStr (s : string)
| PList (l : list string)
| PArr (l : list pyval)
| PDict (d : gmap string pyval).

Abbreviation dict := (gmap string pyval).

(** [bool(v)] *)
Definition truthy (v : pyval) : bool :=
  match v with
  | PNone => false
  | PBool b => b
  | PInt z => negb (z =? 0)
  | PFloat q => negb (Qeq_bool q 0)
  | PStr s => negb (String.eqb s "")
  | PList l => match l with [] => false | _ => true end
  | PArr l => match l with [] => false | _ => true end
  | PDict d => match map_to_list d with [] => false | _ => true end
  end.

(** [bool(s)] for a string *)
Definition nonempty (s : string) : bool := negb (String.eqb s "").

(** [bool(d)] for a dictionary *)
Definition dict_truthy (d : dict) : bool :=
  match map_to_list d with [] => false | _ => true end.

Definition code (c : ascii) : Z := Z.of_N (N_of_ascii c).

Definition between (lo hi : Z) (c : ascii) : bool :=
  (lo <=? code c) && (code c <=? hi).

(** [c.isspace()], also the class [\s] of [re] on [str] patterns:
    TAB LF VT FF CR, FS GS RS US, SPACE, NEL, NBSP. *)
Definition isspace (c : ascii) : bool :=
  between 9 13 c || between 28 32 c || (code c =? 133) || (code c =? 160).

(** [c.isdigit()]: 0-9 and the superscripts 2, 3, 1 (178, 179, 185). *)
Definition isdigit (c : ascii) : bool :=
  between 48 57 c || (code c =? 178) || (code c =? 179) || (code c =? 185).

(** [c.isdecimal()]: 0-9 only. *)
Definition isdecimal (c : ascii) : bool := between 48 57 c.

Definition isalpha_ascii (c : ascii) : bool :=
  between 65 90 c || between 97 122 c.

Definition chars (s : string) : list ascii := list_ascii_of_string s.
Definition str (l : list ascii) : string := string_of_list_ascii l.

Fixpoint lstrip (l : list ascii) : list ascii :=
  match l with
  | c :: l' => if isspace c then lstrip l' else l
  | [] => []
  end.

(** [s.strip()] *)
Definition strip (s : string) : string :=
  str (rev (lstrip (rev (lstrip (chars s))))).

(** [len(s)] *)
Definition len (s : string) : Z := Z.of_nat (String.length s).

(** [s.isdigit()]: non-empty and every character is a digit. *)
Definition str_isdigit (s : string) : bool :=
  match chars s with
  | [] => false
  | l => forallb isdigit l
  end.

(** [s[:n]] for [n >= 0] *)
Definition prefix (n : nat) (s : string) : string := str (take n (chars s)).

(** [c.lower()] *)
Definition lower_char (c : ascii) : ascii :=
  if between 65 90 c || between 192 214 c || between 216 222 c
  then ascii_of_N (N_of_ascii c + 32) else c.

Definition lower (s : string) : string := str (map lower_char (chars s)).

(** [s.replace(a, b)] for one-character [a] and [b] *)
Definition replace_char (a b : ascii) (s : string) : string :=
  str (map (fun c => if Ascii.eqb c a then b else c) (chars s)).

(** [a or b] on strings *)
Definition str_or (a b : string) : string := if nonempty a then a else b.

(** [min(a, b)]: the first argument unless the second is smaller. *)
Definition py_min (a b : Q) : Q := if Qlt_le_dec b a then b else a.

(** ** Operations on a decoded reply *)

(** [type(v).__name__] *)
Definition type_name (v : pyval) : string :=
  match v with
  | PNone => "NoneType"
  | PBool _ => "bool"
  | PInt _ => "int"
  | PFloat _ => "float"
  | PStr _ => "str"
  | PList _ | PArr _ => "list"
  | PDict _ => "dict"
  end.

Fixpoint is_prefix (k s : list ascii) : bool :=
  match k, s with
  | [], _ => true
  | a :: k', b :: s' => Ascii.eqb a b && is_prefix k' s'
  | _ :: _, [] => false
  end.

(** [k in s] for two strings: [k] occurs in [s]. *)
Fixpoint is_infix (k s : list ascii) : bool :=
  is_prefix k s || match s with [] => false | _ :: s' => is_infix k s' end.

(** [k in v] for a string [k]: a key of a dictionary, an element of a
    list, a part of a string; [None] is the TypeError any other value
    raises. *)
Definition py_in (k : string) (v : pyval) : option bool :=
  match v with
  | PDict d => Some (match d !! k with Some _ => true | None => false end)
  | PArr l =>
      Some (existsb (fun x => match x with PStr s => String.eqb s k | _ => false end) l)
  | PList l => Some (existsb (String.eqb k) l)
  | PStr s => Some (is_infix (chars k) (chars s))
  | PNone | PBool _ | PInt _ | PFloat _ => None
  end.

(** The text of that TypeError. *)
Definition not_iterable (v : pyval) : string :=
  "argument of type '" ++ type_name v ++ "' is not iterable".

(** The text of the AttributeError [v.get] raises on a value that is not
    a dictionary. *)
Definition no_attribute_get (v : pyval) : string :=
  "'" ++ type_name v ++ "' object has no attribute 'get'".

(** An [int] converts to a [float]: it is below [2^1024 - 2^970] in
    absolute value. *)
Definition fits_double (z : Z) : bool := Z.abs z <? 2 ^ 1024 - 2 ^ 970.

(** The number [f"{v:.N%}"] formats: an [int], a [bool] or a [float];
    [None] when the format raises. *)
Definition py_number (v : pyval) : option Q :=
  match v with
  | PInt z => if fits_double z then Some (inject_Z z) else None
  | PBool b => Some (if b then 1%Q else 0%Q)
  | PFloat q => Some q
  | PNone | PStr _ | PList _ | PArr _ | PDict _ => None
  end.

(** The text of the exception [f"{v:.N%}"] raises. *)
Definition bad_percent (v : pyval) : string :=
  match v with
  | PStr _ => "Unknown format code '%' for object of type 'str'"
  | PInt _ => "int too large to convert to float"
  | _ => "unsupported format string passed to " ++ type_name v ++ ".__format__"
  end.

End Py.

(* ===================================================================== *)
(** * db_manager.py *)
(* ===================================================================== *)

Module Db.
Import Py.

(** What column [match_score REAL] holds: NULL, a number, or a text that
    is no number. *)
Inductive column :=
| Null
| Real (q : Q)
| Text (s : string).

(** One line of table [search_history]. [row_timestamp] is the value of
    [CURRENT_TIMESTAMP], whose text form orders like the number of seconds
    it denotes. The two JSON text columns are kept as the values that
    [json.dumps] was given; [row_flowise_response = None] and
    [row_recommendation = None] are SQL NULL. *)
Record row := Row {
  row_id : Z;
  row_timestamp : Z;
  row_candidate_name : string;
  row_job_title : string;
  row_match_score : column;
  row_recommendation : option string;
  row_social_profiles : pyval;
  row_flowise_response : option pyval;
  row_notes : string
}.

(** The database file: the table in rowid order, and the AUTOINCREMENT
    counter SQLite keeps in [sqlite_sequence] (largest rowid ever used). *)
Record db := Database {
  rows : list row;
  sqlite_sequence : Z
}.

Definition empty_db : db := {| rows := []; sqlite_sequence := 0 |}.

(** ** The SQL the module issues *)

(** [ORDER BY]: rows are scanned in rowid order and rows with equal keys
    keep that order (SQLite orders by the key, then by scan position). *)
Fixpoint insert_by (before : row -> row -> bool) (x : row) (l : list row) : list row :=
  match l with
  | [] => [x]
  | y :: l' => if before x y then x :: l else y :: insert_by before x l'
  end.

Fixpoint sort_by (before : row -> row -> bool) (l : list row) : list row :=
  match l with
  | [] => []
  | x :: l' => insert_by before x (sort_by before l')
  end.

Definition ts_asc (x y : row) : bool := row_timestamp x <=? row_timestamp y.
Definition ts_desc (x y : row) : bool := row_timestamp y <=? row_timestamp x.

(** [ORDER BY timestamp ASC] *)
Definition order_by_timestamp_asc (t : list row) : list row := sort_by ts_asc t.
(** [ORDER BY timestamp DESC] *)
Definition order_by_timestamp_desc (t : list row) : list row := sort_by ts_desc t.

(** [LIMIT k]: a negative [k] is no limit. *)
Definition limit (k : Z) (l : list row) : list row :=
  if k <? 0 then l else take (Z.to_nat k) l.

(** [DELETE FROM search_history WHERE id IN (...)] *)
Definition delete_where_id_in (ids : list Z) (t : list row) : list row :=
  filter (fun r => row_id r ∉ ids) t.

(** [DELETE FROM search_history WHERE id = ?] *)
Definition delete_where_id_eq (record_id : Z) (t : list row) : list row :=
  filter (fun r => row_id r ≠ record_id) t.

(** [SELECT COUNT( * ) FROM search_history] *)
Definition count (t : list row) : Z := Z.of_nat (length t).

(** The rowid AUTOINCREMENT gives the next inserted row. *)
Definition next_rowid (d : db) : Z :=
  1 + foldr Z.max (sqlite_sequence d) (row_id <$> rows d).

(** Arguments of [save_search_result] as the INSERT stores them;
    [arg_flowise_response = None] is the default [flowise_response=None]. *)
Record save_args := SaveArgs {
  arg_candidate_name : string;
  arg_job_title : string;
  arg_match_score : column;
  arg_recommendation : option string;
  arg_social_profiles : pyval;
  arg_flowise_response : option pyval;
  arg_notes : string
}.

(** The row [INSERT INTO search_history (...) VALUES (...)] adds. *)
Definition inserted_row (now : Z) (a : save_args) (d : db) : row :=
  {| row_id := next_rowid d;
     row_timestamp := now;
     row_candidate_name := arg_candidate_name a;
     row_job_title := arg_job_title a;
     row_match_score := arg_match_score a;
     row_recommendation := arg_recommendation a;
     row_social_profiles := arg_social_profiles a;
     row_flowise_response :=
       match arg_flowise_response a with
       | Some f => if truthy f then Some f else None
       | None => None
       end;
     row_notes := arg_notes a |}.

(** The table once the INSERT is committed, before the count and the
    eviction. *)
Definition inserted (now : Z) (a : save_args) (d : db) : db :=
  {| rows := rows d ++ [inserted_row now a d]; sqlite_sequence := next_rowid d |}.

(** ** What the INSERT makes of the values it is given *)

(** The arguments [save_search_result] is called with, those that come
    from a reply as the Python values they are. *)
Record save_call := SaveCall {
  call_candidate_name : string;
  call_job_title : pyval;
  call_match_score : pyval;
  call_recommendation : pyval;
  call_social_profiles : pyval;
  call_flowise_response : option pyval;
  call_notes : string
}.

(** [sqlite3] binds an [int] that fits 64 bits. *)
Definition fits_int64 (z : Z) : bool := (- 2 ^ 63 <=? z) && (z <? 2 ^ 63).

(** How SQLite converts between numbers and texts. *)
Record conversions := Conversions {
  (** the number a text denotes, when it is a well-formed numeric literal *)
  numeric_text : string -> option Q;
  (** the text of a REAL kept in a TEXT column *)
  real_text : Q -> string;
  (** the double nearest to an integer beyond [2^53] *)
  round_double : Z -> Q
}.

(** The REAL SQLite makes of an INTEGER kept in a REAL column. *)
Definition int_real (sqlite : conversions) (z : Z) : Q :=
  if Z.abs z <=? 2 ^ 53 then inject_Z z else round_double sqlite z.

(** A value bound to a TEXT column: [Some None] is NULL, [None] is the
    exception [sqlite3] raises on a list or a dictionary and on an [int]
    beyond 64 bits. *)
Definition bind_text (sqlite : conversions) (v : pyval) : option (option string) :=
  match v with
  | PNone => Some None
  | PStr s => Some (Some s)
  | PBool b => Some (Some (if b then "1" else "0"))
  | PInt z => if fits_int64 z then Some (Some (pretty z)) else None
  | PFloat q => Some (Some (real_text sqlite q))
  | PList _ | PArr _ | PDict _ => None
  end.

(** A value bound to the REAL column. *)
Definition bind_real (sqlite : conversions) (v : pyval) : option column :=
  match v with
  | PNone => Some Null
  | PStr s =>
      Some (match numeric_text sqlite s with Some q => Real q | None => Text s end)
  | PBool b => Some (Real (if b then 1 else 0))
  | PInt z => if fits_int64 z then Some (Real (int_real sqlite z)) else None
  | PFloat q => Some (Real q)
  | PList _ | PArr _ | PDict _ => None
  end.

(** The values the INSERT stores for a call, [None] when it raises:
    a parameter is refused, or [job_title], which is NOT NULL, is
    [None]. *)
Definition bind (sqlite : conversions) (c : save_call) : option save_args :=
  match bind_text sqlite (call_job_title c), bind_real sqlite (call_match_score c),
        bind_text sqlite (call_recommendation c) with
  | Some (Some job_title), Some match_score, Some recommendation =>
      Some {| arg_candidate_name := call_candidate_name c;
              arg_job_title := job_title;
              arg_match_score := match_score;
              arg_recommendation := recommendation;
              arg_social_profiles := call_social_profiles c;
              arg_flowise_response := call_flowise_response c;
              arg_notes := call_notes c |}
  | _, _, _ => None
  end.

Section Store.
(** [MAX_RECORDS = int(os.environ.get("MAX_SEARCH_HISTORY", 5))] *)
Variable MAX_RECORDS : Z.

(** [save_search_result]: insert, then delete the
    [total_records - MAX_RECORDS] first rows by ascending timestamp.
    [now] is the clock reading [CURRENT_TIMESTAMP] stores. *)
Definition save_search_result (now : Z) (a : save_args) (d : db) : Z * db :=
  let record_id := next_rowid d in
  let t := rows d ++ [inserted_row now a d] in
  let total_records := count t in
  let t' :=
    if MAX_RECORDS <? total_records
    then delete_where_id_in
           (row_id <$> limit (total_records - MAX_RECORDS) (order_by_timestamp_asc t)) t
    else t in
  (record_id, {| rows := t'; sqlite_sequence := record_id |}).

(** A record as [get_search_history] returns it (no [flowise_response]). *)
Record history_record := HistoryRecord {
  h_id : Z;
  h_timestamp : Z;
  h_candidate_name : string;
  h_job_title : string;
  h_match_score : column;
  h_recommendation : option string;
  h_social_profiles : pyval;
  h_notes : string
}.

Definition record_of_row (r : row) : history_record :=
  {| h_id := row_id r;
     h_timestamp := row_timestamp r;
     h_candidate_name := row_candidate_name r;
     h_job_title := row_job_title r;
     h_match_score := row_match_score r;
     h_recommendation := row_recommendation r;
     h_social_profiles := row_social_profiles r;
     h_notes := row_notes r |}.

(** [get_search_history] *)
Definition get_search_history (d : db) : list history_record :=
  record_of_row <$> limit MAX_RECORDS (order_by_timestamp_desc (rows d)).

End Store.

(** [get_search_result_by_id] *)
Definition get_search_result_by_id (record_id : Z) (d : db) : option row :=
  head (filter (fun r => row_id r = record_id) (rows d)).

(** [clear_all_search_history] *)
Definition clear_all_search_history (d : db) : db :=
  {| rows := []; sqlite_sequence := sqlite_sequence d |}.

(** Whether the SQLite calls of one operation go through or raise. *)
Inductive sqlite := SqlOk | SqlRaises.

(** [delete_search_record]: [True] unless SQLite raised. *)
Definition delete_search_record (io : sqlite) (record_id : Z) (d : db) : bool * db :=
  match io with
  | SqlOk => (true, {| rows := delete_where_id_eq record_id (rows d); sqlite_sequence := sqlite_sequence d |})
  | SqlRaises => (false, d)
  end.

End Db.

(* ===================================================================== *)
(** * Effects: outgoing calls and the database *)
(* ===================================================================== *)

Module Eff.

(** What [response.json()] does: the decoded body, or an exception with
    text [e]. *)
Inductive decoded (A : Type) :=
| Json (a : A)
| NotJson (e : string).
Arguments Json {A}.
Arguments NotJson {A}.

(** What [requests.post] does: a response, or an exception with text [e];
    [requests.Timeout] is the one the callers tell apart. *)
Inductive http_result (A : Type) :=
| Response (status_code : Z) (text : string) (json : decoded A)
| RaisesTimeout (e : string)
| RaisesOther (e : string).
Arguments Response {A}.
Arguments RaisesTimeout {A}.
Arguments RaisesOther {A}.

Section Monad.
Context {Env Ev : Type}.

(** The state a request runs in: the history database and the calls made so
    far, oldest first. *)
Record world := World {
  store : Db.db;
  log : list Ev
}.

Definition M (A : Type) : Type := Env -> world -> A * world.

Definition ret {A} (a : A) : M A := fun _ w => (a, w).

Definition bind {A B} (m : M A) (k : A -> M B) : M B :=
  fun e w => let '(a, w') := m e w in k a e w'.

Definition ask : M Env := fun e w => (e, w).

Definition emit (ev : Ev) : M unit :=
  fun _ w => (tt, {| store := store w; log := log w ++ [ev] |}).

Definition get_store : M Db.db := fun _ w => (store w, w).

Definition put_store (d : Db.db) : M unit :=
  fun _ w => (tt, {| store := d; log := log w |}).

End Monad.
Arguments world : clear implicits.
Arguments M : clear implicits.

Declare Scope eff_scope.
Delimit Scope eff_scope with eff.
Notation "x <- m ;; k" := (bind m (fun x => k))
  (at level 100, m at next level, right associativity) : eff_scope.
Notation "m ;;; k" := (bind m (fun _ => k))
  (at level 100, right associativity) : eff_scope.

End Eff.

(* ===================================================================== *)
(** * app_with_progress.py *)
(* ===================================================================== *)

Module Progress.
Import Py Eff.
Local Open Scope string_scope.
Local Open Scope Z_scope.
Local Open Scope eff_scope.

(** ** Validation functions *)

Definition email_local_char (c : ascii) : bool :=
  isalpha_ascii c || isdecimal c ||
  existsb (Ascii.eqb c) (chars "._%+-").

Definition email_domain_char (c : ascii) : bool :=
  isalpha_ascii c || isdecimal c || existsb (Ascii.eqb c) (chars ".-").

(** Cut a list at the first occurrence of [a]. *)
Fixpoint split_first (a : ascii) (l : list ascii) : option (list ascii * list ascii) :=
  match l with
  | [] => None
  | c :: l' =>
      if Ascii.eqb c a then Some ([], l')
      else match split_first a l' with
           | Some (u, v) => Some (c :: u, v)
           | None => None
           end
  end.

(** Cut a list at the last occurrence of [a]. *)
Definition split_last (a : ascii) (l : list ascii) : option (list ascii * list ascii) :=
  match split_first a (rev l) with
  | Some (u, v) => Some (rev v, rev u)
  | None => None
  end.

(** The whole of [l] reads as local part, [@], domain, [.], letters. *)
Definition email_shape (l : list ascii) : bool :=
  match split_first "@" l with
  | None => false
  | Some (local, rest) =>
      match local with [] => false | _ => forallb email_local_char local end &&
      match split_last "." rest with
      | None => false
      | Some (domain, tld) =>
          match domain with [] => false | _ => forallb email_domain_char domain end &&
          (2 <=? length tld)%nat && forallb isalpha_ascii tld
      end
  end.

(** [re.match(r'^[a-zA-Z0-9._%+-]+@[a-zA-Z0-9.-]+\.[a-zA-Z]{2,}$', email)];
    [$] also matches before one final newline. *)
Definition email_pattern_match (email : string) : bool :=
  let l := chars email in
  email_shape
    (match rev l with
     | c :: l' => if Ascii.eqb c "010" then rev l' else l
     | [] => l
     end).

(** [validate_email] *)
Definition validate_email (email : string) : bool * string :=
  if negb (nonempty email) then (true, "")
  else if email_pattern_match email then (true, "")
  else (false, "Invalid email format").

Definition phone_separator (c : ascii) : bool :=
  isspace c || existsb (Ascii.eqb c) (chars "-()+").

(** [re.sub(r'[\s\-\(\)\+]', '', phone)] *)
Definition remove_separators (phone : string) : string :=
  str (List.filter (fun c => negb (phone_separator c)) (chars phone)).

(** [validate_phone] *)
Definition validate_phone (phone : string) : bool * string :=
  if negb (nonempty phone) then (true, "")
  else
    let clean_phone := remove_separators phone in
    if (7 <=? len clean_phone) && str_isdigit clean_phone then (true, "")
    else (false, "Invalid phone format (must be 7+ digits)").

(** [validate_cv_jd] *)
Definition validate_cv_jd (cv_text jd_text : string) : bool * string :=
  if negb (nonempty cv_text) || (len (strip cv_text) <? 20)
  then (false, "CV must be at least 20 characters")
  else if negb (nonempty jd_text) || (len (strip jd_text) <? 20)
  then (false, "Job Description must be at least 20 characters")
  else (true, "").

(** [validate_candidate_name] *)
Definition validate_candidate_name (name : string) : bool * string :=
  if negb (nonempty name) || (len (strip name) <? 2)
  then (false, "Candidate name is required (at least 2 characters)")
  else (true, "").

(** ** Payload *)

(** The request body [prepare_payload] builds. *)
Record payload := Payload {
  jd_title : string;
  jd_description : string;
  candidate_id : string;
  candidate_name : string;
  candidate_email : string;
  candidate_phone : string;
  cv_text : string;
  include_shap : bool;
  include_social_weighting : bool;
  social_media_profiles : dict
}.

(** [[url] if url else []] *)
Definition links (url : string) : pyval :=
  PList (if nonempty url then [url] else []).

Definition values (d : dict) : list pyval := (map_to_list d).*2.

(** [sum(1 for v in d.values() if v)] *)
Definition count_truthy (d : dict) : Z :=
  Z.of_nat (length (List.filter truthy (values d))).

(** [sum(len(v) for v in d.values() if isinstance(v, list))] *)
Definition total_list_len (d : dict) : Z :=
  foldr Z.add 0
    (map (fun v => match v with PList l => Z.of_nat (length l) | _ => 0 end) (values d)).

(** The five provider entries [prepare_payload] starts from. *)
Definition provider_lists (github_url linkedin_url portfolio_url facebook_url other_social : string) : dict :=
  <["other" := links other_social]>
  (<["facebook" := links facebook_url]>
  (<["portfolio" := links portfolio_url]>
  (<["linkedin" := links linkedin_url]>
  (<["github" := links github_url]> ∅)))).

(** [prepare_payload] *)
Definition prepare_payload
    (jd_text cv_text candidate_name candidate_id candidate_email candidate_phone
     github_url linkedin_url portfolio_url facebook_url other_social : string) : payload :=
  let social_profiles :=
    provider_lists github_url linkedin_url portfolio_url facebook_url other_social in
  let num_links := count_truthy social_profiles in
  let presence_score := py_min (inject_Z num_links / 4) 1 in
  let social_profiles := <["presence_score" := PFloat presence_score]> social_profiles in
  let social_profiles :=
    <["total_links" := PInt (total_list_len social_profiles)]> social_profiles in
  {| jd_title := "Candidate Evaluation";
     jd_description := jd_text;
     candidate_id := str_or candidate_id "auto";
     candidate_name := str_or candidate_name "Unknown";
     candidate_email := str_or candidate_email "";
     candidate_phone := str_or candidate_phone "";
     cv_text := cv_text;
     include_shap := true;
     include_social_weighting := 0 <? num_links;
     social_media_profiles := social_profiles |}.

(** ** The two HTTP clients *)

(** The dictionary [call_ranking_api] returns: the decoded body of the
    reply, whatever JSON value it is, or the error dictionary the client
    builds. *)
Abbreviation ranking_response := pyval.

(** [{}] *)
Definition empty_response : ranking_response := PDict ∅.

(** [{'error': msg}] and [{'error': msg, 'status_code': code}] *)
Definition error_response (msg : string) (status : option Z) : ranking_response :=
  let d : dict := <["error" := PStr msg]> ∅ in
  PDict match status with
        | Some c => <["status_code" := PInt c]> d
        | None => d
        end.

(** ['error' in response]; [None] when the test raises. *)
Definition has_error (r : ranking_response) : option bool := py_in "error" r.

(** [response['flowise_evaluation'] = flowise_response], on a dictionary *)
Definition set_flowise_evaluation (f : pyval) (d : dict) : ranking_response :=
  PDict (<["flowise_evaluation" := f]> d).

Inductive event :=
| PostRanking (body : payload)
| PostFlowise (body : dict)
| SaveSearchResult (a : Db.save_args).

(** The world outside one run of the pipeline: what the two services
    answer, the clock, whether SQLite raises during the save and, when it
    does, whether the INSERT was committed before; and the configured
    capacity [db_manager.MAX_RECORDS]. *)
Record env := Env {
  ranking_api : payload -> http_result ranking_response;
  flowise_api : dict -> http_result pyval;
  now : Z;
  sqlite_io : Db.sqlite;
  insert_committed : bool;
  MAX_RECORDS : Z
}.

Abbreviation M := (Eff.M env event).

(** [requests.post(API_URL, json=payload, timeout=timeout)] *)
Definition post_ranking (body : payload) : M (http_result ranking_response) :=
  emit (PostRanking body) ;;;
  e <- ask ;;
  ret (ranking_api e body).

(** [requests.post(flowise_url, json=payload, timeout=300)] *)
Definition post_flowise (body : dict) : M (http_result pyval) :=
  emit (PostFlowise body) ;;;
  e <- ask ;;
  ret (flowise_api e body).

(** What [call_ranking_api] returns for each outcome of the request. *)
Definition ranking_reply (r : http_result ranking_response) : ranking_response :=
  match r with
  | Response status_code _ json =>
      if status_code =? 200 then
        match json with
        | Json result => result
        | NotJson e => error_response ("Error calling API: " ++ e) None
        end
      else error_response ("API Error: " ++ pretty status_code) (Some status_code)
  | RaisesTimeout _ => error_response "Request timeout (5 minutes exceeded)" None
  | RaisesOther e => error_response ("Error calling API: " ++ e) None
  end.

(** [call_ranking_api] *)
Definition call_ranking_api (body : payload) : M ranking_response :=
  r <- post_ranking body ;;
  ret (ranking_reply r).

(** [{'error': msg, 'success': False}], with ['status_code'] when given *)
Definition flowise_error (msg : string) (status : option Z) : dict :=
  let d : dict := <["success" := PBool false]> (<["error" := PStr msg]> ∅) in
  match status with
  | Some c => <["status_code" := PInt c]> d
  | None => d
  end.

(** [x.strip() if x else None] *)
Definition strip_or_none (x : string) : pyval :=
  if nonempty x then PStr (strip x) else PNone.

(** What [call_flowise_evaluation] returns for each outcome of the request. *)
Definition flowise_reply (r : http_result pyval) : pyval :=
  match r with
  | Response status_code _ json =>
      if status_code =? 200 then
        match json with
        | Json result => result
        | NotJson e => PDict (flowise_error ("Error calling Flowise: " ++ e) None)
        end
      else PDict (flowise_error ("Flowise API Error: " ++ pretty status_code)
                                (Some status_code))
  | RaisesTimeout _ =>
      PDict (flowise_error
        "Flowise timeout (300 seconds exceeded - Flowise may need more time for scraping)"
        None)
  | RaisesOther e => PDict (flowise_error ("Error calling Flowise: " ++ e) None)
  end.

(** ** The pipeline *)

(** [save_search_result(...)] as the pipeline sees it, for arguments the
    INSERT accepts: [None] when SQLite raised, else the new id. The INSERT
    is committed before the count and the eviction, so that an exception
    raised after it leaves the new row. *)
Definition save_search_result (a : Db.save_args) : M (option Z) :=
  emit (SaveSearchResult a) ;;;
  e <- ask ;;
  d <- get_store ;;
  match sqlite_io e with
  | Db.SqlRaises =>
      (if insert_committed e then put_store (Db.inserted (now e) a d) else ret tt) ;;;
      ret None
  | Db.SqlOk =>
      let '(record_id, d') := Db.save_search_result (MAX_RECORDS e) (now e) a d in
      put_store d' ;;;
      ret (Some record_id)
  end.

(** [(social_profiles.get(k, []) or [''])[0] or ''], on the lists
    [prepare_payload] stores. *)
Definition first_link (social_profiles : dict) (k : string) : string :=
  match social_profiles !! k with
  | Some (PList (u :: _)) => u
  | _ => ""
  end.

(** [v[:200]]: the first 200 characters of a string, the first 200
    elements of a list; [None] when the value cannot be sliced. *)
Definition slice_200 (v : pyval) : option pyval :=
  match v with
  | PStr s => Some (PStr (prefix 200 s))
  | PList l => Some (PList (take 200 l))
  | PArr l => Some (PArr (take 200 l))
  | PNone | PBool _ | PInt _ | PFloat _ | PDict _ => None
  end.

(** What [execute_ranking] returns,
    [(baseline, social, delta, full_response, flowise_html)], or the text
    of the exception that leaves it. *)
Definition ranking_output : Type :=
  string * string * string * ranking_response * string.

Inductive outcome :=
| Returns (out : ranking_output)
| Raises (e : string).

Section Rendering.
(** [f"{x:.N%}"] *)
Variable format_percent : nat -> Q -> string.
(** [format_results] on a response in which ['error'] does not occur:
    the three texts, or the one its own [except] returns. *)
Variable format_results_ok : ranking_response -> string * string * string.
(** [format_flowise_output] *)
Variable format_flowise_output : ranking_response -> option payload -> string.
(** [str(v)] for a value that is not a string *)
Variable py_repr : pyval -> string.
(** How SQLite converts the values of a reply that are not of the type
    of their column. *)
Variable sqlite : Db.conversions.

(** [str(v)] *)
Definition py_str (v : pyval) : string :=
  match v with PStr s => s | _ => py_repr v end.

(** The request body of [call_flowise_evaluation]. *)
Definition flowise_body
    (candidate_name candidate_email candidate_phone
     github_url linkedin_url portfolio_url facebook_url : string)
    (match_score : Q) : dict :=
  <["cv_summary" := PStr ("Match score: " ++ format_percent 0 match_score)]>
  (<["facebook_url" := strip_or_none facebook_url]>
  (<["portfolio_url" := strip_or_none portfolio_url]>
  (<["linkedin_url" := strip_or_none linkedin_url]>
  (<["github_url" := strip_or_none github_url]>
  (<["candidate_phone" := strip_or_none candidate_phone]>
  (<["candidate_email" := strip_or_none candidate_email]>
  (<["candidate_name" := PStr (strip candidate_name)]> ∅))))))).

(** [call_flowise_evaluation]: building the request raises when the match
    score is no number, and the [except] returns the error dictionary
    without any request sent. *)
Definition call_flowise_evaluation
    (candidate_name candidate_email candidate_phone
     github_url linkedin_url portfolio_url facebook_url : string)
    (match_score : pyval) : M pyval :=
  if negb (nonempty candidate_name) || negb (nonempty (strip candidate_name))
  then ret (PDict (flowise_error "Candidate name is required" None))
  else
    match py_number match_score with
    | None =>
        ret (PDict (flowise_error ("Error calling Flowise: " ++ bad_percent match_score) None))
    | Some score =>
        let body :=
          flowise_body candidate_name candidate_email candidate_phone
            github_url linkedin_url portfolio_url facebook_url score in
        r <- post_flowise body ;;
        ret (flowise_reply r)
    end.

(** The Flowise request [execute_ranking] makes for payload [p] once the
    ranking API gave a response with match score [score]. *)
Definition flowise_request (p : payload) (score : Q) : dict :=
  let social_profiles := social_media_profiles p in
  flowise_body (candidate_name p) (candidate_email p) (candidate_phone p)
    (first_link social_profiles "github")
    (first_link social_profiles "linkedin")
    (first_link social_profiles "portfolio")
    (first_link social_profiles "facebook")
    score.

(** [format_results]: the test ['error' in response] and the [get] that
    follows it stand before the [try], so that they raise on a body that
    is not a dictionary. *)
Definition format_results (response : ranking_response)
    : (string * string * string) + string :=
  match py_in "error" response with
  | None => inr (not_iterable response)
  | Some true =>
      match response with
      | PDict d =>
          inl ("Error: " ++ py_str (default (PStr "Unknown error") (d !! "error")), "", "")
      | _ => inr (no_attribute_get response)
      end
  | Some false => inl (format_results_ok response)
  end.

(** The recommendation the save block takes from the response: that of
    ['social_weighting'] when it holds one, else that of the response,
    else the match score as a percentage; [None] when reading it raises. *)
Definition recommendation_of (d : dict) (match_score : pyval) : option pyval :=
  match default (PDict ∅) (d !! "social_weighting") with
  | PDict sw =>
      let r := default PNone (sw !! "recommendation") in
      if truthy r then Some r
      else
        let r := default PNone (d !! "recommendation") in
        if truthy r then Some r
        else
          match py_number match_score with
          | Some score => Some (PStr ("Match score: " ++ format_percent 1 score))
          | None => None
          end
  | _ => None
  end.

(** The arguments of the call of [save_search_result] in
    [execute_ranking], the recommendation cut to 200 characters; [None]
    when the statements before the call raise. *)
Definition save_arguments
    (p : payload) (response : ranking_response) (flowise_response : pyval)
    : option Db.save_call :=
  match response with
  | PDict d =>
      let jd_title := default (PStr "Job Position") (d !! "jd_title") in
      let match_score := default (PInt 0) (d !! "match_score") in
      match recommendation_of d match_score with
      | Some recommendation =>
          match slice_200 recommendation with
          | Some recommendation =>
              Some {| Db.call_candidate_name := candidate_name p;
                      Db.call_job_title := jd_title;
                      Db.call_match_score := match_score;
                      Db.call_recommendation := recommendation;
                      Db.call_social_profiles := default (PDict ∅) (d !! "social_profiles");
                      Db.call_flowise_response := Some flowise_response;
                      Db.call_notes := "" |}
          | None => None
          end
      | None => None
      end
  | _ => None
  end.

(** The record [execute_ranking] saves: what the INSERT stores for the
    arguments of the call; [None] when the [try] around the save is left
    by an exception before a row is written. *)
Definition search_record
    (p : payload) (response : ranking_response) (flowise_response : pyval)
    : option Db.save_args :=
  match save_arguments p response flowise_response with
  | Some c => Db.bind sqlite c
  | None => None
  end.

(** The save block of [execute_ranking]: the [try] and its [except]. *)
Definition save_block
    (p : payload) (response : ranking_response) (flowise_response : pyval) : M unit :=
  match search_record p response flowise_response with
  | Some a => save_search_result a ;;; ret tt
  | None => ret tt
  end.

(** [execute_ranking]; [None] is the empty payload [{}]. *)
Definition execute_ranking (payload_dict : option payload) : M outcome :=
  match payload_dict with
  | None =>
      ret (Returns ("Error: No payload", "", "", empty_response,
                    "<p style='color: red;'>No data available</p>"))
  | Some p =>
      response <- call_ranking_api p ;;
      match format_results response with
      | inr e => ret (Raises e)
      | inl (baseline, social, delta) =>
          match has_error response with
          | None => ret (Raises (not_iterable response))
          | Some error =>
              if negb error && nonempty (candidate_name p) then
                match response with
                | PDict d =>
                    let social_profiles := social_media_profiles p in
                    flowise_response <-
                      call_flowise_evaluation
                        (candidate_name p) (candidate_email p) (candidate_phone p)
                        (first_link social_profiles "github")
                        (first_link social_profiles "linkedin")
                        (first_link social_profiles "portfolio")
                        (first_link social_profiles "facebook")
                        (default (PInt 0) (d !! "match_score")) ;;
                    let response := set_flowise_evaluation flowise_response d in
                    let flowise_html := format_flowise_output response payload_dict in
                    save_block p response flowise_response ;;;
                    ret (Returns (baseline, social, delta, response, flowise_html))
                | _ => ret (Raises (no_attribute_get response))
                end
              else
                let flowise_html := format_flowise_output response payload_dict in
                save_block p response (PDict ∅) ;;;
                ret (Returns (baseline, social, delta, response, flowise_html))
          end
      end
  end.

(** [validate_and_submit]: [(baseline_output, validation_error,
    state_payload, status_text)]. *)
Definition validate_and_submit
    (cand_name cand_id cand_email cand_phone jd_t cv_t gh li port fb other : string)
    : string * string * option payload * string :=
  let '(valid_name, error_name) := validate_candidate_name cand_name in
  if negb valid_name then ("", error_name, None, "") else
  let '(valid_cv_jd, error_cv_jd) := validate_cv_jd cv_t jd_t in
  if negb valid_cv_jd then ("", error_cv_jd, None, "") else
  let '(valid_email, error_email) := validate_email cand_email in
  if negb valid_email then ("", error_email, None, "") else
  let '(valid_phone, error_phone) := validate_phone cand_phone in
  if negb valid_phone then ("", error_phone, None, "") else
  let payload :=
    prepare_payload jd_t cv_t cand_name cand_id cand_email cand_phone gh li port fb other in
  ("", "All fields valid! Processing...", Some payload, "").

(** [submit_btn.click(validate_and_submit, ...).then(execute_ranking, ...)]:
    the validation message and what [execute_ranking] returns on the
    payload kept in [state_payload]. *)
Definition submit
    (cand_name cand_id cand_email cand_phone jd_t cv_t gh li port fb other : string)
    : M (string * option payload * outcome) :=
  let '(_, validation_error, state_payload, _) :=
    validate_and_submit cand_name cand_id cand_email cand_phone jd_t cv_t gh li port fb other in
  out <- execute_ranking state_payload ;;
  ret (validation_error, state_payload, out).

End Rendering.

End Progress.

(* ===================================================================== *)
(** * app_gdpr_compliant.py *)
(* ===================================================================== *)

Module Gdpr.
Import Py Eff.
Local Open Scope string_scope.
Local Open Scope Z_scope.
Local Open Scope eff_scope.

(** The request body sent to the ranking API. *)
Record ranking_request := RankingRequest {
  jd_title : string;
  jd_description : string;
  candidate_id : string;
  candidate_name : string;
  cv_text : string;
  social_media_profiles : dict;
  include_shap : bool
}.

Inductive event :=
| PostRanking (body : ranking_request)
| PostFlowise (question : string)
| SaveSearchResult (a : Db.save_args).

(** The world outside one run of the pipeline: the replies of the ranking
    API and of the back end to [/flowise/evaluate-social], bodies being
    any JSON value; the clock; whether SQLite raises during the save and,
    when it does, whether the INSERT was committed before; whether it
    raises when the history is read; the capacity. *)
Record env := Env {
  ranking_api : ranking_request -> http_result pyval;
  flowise_api : string -> http_result pyval;
  now : Z;
  sqlite_save : Db.sqlite;
  insert_committed : bool;
  sqlite_read : Db.sqlite;
  MAX_RECORDS : Z
}.

Abbreviation M := (Eff.M env event).

(** What the function returns: [(match_score, recommendation, explanation,
    social_display, flowise_evaluation, history_display)]; the first two
    are the values of the reply, or [None] and a message. *)
Definition ranking_output : Type :=
  pyval * pyval * string * string * string * string.

Definition out_match_score (o : ranking_output) : pyval := o.1.1.1.1.1.

(** The dictionary returned when the evaluation failed. *)
Definition flowise_failure (error : pyval) : pyval :=
  PDict
    (<["risk_flags" := PList []]>
    (<["social_presence_score" := PFloat 0]>
    (<["profiles_verified" := PList []]>
    (<["profiles_found" := PList []]>
    (<["error" := error]> ∅))))).

(** [requests.post(flowise_endpoint, json={"question": question}, ...)] *)
Definition post_flowise (question : string) : M (http_result pyval) :=
  emit (PostFlowise question) ;;;
  e <- ask ;;
  ret (flowise_api e question).

(** What [evaluate_with_flowise_via_be] returns for each outcome of the
    request: the value under ["evaluation"] as it is when ["success"] is
    set, else the failure dictionary; a body that is not a dictionary
    makes [result.get] raise, which the [except] turns into a failure. *)
Definition flowise_reply (r : http_result pyval) : pyval :=
  match r with
  | Response status_code text json =>
      if status_code =? 200 then
        match json with
        | Json result =>
            match result with
            | PDict d =>
                if truthy (default PNone (d !! "success"))
                then default (PDict ∅) (d !! "evaluation")
                else flowise_failure (default (PStr "Unknown error") (d !! "error"))
            | _ => flowise_failure (PStr (no_attribute_get result))
            end
        | NotJson e => flowise_failure (PStr e)
        end
      else flowise_failure (PStr ("BE returned " ++ pretty status_code ++ ": " ++ text))
  | RaisesTimeout e => flowise_failure (PStr e)
  | RaisesOther e => flowise_failure (PStr e)
  end.

(** [evaluate_with_flowise_via_be] *)
Definition evaluate_with_flowise_via_be (question : string) : M pyval :=
  r <- post_flowise question ;;
  ret (flowise_reply r).

(** [x.strip() if x.strip() else None] *)
Definition stripped_or_none (x : string) : pyval :=
  if nonempty (strip x) then PStr (strip x) else PNone.

(** The social-profile mapping: the six entries, those with a value kept,
    then ["other"] when given. *)
Definition build_social_profiles
    (email phone github_url linkedin_url portfolio_url facebook_url other_social : string)
    : dict :=
  let social_profiles : dict :=
    <["facebook" := stripped_or_none facebook_url]>
    (<["portfolio" := stripped_or_none portfolio_url]>
    (<["linkedin" := stripped_or_none linkedin_url]>
    (<["github" := stripped_or_none github_url]>
    (<["phone" := stripped_or_none phone]>
    (<["email" := stripped_or_none email]> ∅))))) in
  let social_profiles : dict := filter (fun kv => truthy kv.2 = true) social_profiles in
  if nonempty (strip other_social)
  then <["other" := PStr (strip other_social)]> social_profiles
  else social_profiles.

(** The request body sent to the ranking API. *)
Definition ranking_payload
    (jd_title jd_description cv_text candidate_name : string) (social_profiles : dict)
    : ranking_request :=
  {| jd_title := str_or jd_title "Job Position";
     jd_description := jd_description;
     candidate_id := lower (replace_char " " "_" candidate_name);
     candidate_name := candidate_name;
     cv_text := cv_text;
     social_media_profiles := social_profiles;
     include_shap := true |}.

(** The exception [format_search_history_display] raises on a record:
    [f"{record['match_score']:.1%}"] on a score that is NULL or a text
    that is no number, [record['recommendation'][:100]] on a NULL
    recommendation. *)
Definition record_error (h : Db.history_record) : option string :=
  match Db.h_match_score h with
  | Db.Null => Some (bad_percent PNone)
  | Db.Text s => Some (bad_percent (PStr s))
  | Db.Real _ =>
      match Db.h_recommendation h with
      | None => Some "'NoneType' object is not subscriptable"
      | Some _ => None
      end
  end.

Section Rendering.
(** [API_URL] *)
Variable API_URL : string.
(** [FloweiseCandidateQuery.build_query], of [api.services.flowise_handler]:
    [candidate_name, email, phone, github, linkedin, portfolio, facebook,
    other_social, cv_summary]. *)
Variable build_query :
  string -> string -> string -> string -> string -> string -> string -> string ->
  option string -> string.
(** The explanation built from the dictionary of the ranking result: its
    text, or the text of the exception raised while it is built. *)
Variable format_explanation : dict -> string + string.
(** The text built from a Flowise evaluation without ["error"], or the
    text of the exception raised while it is built. *)
Variable format_flowise_evaluation : dict -> string + string.
(** [json.dumps(d, indent=2)] *)
Variable json_dumps : dict -> string.
(** [str(v)] for a value that is not a string *)
Variable py_repr : pyval -> string.
(** [datetime.now().strftime('%Y-%m-%d %H:%M')] at clock reading [now] *)
Variable strftime : Z -> string.
(** The text [format_search_history_display] builds from a non-empty
    history. *)
Variable format_history : list Db.history_record -> string.
(** How SQLite converts the values of a reply that are not of the type
    of their column. *)
Variable sqlite : Db.conversions.

(** [str(v)] *)
Definition py_str (v : pyval) : string :=
  match v with PStr s => s | _ => py_repr v end.

(** [build_flowise_question_from_fields] *)
Definition build_flowise_question_from_fields
    (candidate_name email phone github_url linkedin_url portfolio_url facebook_url
     other_social cv_summary : string) : string :=
  build_query candidate_name email phone github_url linkedin_url portfolio_url
    facebook_url other_social
    (if nonempty cv_summary then Some (prefix 200 cv_summary) else None).

(** [save_search_result(...)] as the pipeline sees it, for arguments the
    INSERT accepts. The INSERT is committed before the count and the
    eviction, so that an exception raised after it leaves the new row. *)
Definition save_search_result (a : Db.save_args) : M (option Z) :=
  emit (SaveSearchResult a) ;;;
  e <- ask ;;
  d <- get_store ;;
  match sqlite_save e with
  | Db.SqlRaises =>
      (if insert_committed e then put_store (Db.inserted (now e) a d) else ret tt) ;;;
      ret None
  | Db.SqlOk =>
      let '(record_id, d') := Db.save_search_result (MAX_RECORDS e) (now e) a d in
      put_store d' ;;;
      ret (Some record_id)
  end.

(** [format_search_history_display]: the text, or the text of the
    exception raised, by SQLite ([database error] stands for its text) or
    on the first record that cannot be shown. *)
Definition format_search_history_display : M (string + string) :=
  e <- ask ;;
  match sqlite_read e with
  | Db.SqlRaises => ret (inr "database error")
  | Db.SqlOk =>
      d <- get_store ;;
      ret match Db.get_search_history (MAX_RECORDS e) d with
          | [] => inl "No search history yet"
          | history =>
              match head (omap record_error history) with
              | Some err => inr err
              | None => inl (format_history history)
              end
          end
  end.

(** The tuple of the outer [except Exception as e]. *)
Definition error_output (e : string) : ranking_output :=
  let error_msg := "Error: " ++ e in
  (PNone, PStr "Error occurred",
   "An error occurred while ranking the CV:" ++ String "010" error_msg,
   error_msg, "", "").

(** What is read from the ranking result: the match score, the
    recommendation and the explanation; or the text of the exception
    raised, by [result.get] on a body that is not a dictionary or while
    the explanation is built. *)
Definition read_result (result : pyval) : (pyval * pyval * string) + string :=
  match result with
  | PDict d =>
      match format_explanation d with
      | inl explanation =>
          inl (default (PInt 0) (d !! "match_score"),
               default (PStr "No recommendation") (d !! "recommendation"),
               explanation)
      | inr e => inr e
      end
  | _ => inr (no_attribute_get result)
  end.

(** The branch on ["error" not in flowise_result]: the evaluation text,
    the presence score and the explanation that follow; or the text of
    the exception raised, by the test on a value that is no container, by
    [flowise_result.get] on one that is no dictionary, or while the text
    is built. *)
Definition read_flowise_result (explanation : string) (flowise_result : pyval)
    : (string * pyval * string) + string :=
  match py_in "error" flowise_result with
  | None => inr (not_iterable flowise_result)
  | Some error =>
      match flowise_result with
      | PDict d =>
          if error then
            inl ("Flowise evaluation skipped: " ++
                   py_str (default (PStr "Unknown error") (d !! "error")),
                 PFloat 0, explanation)
          else
            match format_flowise_evaluation d with
            | inl flowise_evaluation =>
                inl (flowise_evaluation,
                     default (PFloat 0) (d !! "social_presence_score"),
                     explanation ++ String "010" (String "010" flowise_evaluation))
            | inr e => inr e
            end
      | _ => inr (no_attribute_get flowise_result)
      end
  end.

(** The three checks at the head of [rank_cv_with_social_and_flowise]. *)
Definition inputs_present (candidate_name cv_text jd_description : string) : bool :=
  nonempty (strip candidate_name) && nonempty (strip cv_text) &&
  nonempty (strip jd_description).

(** The arguments of the call of [save_search_result]. *)
Definition save_arguments
    (jd_title candidate_name : string) (match_score recommendation : pyval)
    (social_profiles : dict) (social_presence_score : pyval) (now : Z)
    : Db.save_call :=
  {| Db.call_candidate_name := candidate_name;
     Db.call_job_title := PStr jd_title;
     Db.call_match_score := match_score;
     Db.call_recommendation := recommendation;
     Db.call_social_profiles := PDict social_profiles;
     Db.call_flowise_response := Some (PDict {["presence_score" := social_presence_score]});
     Db.call_notes := "Ranked at " ++ strftime now |}.

(** The record [rank_cv_with_social_and_flowise] saves: what the INSERT
    stores for the arguments of the call; [None] when the INSERT refuses
    the match score or the recommendation of the reply. *)
Definition search_record
    (jd_title candidate_name : string) (match_score recommendation : pyval)
    (social_profiles : dict) (social_presence_score : pyval) (now : Z)
    : option Db.save_args :=
  Db.bind sqlite
    (save_arguments jd_title candidate_name match_score recommendation
       social_profiles social_presence_score now).

(** The save and the [try] around it. *)
Definition save_block (a : option Db.save_args) : M unit :=
  match a with
  | Some a => save_search_result a ;;; ret tt
  | None => ret tt
  end.

(** [rank_cv_with_social_and_flowise] *)
Definition rank_cv_with_social_and_flowise
    (jd_title jd_description cv_text candidate_name
     email phone github_url linkedin_url portfolio_url facebook_url other_social : string)
    (evaluate_social : bool) : M ranking_output :=
  if negb (nonempty (strip candidate_name))
  then ret (PNone, PStr "Candidate name is required", "", "", "", "")
  else if negb (nonempty (strip cv_text))
  then ret (PNone, PStr "CV content is required", "", "", "", "")
  else if negb (nonempty (strip jd_description))
  then ret (PNone, PStr "Job description is required", "", "", "", "")
  else
    let social_profiles :=
      build_social_profiles email phone github_url linkedin_url portfolio_url
        facebook_url other_social in
    let payload :=
      ranking_payload jd_title jd_description cv_text candidate_name social_profiles in
    emit (PostRanking payload) ;;;
    e <- ask ;;
    match ranking_api e payload with
    | RaisesTimeout err | RaisesOther err => ret (error_output err)
    | Response status_code text json =>
        if negb (status_code =? 200) then
          ret (PNone,
               PStr ("Ranking failed: API Error " ++ pretty status_code ++ ": " ++ text),
               "Failed to rank CV. Please check the API is running at " ++ API_URL,
               json_dumps social_profiles, "", "")
        else
          match json with
          | NotJson err => ret (error_output err)
          | Json result =>
              match read_result result with
              | inr err => ret (error_output err)
              | inl (match_score, recommendation, explanation) =>
                  fl <-
                    (if evaluate_social && dict_truthy social_profiles then
                       let cv_summary := prefix 300 cv_text in
                       let flowise_question :=
                         build_flowise_question_from_fields candidate_name email phone
                           github_url linkedin_url portfolio_url facebook_url
                           other_social cv_summary in
                       flowise_result <- evaluate_with_flowise_via_be flowise_question ;;
                       ret (read_flowise_result explanation flowise_result)
                     else ret (inl ("", PFloat 0, explanation))) ;;
                  match fl with
                  | inr err => ret (error_output err)
                  | inl (flowise_evaluation, social_presence_score, explanation) =>
                      save_block
                        (search_record jd_title candidate_name match_score recommendation
                           social_profiles social_presence_score (now e)) ;;;
                      let social_display :=
                        if dict_truthy social_profiles then json_dumps social_profiles
                        else "No social profiles provided" in
                      history <- format_search_history_display ;;
                      match history with
                      | inr err => ret (error_output err)
                      | inl history_display =>
                          ret (match_score, recommendation, explanation, social_display,
                               flowise_evaluation, history_display)
                      end
                  end
              end
          end
    end.

End Rendering.

End Gdpr.

(* ===================================================================== *)
(** * Notions the statements use *)
(* ===================================================================== *)

Module History.
Import Db.

(** [x] is older than [y]: earlier timestamp, or the same timestamp and the
    lower id. *)
Definition older (x y : row) : Prop :=
  row_timestamp x < row_timestamp y ∨
  (row_timestamp x = row_timestamp y ∧ row_id x < row_id y).

(** Order by a key, then by id. *)
Definition by_key_then_id (key : row -> Z) (x y : row) : Prop :=
  key x < key y ∨ (key x = key y ∧ row_id x < row_id y).

(** Listing order of [ORDER BY timestamp DESC]: later timestamp first, and
    for the same timestamp the lower id first. *)
Definition listed_before (x y : history_record) : Prop :=
  h_timestamp y < h_timestamp x ∨
  (h_timestamp x = h_timestamp y ∧ h_id x < h_id y).

(** Rows lie in the table by increasing id. *)
Definition ids_increasing (t : list row) : Prop :=
  StronglySorted (fun x y => row_id x < row_id y) t.

(** Timestamps never decrease along the table: the clock did not run
    backwards between two saves. *)
Definition clock_monotone (t : list row) : Prop :=
  StronglySorted (fun x y => row_timestamp x <= row_timestamp y) t.

(** A database file as AUTOINCREMENT keeps it. *)
Definition consistent (d : db) : Prop :=
  ids_increasing (rows d) ∧ Forall (fun r => row_id r <= sqlite_sequence d) (rows d).

(** The states of the store: empty at first, then changed by
    [save_search_result], [delete_search_record] and
    [clear_all_search_history] only. *)
Inductive reachable (N : Z) : db -> Prop :=
| reach_empty : reachable N empty_db
| reach_save now a d :
    reachable N d -> reachable N (save_search_result N now a d).2
| reach_delete io record_id d :
    reachable N d -> reachable N (delete_search_record io record_id d).2
| reach_clear d :
    reachable N d -> reachable N (clear_all_search_history d).

(** The rows a save removes: those of the table after the insert whose id
    is gone afterwards. *)
Definition evicted (N now : Z) (a : save_args) (d : db) : list row :=
  filter (fun r => row_id r ∉ row_id <$> rows (save_search_result N now a d).2)
         (rows d ++ [inserted_row now a d]).

End History.

(* ===================================================================== *)
(** * Sample data *)
(* ===================================================================== *)

Module Sample.
Import Py Db.
Local Open Scope string_scope.

Definition jane : save_args :=
  {| arg_candidate_name := "Jane Doe";
     arg_job_title := "Job Position";
     arg_match_score := Real (18 # 25);
     arg_recommendation := Some "Match score: 72.0%";
     arg_social_profiles := PDict ∅;
     arg_flowise_response := None;
     arg_notes := "" |}.

(** Save [jane] once per clock reading of [clock], in turn. *)
Definition saves (N : Z) (clock : list Z) (d : db) : db :=
  foldl (fun d now => (save_search_result N now jane d).2) d clock.

(** Capacity 5 and five records, ids 1 to 5, saved at 10, 20, 30, 40, 50. *)
Definition five : db := saves 5 [10; 20; 30; 40; 50] empty_db.

(** Candidate "Jane Doe", a CV of 150 characters, a job description of 80
    characters, no social link. *)
Definition cv150 : string := str (replicate 150 "c"%char).
Definition jd80 : string := str (replicate 80 "j"%char).

Definition jane_payload : Progress.payload :=
  Progress.prepare_payload jd80 cv150 "Jane Doe" "" "" "" "" "" "" "" "".

(** Renderings, of no concern to the statements. *)
Definition no_percent : nat -> Q -> string := fun _ _ => "".
Definition no_results : Progress.ranking_response -> string * string * string :=
  fun _ => ("", "", "").
Definition no_html : Progress.ranking_response -> option Progress.payload -> string :=
  fun _ _ => "".
Definition no_repr : pyval -> string := fun _ => "".
(** No text read as a number, numbers below [2^53]. *)
Definition sqlite : conversions :=
  {| numeric_text := fun _ => None;
     real_text := fun _ => "";
     round_double := inject_Z |}.
Definition no_query :
  string -> string -> string -> string -> string -> string -> string -> string ->
  option string -> string := fun _ _ _ _ _ _ _ _ _ => "".

(** The ranking API answers 500; Flowise would answer. *)
Definition ranking_down : Progress.env :=
  {| Progress.ranking_api := fun _ => Eff.Response 500 "Internal Server Error" (Eff.NotJson "");
     Progress.flowise_api := fun _ => Eff.Response 200 "" (Eff.Json (PDict ∅));
     Progress.now := 60;
     Progress.sqlite_io := SqlOk;
     Progress.insert_committed := false;
     Progress.MAX_RECORDS := 5 |}.

(** The ranking API scores 0.72; Flowise times out. *)
Definition scored_fields : dict :=
  <["recommendation" := PStr "Good match"]> (<["match_score" := PFloat (18 # 25)]> ∅).
Definition scored : Progress.ranking_response := PDict scored_fields.

Definition flowise_down : Progress.env :=
  {| Progress.ranking_api := fun _ => Eff.Response 200 "" (Eff.Json scored);
     Progress.flowise_api := fun _ => Eff.RaisesTimeout "Read timed out";
     Progress.now := 60;
     Progress.sqlite_io := SqlOk;
     Progress.insert_committed := false;
     Progress.MAX_RECORDS := 5 |}.

(** The ranking API scores 0.72, Flowise times out, and SQLite raises in
    the save once the INSERT is committed. *)
Definition eviction_fails : Progress.env :=
  {| Progress.ranking_api := fun _ => Eff.Response 200 "" (Eff.Json scored);
     Progress.flowise_api := fun _ => Eff.RaisesTimeout "Read timed out";
     Progress.now := 60;
     Progress.sqlite_io := SqlRaises;
     Progress.insert_committed := true;
     Progress.MAX_RECORDS := 5 |}.

(** The same two situations for [app_gdpr_compliant.py]. *)
Definition gdpr_scored : pyval := PDict scored_fields.

Definition gdpr_ranking_down : Gdpr.env :=
  {| Gdpr.ranking_api := fun _ => Eff.Response 500 "Internal Server Error" (Eff.NotJson "");
     Gdpr.flowise_api := fun _ => Eff.Response 200 "" (Eff.NotJson "");
     Gdpr.now := 60;
     Gdpr.sqlite_save := SqlOk;
     Gdpr.insert_committed := false;
     Gdpr.sqlite_read := SqlOk;
     Gdpr.MAX_RECORDS := 5 |}.

Definition gdpr_flowise_down : Gdpr.env :=
  {| Gdpr.ranking_api := fun _ => Eff.Response 200 "" (Eff.Json gdpr_scored);
     Gdpr.flowise_api := fun _ => Eff.RaisesTimeout "Read timed out";
     Gdpr.now := 60;
     Gdpr.sqlite_save := SqlOk;
     Gdpr.insert_committed := false;
     Gdpr.sqlite_read := SqlOk;
     Gdpr.MAX_RECORDS := 5 |}.

Definition no_explanation : dict -> string + string := fun _ => inl "".
Definition no_evaluation : dict -> string + string := fun _ => inl "".
Definition no_text : dict -> string := fun _ => "".
Definition no_time : Z -> string := fun _ => "".
Definition no_history : list Db.history_record -> string := fun _ => "".

(** The run of [rank_cv_with_social_and_flowise] for Jane Doe: no social
    link, [evaluate_social] set, the ranking API scores 0.72. *)
Definition gdpr_jane : Gdpr.ranking_output * Eff.world Gdpr.event :=
  Gdpr.rank_cv_with_social_and_flowise "" no_query no_explanation no_evaluation no_text
    no_repr no_time no_history sqlite
    "Engineer" jd80 cv150 "Jane Doe" "" "" "" "" "" "" "" true
    gdpr_flowise_down {| Eff.store := empty_db; Eff.log := [] |}.





(** The run of [execute_ranking] for Jane Doe: no social link, the ranking
    API scores 0.72, Flowise times out. *)
Definition progress_jane : Progress.outcome * Eff.world Progress.event :=
  Progress.execute_ranking no_percent no_results no_html no_repr sqlite (Some jane_payload)
    flowise_down {| Eff.store := empty_db; Eff.log := [] |}.

(** An empty history and no call made yet. *)
Definition fresh {Ev : Type} : Eff.world Ev :=
  {| Eff.store := empty_db; Eff.log := [] |}.

End Sample.

(* ===================================================================== *)
(** * Notions the statements about the pipeline use *)
(* ===================================================================== *)

Module Claims.
Import Py Eff.

(** A character [validate_phone] drops: whitespace, hyphen, parenthesis or
    plus sign. *)
Definition separator (c : ascii) : Prop :=
  isspace c = true ∨ c ∈ chars "-()+".

Global Instance separator_dec c : Decision (separator c).
Proof. unfold separator. apply _. Defined.

(** What is left of a phone number without its separators. *)
Definition digits_of (phone : string) : list ascii :=
  filter (fun c => ¬ separator c) (chars phone).

(** The name is made of whitespace only. *)
Definition blank (s : string) : Prop :=
  Forall (fun c => isspace c = true) (chars s).

(** 1 for a field that was filled in, else 0. *)
Definition one_if (x : string) : Z := if nonempty x then 1 else 0.

(** The number of fields that were filled in. *)
Definition provided (fields : list string) : Z :=
  Z.of_nat (length (filter (fun s => s ≠ EmptyString) fields)).


(** The request bodies sent to the social evaluation by
    [app_with_progress.py], in order. *)
Definition flowise_requests (l : list Progress.event) : list dict :=
  omap (fun ev => match ev with Progress.PostFlowise b => Some b | _ => None end) l.

(** The call did not come back with status 200 and a JSON body. *)
Definition failed {A} (r : http_result A) : Prop :=
  match r with
  | Response status_code _ (Json _) => status_code ≠ 200
  | _ => True
  end.

End Claims.

(* ===================================================================== *)
(** * Notions the statements about one run use *)
(* ===================================================================== *)

Module Outcomes.
Import Py Eff.
Local Open Scope string_scope.
Local Open Scope Z_scope.

(** The store after a call of [save_search_result] for arguments the
    INSERT accepts: the save went through; or SQLite raised, after the
    INSERT was committed or before. *)
Definition store_after_save
    (io : Db.sqlite) (insert_committed : bool) (N now : Z)
    (a : Db.save_args) (d : Db.db) : Db.db :=
  match io with
  | Db.SqlOk => (Db.save_search_result N now a d).2
  | Db.SqlRaises => if insert_committed then Db.inserted now a d else d
  end.

(** The store and the log entry after the save block, [None] standing
    for a block left before a row was written. *)
Definition after_save_block
    (io : Db.sqlite) (insert_committed : bool) (N now : Z)
    (a : option Db.save_args) (d : Db.db) : Db.db :=
  match a with
  | Some a => store_after_save io insert_committed N now a d
  | None => d
  end.

(** The match score [execute_ranking] hands to the social evaluation. *)
Definition score_of (d : dict) : pyval := default (PInt 0) (d !! "match_score").

(** The candidate name is empty or blank. *)
Definition unnamed (p : Progress.payload) : bool :=
  negb (nonempty (Progress.candidate_name p)) ||
  negb (nonempty (strip (Progress.candidate_name p))).

(** The fields of the error dictionary of [call_ranking_api]. *)
Definition error_fields (msg : string) (st : option Z) : dict :=
  match Progress.error_response msg st with PDict d => d | _ => ∅ end.

(** The same world with SQLite working. *)
Definition sqlite_works (e : Progress.env) : Progress.env :=
  {| Progress.ranking_api := Progress.ranking_api e;
     Progress.flowise_api := Progress.flowise_api e;
     Progress.now := Progress.now e;
     Progress.sqlite_io := Db.SqlOk;
     Progress.insert_committed := Progress.insert_committed e;
     Progress.MAX_RECORDS := Progress.MAX_RECORDS e |}.

Section Progress.
Variable format_percent : nat -> Q -> string.
Variable format_results_ok : Progress.ranking_response -> string * string * string.
Variable py_repr : pyval -> string.
Variable sqlite : Db.conversions.

(** The texts [format_results] gives for a dictionary. *)
Definition texts (d : dict) : string * string * string :=
  match d !! "error" with
  | Some v => ("Error: " ++ Progress.py_str py_repr v, "", "")
  | None => format_results_ok (PDict d)
  end.

(** What [call_flowise_evaluation] returns to [execute_ranking] for
    payload [p] and match score [score]. *)
Definition flowise_result (e : Progress.env) (p : Progress.payload) (score : pyval) : pyval :=
  if unnamed p then PDict (Progress.flowise_error "Candidate name is required" None)
  else
    match py_number score with
    | None =>
        PDict (Progress.flowise_error ("Error calling Flowise: " ++ bad_percent score) None)
    | Some q =>
        Progress.flowise_reply
          (Progress.flowise_api e (Progress.flowise_request format_percent p q))
    end.

(** The requests it sends. *)
Definition flowise_posts (p : Progress.payload) (score : pyval) : list Progress.event :=
  if unnamed p then []
  else
    match py_number score with
    | None => []
    | Some q => [Progress.PostFlowise (Progress.flowise_request format_percent p q)]
    end.

(** The social step is taken: the response has no ['error'] and the
    payload a name. *)
Definition asked (p : Progress.payload) (d : dict) : bool :=
  match d !! "error" with
  | Some _ => false
  | None => nonempty (Progress.candidate_name p)
  end.

(** The response [execute_ranking] returns for the dictionary [d] of the
    ranking API, and the Flowise dictionary it saves. *)
Definition flowise_saved (e : Progress.env) (p : Progress.payload) (d : dict) : pyval :=
  if asked p d then flowise_result e p (score_of d) else PDict ∅.

Definition merged (e : Progress.env) (p : Progress.payload) (d : dict) : pyval :=
  if asked p d
  then PDict (<["flowise_evaluation" := flowise_result e p (score_of d)]> d)
  else PDict d.

(** The record handed to the INSERT, if any. *)
Definition saved (e : Progress.env) (p : Progress.payload) (d : dict)
    : option Db.save_args :=
  Progress.search_record format_percent sqlite p (merged e p d) (flowise_saved e p d).

(** The requests of the social step. *)
Definition posts (p : Progress.payload) (d : dict) : list Progress.event :=
  if asked p d then flowise_posts p (score_of d) else [].

(** The call of [save_search_result], when it takes place. *)
Definition saves (a : option Db.save_args) : list Progress.event :=
  match a with
  | Some a => [Progress.SaveSearchResult a]
  | None => []
  end.

End Progress.

Section Gdpr.
Variable build_query :
  string -> string -> string -> string -> string -> string -> string -> string ->
  option string -> string.
Variable format_flowise_evaluation : dict -> string + string.
Variable py_repr : pyval -> string.

(** The social step of [rank_cv_with_social_and_flowise] is taken. *)
Definition social (evaluate_social : bool) (sp : dict) : bool :=
  evaluate_social && dict_truthy sp.

(** What the step leaves: evaluation text, presence score and explanation,
    or the text of the exception raised in it. *)
Definition social_step
    (e : Gdpr.env) (evaluate_social : bool) (sp : dict) (q explanation : string)
    : (string * pyval * string) + string :=
  if social evaluate_social sp
  then Gdpr.read_flowise_result format_flowise_evaluation py_repr explanation
         (Gdpr.flowise_reply (Gdpr.flowise_api e q))
  else inl ("", PFloat 0, explanation).

(** The question sent when it is taken. *)
Definition questions (evaluate_social : bool) (sp : dict) (q : string)
    : list Gdpr.event :=
  if social evaluate_social sp then [Gdpr.PostFlowise q] else [].

Definition gdpr_saves (a : option Db.save_args) : list Gdpr.event :=
  match a with
  | Some a => [Gdpr.SaveSearchResult a]
  | None => []
  end.

End Gdpr.

End Outcomes.

(* ===================================================================== *)
(** * db_manager.py: maintenance and export names *)
(* ===================================================================== *)

Module Maintenance.
Import Py Db.
Local Open Scope string_scope.
Local Open Scope Z_scope.

(** [cleanup_old_records]: the eviction of [save_search_result] on its
    own (what it prints is left out). *)
Definition cleanup_old_records (MAX_RECORDS : Z) (d : db) : db :=
  let total_records := count (rows d) in
  if MAX_RECORDS <? total_records
  then {| rows :=
            delete_where_id_in
              (row_id <$> limit (total_records - MAX_RECORDS)
                            (order_by_timestamp_asc (rows d)))
              (rows d);
          sqlite_sequence := sqlite_sequence d |}
  else d.

(** [candidate_name.replace(' ', '_').replace('/', '_')[:50]], the name the
    three export functions and [export_results_action] derive file names
    from. *)
Definition safe_name (candidate_name : string) : string :=
  prefix 50 (replace_char "/" "_" (replace_char " " "_" candidate_name)).

(** [str(export_dir / f"{safe_name}_{timestamp}.<ext>")], [timestamp] being
    the text of [datetime.now().strftime('%Y%m%d_%H%M%S')]. *)
Definition export_path (candidate_name timestamp ext : string) : string :=
  "exports/" ++ safe_name candidate_name ++ "_" ++ timestamp ++ "." ++ ext.

(** The dictionary [get_search_result_by_id] returns for a row: its
    columns, the two JSON columns decoded, [{}] in place of a NULL
    [flowise_response]. *)
Record result_record := ResultRecord {
  res_id : Z;
  res_timestamp : Z;
  res_candidate_name : string;
  res_job_title : string;
  res_match_score : column;
  res_recommendation : option string;
  res_social_profiles : pyval;
  res_flowise_response : pyval;
  res_notes : string
}.

Definition result_of_row (r : row) : result_record :=
  {| res_id := row_id r;
     res_timestamp := row_timestamp r;
     res_candidate_name := row_candidate_name r;
     res_job_title := row_job_title r;
     res_match_score := row_match_score r;
     res_recommendation := row_recommendation r;
     res_social_profiles := row_social_profiles r;
     res_flowise_response := default (PDict ∅) (row_flowise_response r);
     res_notes := row_notes r |}.

(** [get_search_result_by_id], decoding included. *)
Definition search_result (record_id : Z) (d : db) : option result_record :=
  result_of_row <$> get_search_result_by_id record_id d.

(** One call on the store. *)
Inductive op :=
| OpSave (now : Z) (a : save_args)
| OpDelete (io : sqlite) (record_id : Z)
| OpClear
| OpCleanup.

(** The store after one call, and the id a save returned. *)
Definition step (N : Z) (o : op) (d : db) : option Z * db :=
  match o with
  | OpSave now a => let '(i, d') := save_search_result N now a d in (Some i, d')
  | OpDelete io record_id => (None, (delete_search_record io record_id d).2)
  | OpClear => (None, clear_all_search_history d)
  | OpCleanup => (None, cleanup_old_records N d)
  end.

(** The ids returned by the saves of a sequence of calls, in order, and
    the store they leave. *)
Fixpoint run (N : Z) (ops : list op) (d : db) : list Z * db :=
  match ops with
  | [] => ([], d)
  | o :: ops' =>
      let '(i, d') := step N o d in
      let '(ids, d'') := run N ops' d' in
      (match i with Some i => i :: ids | None => ids end, d'')
  end.

End Maintenance.

(* ===================================================================== *)
(** * file_handler.py *)
(* ===================================================================== *)

Module FileHandler.
Import Py.
Local Open Scope string_scope.
Local Open Scope Z_scope.

(** Cut a list at every occurrence of [a]. *)
Fixpoint split_on (a : ascii) (l : list ascii) : list (list ascii) :=
  match l with
  | [] => [[]]
  | c :: l' =>
      match split_on a l' with
      | part :: parts => if Ascii.eqb c a then [] :: part :: parts else (c :: part) :: parts
      | [] => [[c]]
      end
  end.

(** [Path(filename).name]: the last component of the path, empty
    components and [.] left out. *)
Definition path_name (filename : string) : list ascii :=
  List.last
    (List.filter (fun part => negb (match part with [] => true | _ => false end) &&
                              negb (String.eqb (str part) "."))
       (split_on "/" (chars filename)))
    [].

(** Cut a list at the last occurrence of [a]. *)
Definition rsplit (a : ascii) (l : list ascii) : option (list ascii * list ascii) :=
  Progress.split_last a l.

(** [Path(filename).suffix]: from the last dot of the name on, when that
    dot is neither its first nor its last character. *)
Definition suffix (filename : string) : string :=
  match rsplit "." (path_name filename) with
  | Some (c :: stem, d :: ext) => str ("."%char :: d :: ext)
  | _ => ""
  end.

(** [s.lstrip(".")] *)
Fixpoint lstrip_dots (l : list ascii) : list ascii :=
  match l with
  | c :: l' => if Ascii.eqb c "." then lstrip_dots l' else l
  | [] => []
  end.

(** [", ".join(l)] *)
Fixpoint join_comma (l : list string) : string :=
  match l with
  | [] => ""
  | [x] => x
  | x :: l' => x ++ ", " ++ join_comma l'
  end.

Section Config.
(** [MAX_FILE_SIZE_MB] and [ALLOWED_EXTENSIONS] *)
Variable MAX_FILE_SIZE_MB : Z.
Variable ALLOWED_EXTENSIONS : list string.

Definition MAX_FILE_SIZE_BYTES : Z := MAX_FILE_SIZE_MB * 1024 * 1024.

(** [Path(filename).suffix.lower().lstrip(".")] *)
Definition file_ext (filename : string) : string :=
  str (lstrip_dots (chars (lower (suffix filename)))).

(** [validate_file_upload] *)
Definition validate_file_upload (file_content : list Byte.byte) (filename : string)
    : bool * string :=
  if MAX_FILE_SIZE_BYTES <? Z.of_nat (length file_content)
  then (false, "File too large. Maximum size: " ++ pretty MAX_FILE_SIZE_MB ++ "MB")
  else if negb (existsb (String.eqb (file_ext filename)) ALLOWED_EXTENSIONS)
  then (false, "Invalid file type. Allowed types: " ++ join_comma ALLOWED_EXTENSIONS)
  else if Z.of_nat (length file_content) =? 0
  then (false, "File is empty")
  else (true, "File valid").

End Config.

(** The default of [ALLOWED_FILE_TYPES]. *)
Definition default_extensions : list string := ["pdf"; "docx"; "txt"].

Section Readers.
(** [file_content.decode("utf-8", errors="ignore")] *)
Variable decode_utf8 : list Byte.byte -> string.
(** The text of the pages of a PDF, or the text of the exception raised. *)
Variable read_pdf : list Byte.byte -> string + string.
(** The text of the paragraphs of a DOCX, or the text of the exception
    raised. *)
Variable read_docx : list Byte.byte -> string + string.

(** [extract_text_from_file] *)
Definition extract_text_from_file (file_content : list Byte.byte) (filename : string)
    : string :=
  let file_ext := lower (suffix filename) in
  if String.eqb file_ext ".txt" then decode_utf8 file_content
  else if String.eqb file_ext ".pdf" then
    match read_pdf file_content with
    | inl text => text
    | inr e => "Error reading PDF: " ++ e
    end
  else if String.eqb file_ext ".docx" then
    match read_docx file_content with
    | inl text => text
    | inr e => "Error reading DOCX: " ++ e
    end
  else "Unsupported file type: " ++ file_ext.

End Readers.

End FileHandler.

(* ===================================================================== *)
(** * app_gdpr_compliant.py: the form check and the upload *)
(* ===================================================================== *)

Module GdprForm.
Import Py.
Local Open Scope string_scope.
Local Open Scope Z_scope.

(** The list [errors] that [validate_form_inputs] collects. *)
Definition form_errors (jd_description cv_text candidate_name : string) : list string :=
  ((if negb (nonempty candidate_name) || negb (nonempty (strip candidate_name))
    then ["Candidate Name is required"] else []) ++
   (if negb (nonempty jd_description) || negb (nonempty (strip jd_description))
    then ["Job Description is required"] else []) ++
   (if negb (nonempty cv_text) || negb (nonempty (strip cv_text))
    then ["CV/Resume is required"] else []) ++
   (if nonempty jd_description && (len (strip jd_description) <? 50)
    then ["Job Description is too short (minimum 50 characters)"] else []) ++
   (if nonempty cv_text && (len (strip cv_text) <? 100)
    then ["CV/Resume is too short (minimum 100 characters)"] else []))%list.

Section Rendering.
(** The message built from a non-empty list of errors. *)
Variable render_errors : list string -> string.

(** [validate_form_inputs] *)
Definition validate_form_inputs (jd_description cv_text candidate_name : string)
    : bool * string :=
  match form_errors jd_description cv_text candidate_name with
  | [] => (true, "Form is valid")
  | errors => (false, render_errors errors)
  end.

(** [check_form_validity] *)
Definition check_form_validity (jd_description cv_text candidate_name : string) : bool :=
  (validate_form_inputs jd_description cv_text candidate_name).1.

End Rendering.

Section Upload.
(** [file_handler.MAX_FILE_SIZE_MB] and [file_handler.ALLOWED_EXTENSIONS] *)
Variable MAX_FILE_SIZE_MB : Z.
Variable ALLOWED_EXTENSIONS : list string.
(** The three readers of [extract_text_from_file]. *)
Variable decode_utf8 : list Byte.byte -> string.
Variable read_pdf : list Byte.byte -> string + string.
Variable read_docx : list Byte.byte -> string + string.
(** [format_file_info] *)
Variable format_file_info : string -> Z -> string.

(** [process_file_upload]: [file_obj = None] is no upload; [read] is what
    [open(file_obj, "rb").read()] gives, the bytes of the file or the text
    of the exception raised. *)
Definition process_file_upload (file_obj : option string) (read : list Byte.byte + string)
    : string * string :=
  match file_obj with
  | None => ("", "No file uploaded")
  | Some path =>
      match read with
      | inr e => ("", "Error: " ++ e)
      | inl file_content =>
          let filename := str (FileHandler.path_name path) in
          let '(is_valid, message) :=
            FileHandler.validate_file_upload MAX_FILE_SIZE_MB ALLOWED_EXTENSIONS
              file_content filename in
          if negb is_valid then ("", message)
          else
            let text :=
              FileHandler.extract_text_from_file decode_utf8 read_pdf read_docx
                file_content filename in
            let file_info :=
              format_file_info filename (Z.of_nat (length file_content)) in
            (text, file_info ++ " - Extracted successfully")
      end
  end.

End Upload.

End GdprForm.

(* ===================================================================== *)
(** * app_with_progress.py: the history tab *)
(* ===================================================================== *)

Module HistoryTab.
Import Py Db.
Local Open Scope string_scope.
Local Open Scope Z_scope.

Section Rendering.
(** [db_manager.MAX_RECORDS] *)
Variable MAX_RECORDS : Z.
(** The HTML built from a non-empty history, or the message of the
    [except] when building it raises. *)
Variable render_history : list history_record -> string.

(** [load_search_history]; [io] tells whether reading the database raises. *)
Definition load_search_history (io : sqlite) (d : db) : string :=
  match io with
  | SqlRaises => "Error loading history: database error"
  | SqlOk =>
      match get_search_history MAX_RECORDS d with
      | [] => "No search history yet. Start searching to build history."
      | history => render_history history
      end
  end.

(** [delete_search_record_action] *)
Definition delete_search_record_action
    (io_delete io_read : sqlite) (record_id : Z) (d : db) : string * db :=
  if negb (record_id =? 0) && (0 <? record_id) then
    let '(success, d') := delete_search_record io_delete record_id d in
    if success then (load_search_history io_read d', d')
    else ("Failed to delete record " ++ pretty record_id, d')
  else ("Invalid record ID", d).

(** [clear_history_action] *)
Definition clear_history_action (d : db) : (string * string) * db :=
  (("All search history cleared!", "History cleared successfully"),
   clear_all_search_history d).

End Rendering.

End HistoryTab.


(* ===================================================================== *)
(** * Shapes of inputs *)
(* ===================================================================== *)

Module Grammar.
Import Py Progress.
Local Open Scope string_scope.

(** The grammar of the pattern: a local part, [@], a domain, [.] and at
    least two letters. *)
Definition address (l : list ascii) : Prop :=
  exists local domain tld,
    l = (local ++ "@"%char :: domain ++ "."%char :: tld)%list ∧
    local ≠ [] ∧ Forall (fun c => email_local_char c = true) local ∧
    domain ≠ [] ∧ Forall (fun c => email_domain_char c = true) domain ∧
    (2 <= length tld)%nat ∧ Forall (fun c => isalpha_ascii c = true) tld.

End Grammar.

(* ===================================================================== *)
(** * The search history *)
(* ===================================================================== *)

Module HistoryFacts.
Import Py Db History.

(** ** Sorting by a key keeps the scan order among equal keys *)

Section SortByKey.
Variable key : row -> Z.
Variable before : row -> row -> bool.
Hypothesis before_key : forall x y, before x y = (key x <=? key y).

Lemma insert_by_perm x l : insert_by before x l ≡ₚ x :: l.
Proof.
  induction l as [|y l IH]; simpl; [done|].
  destruct (before x y); [done|].
  rewrite IH. apply Permutation_swap.
Qed.

Lemma sort_by_perm l : sort_by before l ≡ₚ l.
Proof.
  induction l as [|x l IH]; simpl; [done|].
  by rewrite insert_by_perm, IH.
Qed.

Lemma insert_by_sorted x l :
  Forall (fun y => row_id x < row_id y) l ->
  StronglySorted (by_key_then_id key) l ->
  StronglySorted (by_key_then_id key) (insert_by before x l).
Proof.
  induction l as [|y l IH]; intros Hid Hs; simpl.
  - repeat constructor.
  - apply StronglySorted_cons in Hs as [Hy Hl].
    apply Forall_cons in Hid as [Hxy Hxl].
    rewrite before_key. destruct (Z.leb_spec (key x) (key y)) as [Hle|Hlt].
    + apply StronglySorted_cons. split; [|by apply StronglySorted_cons].
      constructor.
      * unfold by_key_then_id. lia.
      * rewrite Forall_forall in Hy, Hxl |- *. intros z Hz.
        specialize (Hy z Hz). specialize (Hxl z Hz).
        unfold by_key_then_id in *. lia.
    + apply StronglySorted_cons. split; [|by apply IH].
      rewrite insert_by_perm. constructor; [|done].
      unfold by_key_then_id. lia.
Qed.

Lemma sort_by_sorted l :
  ids_increasing l -> StronglySorted (by_key_then_id key) (sort_by before l).
Proof.
  induction l as [|x l IH]; intros Hs; simpl; [constructor|].
  apply StronglySorted_cons in Hs as [Hx Hl].
  apply insert_by_sorted; [|by apply IH].
  by rewrite sort_by_perm.
Qed.

Lemma sort_by_already_sorted l :
  StronglySorted (fun x y => key x <= key y) l -> sort_by before l = l.
Proof.
  induction l as [|x l IH]; intros Hs; simpl; [done|].
  apply StronglySorted_cons in Hs as [Hx Hl].
  rewrite IH by done.
  destruct l as [|y l]; simpl; [done|].
  apply Forall_cons in Hx as [Hxy _].
  rewrite before_key. by destruct (Z.leb_spec (key x) (key y)); [|lia].
Qed.

End SortByKey.

(** ** The two orderings of the module *)

Lemma ts_asc_key x y : ts_asc x y = (row_timestamp x <=? row_timestamp y).
Proof. done. Qed.

Lemma ts_desc_key x y : ts_desc x y = (- row_timestamp x <=? - row_timestamp y).
Proof.
  unfold ts_desc.
  destruct (Z.leb_spec (row_timestamp y) (row_timestamp x)),
           (Z.leb_spec (- row_timestamp x) (- row_timestamp y)); done || lia.
Qed.

Lemma older_by_key x y : older x y <-> by_key_then_id row_timestamp x y.
Proof. done. Qed.

Lemma order_asc_perm t : order_by_timestamp_asc t ≡ₚ t.
Proof. apply (sort_by_perm ts_asc). Qed.

Lemma order_desc_perm t : order_by_timestamp_desc t ≡ₚ t.
Proof. apply (sort_by_perm ts_desc). Qed.

Lemma order_asc_sorted t :
  ids_increasing t -> StronglySorted older (order_by_timestamp_asc t).
Proof. apply (sort_by_sorted row_timestamp ts_asc ts_asc_key). Qed.

Lemma order_desc_sorted t :
  ids_increasing t ->
  StronglySorted (by_key_then_id (fun r => - row_timestamp r)) (order_by_timestamp_desc t).
Proof. apply (sort_by_sorted _ ts_desc ts_desc_key). Qed.

Lemma order_asc_clock_monotone t :
  clock_monotone t -> order_by_timestamp_asc t = t.
Proof. apply (sort_by_already_sorted row_timestamp ts_asc ts_asc_key). Qed.

(** ** Ids *)

Lemma ids_increasing_NoDup t : ids_increasing t -> NoDup (row_id <$> t).
Proof.
  induction t as [|x t IH]; intros Hs; [constructor|].
  apply StronglySorted_cons in Hs as [Hx Ht].
  rewrite fmap_cons. constructor; [|by apply IH].
  intros (y & Hy & Hin)%list_elem_of_fmap.
  rewrite Forall_forall in Hx. specialize (Hx y Hin). lia.
Qed.

Lemma foldr_max_ge (z : Z) (l : list Z) :
  z <= foldr Z.max z l ∧ Forall (fun x => x <= foldr Z.max z l) l.
Proof.
  induction l as [|x l [IH1 IH2]]; simpl; [split; [lia|constructor]|].
  split; [lia|]. constructor; [lia|].
  eapply Forall_impl; [exact IH2|]. simpl. intros; lia.
Qed.

Lemma next_rowid_fresh d :
  sqlite_sequence d < next_rowid d ∧
  Forall (fun r => row_id r < next_rowid d) (rows d).
Proof.
  unfold next_rowid.
  destruct (foldr_max_ge (sqlite_sequence d) (row_id <$> rows d)) as [H1 H2].
  split; [lia|].
  rewrite Forall_fmap in H2.
  eapply Forall_impl; [exact H2|]. simpl. intros; lia.
Qed.

Lemma ids_increasing_snoc t r :
  ids_increasing t -> Forall (fun x => row_id x < row_id r) t ->
  ids_increasing (t ++ [r]).
Proof.
  intros Ht Hr. apply StronglySorted_app. split_and!.
  - intros x y Hx ->%list_elem_of_singleton.
    rewrite Forall_forall in Hr. by apply Hr.
  - done.
  - repeat constructor.
Qed.

Lemma ids_increasing_filter (P : row -> Prop) `{!forall r, Decision (P r)} t :
  ids_increasing t -> ids_increasing (filter P t).
Proof.
  induction t as [|x t IH]; intros Hs; [constructor|].
  apply StronglySorted_cons in Hs as [Hx Ht].
  rewrite filter_cons. case_decide; [|by apply IH].
  apply StronglySorted_cons. split; [|by apply IH].
  rewrite Forall_forall in Hx |- *.
  intros y [_ Hy]%list_elem_of_filter. by apply Hx.
Qed.

(** ** Deleting the first rows of an ordering *)

Lemma delete_ids_app (ids : list Z) (l1 l2 : list row) :
  Forall (fun r => row_id r ∈ ids) l1 ->
  Forall (fun r => row_id r ∉ ids) l2 ->
  delete_where_id_in ids (l1 ++ l2) = l2.
Proof.
  intros H1 H2. unfold delete_where_id_in. rewrite filter_app.
  assert (filter (fun r => row_id r ∉ ids) l1 = []) as ->.
  { induction H1 as [|x l Hx _ IH]; [done|].
    rewrite filter_cons_False; [done|]. by intros []. }
  simpl. induction H2 as [|x l Hx _ IH]; [done|].
  rewrite filter_cons_True by done. by rewrite IH.
Qed.

Lemma keep_ids_app (ids : list Z) (l1 l2 : list row) :
  Forall (fun r => row_id r ∈ ids) l1 ->
  Forall (fun r => row_id r ∉ ids) l2 ->
  filter (fun r => row_id r ∈ ids) (l1 ++ l2) = l1.
Proof.
  intros H1 H2. rewrite filter_app.
  assert (filter (fun r => row_id r ∈ ids) l2 = []) as ->.
  { induction H2 as [|x l Hx _ IH]; [done|]. by rewrite filter_cons_False. }
  rewrite app_nil_r. induction H1 as [|x l Hx _ IH]; [done|].
  rewrite filter_cons_True by done. by rewrite IH.
Qed.

Lemma take_drop_ids_disjoint (s : list row) (n : nat) :
  NoDup (row_id <$> s) ->
  Forall (fun r => row_id r ∈ row_id <$> take n s) (take n s) ∧
  Forall (fun r => row_id r ∉ row_id <$> take n s) (drop n s).
Proof.
  intros Hnd. split.
  - apply Forall_forall. intros x Hx. by apply list_elem_of_fmap_2.
  - rewrite <- (take_drop n s), fmap_app in Hnd.
    apply NoDup_app in Hnd as (_ & Hdisj & _).
    apply Forall_forall. intros x Hx Hin.
    apply (Hdisj (row_id x)); [done|]. by apply list_elem_of_fmap_2.
Qed.

Lemma delete_first_of_ordering (s t : list row) (n : nat) :
  s ≡ₚ t -> NoDup (row_id <$> t) ->
  delete_where_id_in (row_id <$> take n s) t ≡ₚ drop n s.
Proof.
  intros Hp Hnd.
  assert (NoDup (row_id <$> s)) as Hs by by rewrite Hp.
  destruct (take_drop_ids_disjoint s n Hs) as [H1 H2].
  transitivity (delete_where_id_in (row_id <$> take n s) (take n s ++ drop n s)).
  - unfold delete_where_id_in. by rewrite take_drop, Hp.
  - by rewrite delete_ids_app.
Qed.

(** ** [save_search_result] *)

Lemma filter_iff_on (P1 P2 : row -> Prop)
    `{!forall x, Decision (P1 x), !forall x, Decision (P2 x)} (l : list row) :
  (forall x, x ∈ l -> P1 x <-> P2 x) -> filter P1 l = filter P2 l.
Proof.
  induction l as [|x l IH]; intros Hall; [done|].
  rewrite !filter_cons.
  rewrite IH by (intros y Hy; apply Hall; by right).
  destruct (Hall x (list_elem_of_here _ _)).
  repeat case_decide; tauto.
Qed.

Lemma inserted_row_id now a d : row_id (inserted_row now a d) = next_rowid d.
Proof. done. Qed.

Lemma table_after_insert now a d :
  consistent d -> ids_increasing (rows d ++ [inserted_row now a d]).
Proof.
  intros [Hs _]. apply ids_increasing_snoc; [done|].
  apply next_rowid_fresh.
Qed.

(** The rows left by a save that had to evict: the table without the first
    [n] rows of the ascending ordering. *)
Lemma save_evicts (N now : Z) a d :
  let t := rows d ++ [inserted_row now a d] in
  let n := Z.to_nat (count t - N) in
  N < count t ->
  rows (save_search_result N now a d).2 =
  delete_where_id_in (row_id <$> take n (order_by_timestamp_asc t)) t.
Proof.
  intros t n Hlt. unfold save_search_result. simpl. fold t.
  destruct (Z.ltb_spec N (count t)); [|lia].
  unfold limit. by destruct (Z.ltb_spec (count t - N) 0); [lia|].
Qed.

Lemma save_keeps (N now : Z) a d :
  count (rows d ++ [inserted_row now a d]) <= N ->
  rows (save_search_result N now a d).2 = rows d ++ [inserted_row now a d].
Proof.
  intros Hle. unfold save_search_result. simpl.
  by destruct (Z.ltb_spec N (count (rows d ++ [inserted_row now a d]))); [lia|].
Qed.

Lemma save_rows_perm (N now : Z) a d :
  consistent d ->
  let t := rows d ++ [inserted_row now a d] in
  let n := Z.to_nat (count t - N) in
  rows (save_search_result N now a d).2 ≡ₚ drop n (order_by_timestamp_asc t).
Proof.
  intros Hc t n.
  destruct (Z.lt_ge_cases N (count t)) as [Hlt|Hge].
  - rewrite save_evicts by done. fold t n.
    apply delete_first_of_ordering; [apply order_asc_perm|].
    by apply ids_increasing_NoDup, table_after_insert.
  - rewrite save_keeps by done. fold t.
    replace n with 0%nat by (unfold n; lia).
    by rewrite drop_0, order_asc_perm.
Qed.

Lemma save_count (N now : Z) a d :
  0 <= N -> consistent d ->
  count (rows (save_search_result N now a d).2) = Z.min (count (rows d) + 1) N.
Proof.
  intros HN Hc. unfold count at 1.
  rewrite (save_rows_perm N now a d Hc).
  rewrite length_drop, order_asc_perm.
  unfold count. rewrite length_app. simpl. lia.
Qed.

Lemma save_rows_sub (N now : Z) a d :
  exists P : row -> Prop, exists _ : forall r, Decision (P r),
    rows (save_search_result N now a d).2 =
    filter P (rows d ++ [inserted_row now a d]).
Proof.
  unfold save_search_result. simpl.
  destruct (_ <? _).
  - eexists _, _. reflexivity.
  - exists (fun _ => True), _.
    induction (rows d ++ _) as [|x l IH]; [done|].
    by rewrite filter_cons_True, <- IH.
Qed.

Lemma save_consistent (N now : Z) a d :
  consistent d -> consistent (save_search_result N now a d).2.
Proof.
  intros Hc. pose proof (table_after_insert now a d Hc) as Ht.
  destruct (save_rows_sub N now a d) as (P & HP & Heq).
  split.
  - rewrite Heq. by apply ids_increasing_filter.
  - rewrite Heq. simpl.
    apply Forall_forall. intros x [_ Hx]%list_elem_of_filter.
    apply elem_of_app in Hx as [Hx| ->%list_elem_of_singleton].
    + destruct (next_rowid_fresh d) as [_ Hf].
      rewrite Forall_forall in Hf. specialize (Hf x Hx). lia.
    + rewrite inserted_row_id. lia.
Qed.

Lemma delete_consistent io record_id d :
  consistent d -> consistent (delete_search_record io record_id d).2.
Proof.
  intros [Hs Hf]. destruct io; simpl; [|done].
  split; simpl.
  - by apply ids_increasing_filter.
  - apply Forall_forall. intros x [_ Hx]%list_elem_of_filter.
    rewrite Forall_forall in Hf. by apply Hf.
Qed.

Lemma reachable_consistent N d : reachable N d -> consistent d.
Proof.
  induction 1.
  - split; constructor.
  - by apply save_consistent.
  - by apply delete_consistent.
  - split; constructor.
Qed.


(** Evicted and kept rows are the two ends of the ascending ordering. *)
Lemma save_split (N now : Z) a d :
  consistent d ->
  let t := rows d ++ [inserted_row now a d] in
  let n := Z.to_nat (count t - N) in
  evicted N now a d ≡ₚ take n (order_by_timestamp_asc t).
Proof.
  intros Hc t n. unfold evicted. fold t.
  pose proof (save_rows_perm N now a d Hc) as Hp. cbv zeta in Hp. fold t n in Hp.
  set (s := order_by_timestamp_asc t) in *.
  assert (NoDup (row_id <$> s)) as Hnd.
  { unfold s. rewrite order_asc_perm.
    by apply ids_increasing_NoDup, table_after_insert. }
  destruct (take_drop_ids_disjoint s n Hnd) as [H1 H2].
  transitivity (filter (fun r => row_id r ∈ row_id <$> take n s) t).
  - apply reflexive_eq, filter_iff_on. intros x Hx.
    rewrite Hp.
    assert (x ∈ take n s ++ drop n s) as Hin
      by (rewrite take_drop; unfold s; by rewrite order_asc_perm).
    rewrite Forall_forall in H1, H2.
    apply elem_of_app in Hin as [Hin|Hin].
    + split; [intros _; by apply H1|]. intros _ Hd.
      rewrite <- (take_drop n s), fmap_app in Hnd.
      apply NoDup_app in Hnd as (_ & Hdisj & _).
      apply (Hdisj (row_id x)); [|done]. by apply list_elem_of_fmap_2.
    + split; [intros Hn; destruct Hn; by apply list_elem_of_fmap_2|].
      intros Ht. by destruct (H2 x Hin).
  - transitivity (filter (fun r => row_id r ∈ row_id <$> take n s) (take n s ++ drop n s)).
    + rewrite take_drop. unfold s. by rewrite order_asc_perm.
    + by rewrite keep_ids_app.
Qed.

Lemma save_clock_monotone (N now : Z) a d :
  consistent d ->
  let t := rows d ++ [inserted_row now a d] in
  clock_monotone t ->
  rows (save_search_result N now a d).2 = drop (Z.to_nat (count t - N)) t.
Proof.
  intros Hc t Hm.
  destruct (Z.lt_ge_cases N (count t)) as [Hlt|Hge].
  - rewrite save_evicts by done. fold t.
    rewrite order_asc_clock_monotone by done.
    set (n := Z.to_nat (count t - N)).
    assert (NoDup (row_id <$> t)) as Hnd
      by by apply ids_increasing_NoDup, table_after_insert.
    destruct (take_drop_ids_disjoint t n Hnd) as [H1 H2].
    rewrite <- (take_drop n t) at 2. by apply delete_ids_app.
  - rewrite save_keeps by done. fold t.
    by replace (Z.to_nat (count t - N)) with 0%nat by lia.
Qed.

(** ** [get_search_history] *)

Lemma insert_by_last (before : row -> row -> bool) x l :
  Forall (fun y => before x y = false) l -> insert_by before x l = l ++ [x].
Proof.
  induction 1 as [|y l Hy _ IH]; simpl; [done|]. by rewrite Hy, IH.
Qed.

(** With strictly increasing timestamps the descending ordering is the
    table read backwards. *)
Lemma order_desc_strict t :
  StronglySorted (fun x y => row_timestamp x < row_timestamp y) t ->
  order_by_timestamp_desc t = reverse t.
Proof.
  induction t as [|x t IH]; intros Hs; [done|].
  apply StronglySorted_cons in Hs as [Hx Ht].
  unfold order_by_timestamp_desc in *. simpl. rewrite IH by done.
  rewrite reverse_cons. apply insert_by_last.
  apply Forall_reverse. eapply Forall_impl; [exact Hx|].
  simpl. intros y Hy. unfold ts_desc. by destruct (Z.leb_spec (row_timestamp y) (row_timestamp x)); [lia|].
Qed.

Lemma limit_length (N : Z) l : 0 <= N -> Z.of_nat (length (limit N l)) <= N.
Proof.
  intros HN. unfold limit. destruct (Z.ltb_spec N 0); [lia|].
  rewrite length_take. lia.
Qed.

Lemma limit_sorted (R : relation row) (N : Z) l :
  StronglySorted R l -> StronglySorted R (limit N l).
Proof.
  intros Hs. unfold limit. destruct (N <? 0); [done|].
  rewrite <- (take_drop (Z.to_nat N) l) in Hs.
  by apply StronglySorted_app_1_l in Hs.
Qed.

Lemma order_desc_by_timestamp t :
  StronglySorted (fun x y => row_timestamp y <= row_timestamp x) (order_by_timestamp_desc t).
Proof.
  unfold order_by_timestamp_desc.
  induction t as [|x t IH]; simpl; [constructor|].
  induction IH as [|y l Hl IHl Hy]; simpl; [repeat constructor|].
  unfold ts_desc at 1.
  destruct (Z.leb_spec (row_timestamp y) (row_timestamp x)) as [Hle|Hlt].
  - apply StronglySorted_cons. split; [|by constructor].
    constructor; [done|]. eapply Forall_impl; [exact Hy|]. simpl. intros; lia.
  - apply StronglySorted_cons. split; [|done].
    rewrite (insert_by_perm ts_desc). constructor; [lia|done].
Qed.

(** ** Capacity and eviction *)




(** ** Deleting *)

(** C6, as the code has it. Deleting an id that no record carries leaves
    the store as it was and raises nothing; the value returned is [True],
    and [False] only when SQLite raised. *)
Theorem delete_missing_id (io : sqlite) (record_id : Z) (d : db) :
  (forall r, r ∈ rows d -> row_id r ≠ record_id) ->
  delete_search_record io record_id d =
  (match io with SqlOk => true | SqlRaises => false end, d).
Proof.
  intros Hno. destruct io; simpl; [|done].
  f_equal. destruct d as [t s]. simpl in *. f_equal.
  unfold delete_where_id_eq.
  induction t as [|x t IH]; [done|].
  rewrite filter_cons_True by (apply Hno; left).
  rewrite IH; [done|]. intros r Hr. apply Hno. by right.
Qed.

Lemma five_ids : row_id <$> rows Sample.five = [1; 2; 3; 4; 5].
Proof. vm_compute. reflexivity. Qed.

Lemma five_has_no_9 r : r ∈ rows Sample.five -> row_id r ≠ 9.
Proof.
  intros Hr%(list_elem_of_fmap_2 row_id). rewrite five_ids in Hr.
  repeat (apply elem_of_cons in Hr as [->|Hr]; [lia|]).
  by apply elem_of_nil in Hr.
Qed.

Lemma delete_missing_id_witness :
  (forall r, r ∈ rows Sample.five -> row_id r ≠ 9) ∧
  delete_search_record SqlOk 9 Sample.five = (true, Sample.five).
Proof.
  split; [exact five_has_no_9|].
  exact (delete_missing_id SqlOk 9 Sample.five five_has_no_9).
Defined.

(** C6 as claimed fails: no record of [Sample.five] has id 9, and deleting
    id 9 returns [True]. *)
Lemma delete_missing_id_returns_true :
  (forall r, r ∈ rows Sample.five -> row_id r ≠ 9) ∧
  (delete_search_record SqlOk 9 Sample.five).1 ≠ false.
Proof.
  split; [exact five_has_no_9|done].
Qed.

(** ** Listing *)

Lemma sorted_weaken (R1 R2 : relation row) l :
  (forall x y, R1 x y -> R2 x y) -> StronglySorted R1 l -> StronglySorted R2 l.
Proof.
  intros Hsub. induction 1 as [|x l _ IH Hx]; constructor; [done|].
  eapply Forall_impl; [exact Hx|]. apply Hsub.
Qed.

Lemma listed_before_rows x y :
  by_key_then_id (fun r => - row_timestamp r) x y ->
  listed_before (record_of_row x) (record_of_row y).
Proof. unfold by_key_then_id, listed_before. simpl. lia. Qed.

(** C9, as the code has it. With capacity [N >= 0] the listing has at most
    [N] records, in descending order of timestamp, records of one timestamp
    by ascending id. If the store holds records 1 to 5, 5 being the last id
    given out, with strictly increasing timestamps, and a record is saved
    at a later clock reading with capacity 5, then it gets id 6, record 1
    is evicted and the listing is 6, 5, 4, 3, 2. *)
Theorem listing_order (N : Z) (d : db) :
  0 <= N ->
  Z.of_nat (length (get_search_history N d)) <= N ∧
  StronglySorted (fun x y => h_timestamp y <= h_timestamp x) (get_search_history N d) ∧
  (ids_increasing (rows d) -> StronglySorted listed_before (get_search_history N d)) ∧
  (forall now a,
     row_id <$> rows d = [1; 2; 3; 4; 5] -> sqlite_sequence d = 5 ->
     StronglySorted Z.lt ((row_timestamp <$> rows d) ++ [now]) ->
     (save_search_result 5 now a d).1 = 6 ∧
     row_id <$> rows (save_search_result 5 now a d).2 = [2; 3; 4; 5; 6] ∧
     h_id <$> get_search_history 5 (save_search_result 5 now a d).2 = [6; 5; 4; 3; 2]).
Proof.
  intros HN. split_and!.
  - unfold get_search_history. rewrite length_fmap. by apply limit_length.
  - unfold get_search_history.
    apply (StronglySorted_fmap _ (fun x y => row_timestamp y <= row_timestamp x));
      [by intros x y|].
    apply limit_sorted, order_desc_by_timestamp.
  - intros Hs. unfold get_search_history.
    apply (StronglySorted_fmap _ (by_key_then_id (fun r => - row_timestamp r)));
      [exact listed_before_rows|].
    by apply limit_sorted, order_desc_sorted.
  - intros now a Hids Hseq Hts.
    destruct d as [t s]. simpl in Hids, Hseq, Hts. subst s.
    destruct t as [|r1 [|r2 [|r3 [|r4 [|r5 [|r6 t]]]]]]; try discriminate Hids.
    injection Hids as I1 I2 I3 I4 I5.
    set (d := {| rows := [r1; r2; r3; r4; r5]; sqlite_sequence := 5 |}).
    assert (next_rowid d = 6) as Hnext
      by (unfold next_rowid; simpl; rewrite I1, I2, I3, I4, I5; reflexivity).
    assert (consistent d) as Hc.
    { split; simpl.
      - repeat (apply StronglySorted_cons; split);
          repeat constructor; lia.
      - repeat constructor; lia. }
    set (r := inserted_row now a d).
    assert (StronglySorted (fun x y => row_timestamp x < row_timestamp y)
              (rows d ++ [r])) as Hstrict.
    { change (rows d ++ [r]) with [r1; r2; r3; r4; r5; r].
      change (StronglySorted Z.lt
                (row_timestamp <$> [r1; r2; r3; r4; r5; r])) in Hts.
      revert Hts. generalize [r1; r2; r3; r4; r5; r]. intros l.
      induction l as [|x l IH]; [constructor|].
      rewrite fmap_cons. intros [Hx Hl]%StronglySorted_cons.
      apply StronglySorted_cons. split; [|by apply IH].
      by rewrite Forall_fmap in Hx. }
    assert (clock_monotone (rows d ++ [r])) as Hm.
    { unfold clock_monotone. eapply sorted_weaken; [|exact Hstrict].
      simpl. intros; lia. }
    pose proof (save_clock_monotone 5 now a d Hc Hm) as Hrows.
    fold r in Hrows.
    change (drop _ _) with [r2; r3; r4; r5; r] in Hrows.
    split_and!.
    + exact Hnext.
    + rewrite Hrows. simpl. rewrite I2, I3, I4, I5. by rewrite Hnext.
    + unfold get_search_history. rewrite Hrows.
      rewrite order_desc_strict.
      * simpl. rewrite I2, I3, I4, I5. by rewrite Hnext.
      * by apply StronglySorted_cons in Hstrict as [_ ?].
Qed.

Lemma listing_order_witness :
  0 <= 5 ∧
  h_id <$> get_search_history 5 (save_search_result 5 60 Sample.jane Sample.five).2
  = [6; 5; 4; 3; 2].
Proof.
  split; [lia|].
  destruct (listing_order 5 Sample.five) as (_ & _ & _ & Hscenario); [lia|].
  apply (Hscenario 60 Sample.jane).
  - exact five_ids.
  - vm_compute. reflexivity.
  - vm_compute. repeat constructor.
Defined.

(** C9 as claimed fails: the store holds records 1 to 5 and a sixth is
    saved within the second of the fifth; record 1 is evicted and the
    listing is 5, 6, 4, 3, 2. *)
Lemma listing_same_second :
  row_id <$> rows Sample.five = [1; 2; 3; 4; 5] ∧
  (save_search_result 5 50 Sample.jane Sample.five).1 = 6 ∧
  row_id <$> rows (save_search_result 5 50 Sample.jane Sample.five).2 = [2; 3; 4; 5; 6] ∧
  h_id <$> get_search_history 5 (save_search_result 5 50 Sample.jane Sample.five).2
  = [5; 6; 4; 3; 2] ∧
  h_id <$> get_search_history 5 (save_search_result 5 50 Sample.jane Sample.five).2
  ≠ [6; 5; 4; 3; 2].
Proof.
  split_and!; try (vm_compute; reflexivity).
  vm_compute. discriminate.
Qed.

End HistoryFacts.

(* ===================================================================== *)
(** * Validation *)
(* ===================================================================== *)

Module ValidationFacts.
Import Py Eff Progress Claims.
Local Open Scope string_scope.
Local Open Scope Z_scope.

(** ** Strings *)

Lemma chars_str l : chars (str l) = l.
Proof. apply list_ascii_of_string_of_list_ascii. Qed.

Lemma len_str l : len (str l) = Z.of_nat (length l).
Proof.
  unfold len, str. f_equal.
  induction l as [|c l IH]; simpl; [done|]. by rewrite IH.
Qed.

Lemma nonempty_false s : nonempty s = false <-> s = "".
Proof.
  unfold nonempty. destruct (String.eqb_spec s ""); simpl; split; done.
Qed.

Lemma lstrip_blank l : Forall (fun c => isspace c = true) l -> lstrip l = [].
Proof. induction 1 as [|c l Hc _ IH]; simpl; [done|]. by rewrite Hc. Qed.

Lemma strip_blank s : blank s -> strip s = "".
Proof. intros Hb. unfold strip. rewrite (lstrip_blank _ Hb). reflexivity. Qed.

(** ** Worked inputs *)

Example email_pattern_examples :
  email_pattern_match <$>
    ["a@b.co"; "a.b@c-d.e.fg"; "a@b..co"; "a@b.co" ++ String "010" "";
     "a@b.co" ++ String "010" (String "010" ""); "a@b.c"; "a@.co"; "@b.co";
     "a@b@c.co"; "a@b.co "; "a@b.c0m"] =
  [true; true; true; true; false; false; false; false; false; false; false].
Proof. vm_compute. reflexivity. Qed.

Example strip_examples :
  strip <$> ["  x "; "x"; String "009" "a b" ++ String "010" ""; "   "; ""] =
  ["x"; "x"; "a b"; ""; ""].
Proof. vm_compute. reflexivity. Qed.

Example validate_candidate_name_examples :
  (fun s => (validate_candidate_name s).1) <$> [""; " "; " A "; "Al"; "Jane Doe"] =
  [false; false; false; true; true].
Proof. vm_compute. reflexivity. Qed.

Example validate_phone_examples :
  (fun s => (validate_phone s).1) <$>
    [""; "1234567"; "+94 77 989 5555"; "(011) 234-5678"; "123456"; "12345a7"; " "] =
  [true; true; true; true; false; false; false].
Proof. vm_compute. reflexivity. Qed.

(** ** Phone numbers *)

Lemma phone_separator_spec c : phone_separator c = true <-> separator c.
Proof.
  unfold phone_separator, separator.
  rewrite orb_true_iff, existsb_exists.
  split.
  - intros [Hs|(x & Hx & Heq)]; [by left|right].
    apply Ascii.eqb_eq in Heq as ->. by apply list_elem_of_In.
  - intros [Hs|Hin]; [by left|right].
    exists c. split; [by apply list_elem_of_In|apply Ascii.eqb_refl].
Qed.

Lemma remove_separators_chars phone :
  chars (remove_separators phone) = digits_of phone.
Proof.
  unfold remove_separators, digits_of. rewrite chars_str.
  induction (chars phone) as [|c l IH]; [done|].
  simpl. rewrite filter_cons.
  destruct (phone_separator c) eqn:Hc; simpl.
  - rewrite decide_False; [done|]. intros Hn. by apply Hn, phone_separator_spec.
  - rewrite decide_True; [by rewrite IH|].
    intros Hs%phone_separator_spec. congruence.
Qed.

Lemma str_isdigit_spec s :
  str_isdigit s = true <->
  chars s ≠ [] ∧ Forall (fun c => isdigit c = true) (chars s).
Proof.
  unfold str_isdigit. destruct (chars s) as [|c l] eqn:E.
  - split; [done|]. by intros [].
  - rewrite forallb_forall, Forall_forall.
    setoid_rewrite list_elem_of_In. split; [by split|by intros []].
Qed.

(** C10, as the code has it. A phone number is accepted exactly when it is
    empty or, once whitespace, hyphens, parentheses and plus signs are
    removed, at least 7 characters are left and each of them is a digit for
    [str.isdigit] (0 to 9, and the superscript digits); any other input is
    rejected with the invalid-phone message. *)
Theorem validate_phone_accepts (phone : string) :
  ((validate_phone phone).1 = true <->
   phone = "" ∨
   (7 <= Z.of_nat (length (digits_of phone)) ∧
    Forall (fun c => isdigit c = true) (digits_of phone))) ∧
  ((validate_phone phone).1 = true -> validate_phone phone = (true, "")) ∧
  ((validate_phone phone).1 = false ->
   validate_phone phone = (false, "Invalid phone format (must be 7+ digits)")).
Proof.
  unfold validate_phone.
  destruct (nonempty phone) eqn:Hne; simpl.
  - assert (phone ≠ "") as Hphone
      by (intros E; apply nonempty_false in E; congruence).
    destruct (str_isdigit (remove_separators phone)) eqn:Hd.
    + apply str_isdigit_spec in Hd as [_ Hd].
      rewrite remove_separators_chars in Hd.
      rewrite <- (string_of_list_ascii_of_string (remove_separators phone)).
      fold (chars (remove_separators phone)). fold (str (chars (remove_separators phone))).
      rewrite len_str, remove_separators_chars.
      destruct (Z.leb_spec 7 (Z.of_nat (length (digits_of phone)))); simpl.
      * split_and!; try done. split; [|done]. intros _. by right.
      * split_and!; try done. split; [done|].
        intros [?|[? _]]; [done|lia].
    + rewrite andb_false_r. simpl. split_and!; try done.
      split; [done|]. intros [?|[Hlen Hall]]; [done|].
      assert (str_isdigit (remove_separators phone) = true) as Ht; [|congruence].
      apply str_isdigit_spec. rewrite remove_separators_chars. split; [|done].
      intros E. rewrite E in Hlen. simpl in Hlen. lia.
  - apply nonempty_false in Hne. split_and!; try done. split; [by left|done].
Qed.

Lemma validate_phone_accepts_witness :
  validate_phone "+94 (77) 989-5555" = (true, "") ∧
  validate_phone "12-34" = (false, "Invalid phone format (must be 7+ digits)").
Proof.
  destruct (validate_phone_accepts "+94 (77) 989-5555") as (_ & Hyes & _).
  destruct (validate_phone_accepts "12-34") as (_ & _ & Hno).
  split; [apply Hyes|apply Hno]; vm_compute; reflexivity.
Defined.

(** C10 as claimed fails: seven superscript twos are accepted, and they are
    not decimal digits. *)
Lemma validate_phone_superscripts :
  let phone := str (replicate 7 "178"%char) in
  code "178"%char = 178 ∧
  phone ≠ "" ∧
  (validate_phone phone).1 = true ∧
  digits_of phone = replicate 7 "178"%char ∧
  ¬ Forall (fun c => isdecimal c = true) (digits_of phone).
Proof.
  split_and!; [done|done|vm_compute; reflexivity|vm_compute; reflexivity|].
  intros H. apply Forall_inv in H. vm_compute in H. discriminate.
Qed.

(** ** Candidate names *)

Lemma validate_candidate_name_short name :
  name = "" ∨ blank name ∨ len (strip name) < 2 ->
  validate_candidate_name name =
  (false, "Candidate name is required (at least 2 characters)").
Proof.
  intros H. unfold validate_candidate_name.
  assert (negb (nonempty name) || (len (strip name) <? 2) = true) as ->; [|done].
  apply orb_true_iff.
  destruct H as [->|[Hb|Hlen]].
  - by left.
  - right. by rewrite strip_blank.
  - right. by apply Z.ltb_lt.
Qed.

Section Submit.
Variable format_percent : nat -> Q -> string.
Variable format_results_ok : ranking_response -> string * string * string.
Variable format_flowise_output : ranking_response -> option payload -> string.
Variable py_repr : pyval -> string.
Variable sqlite : Db.conversions.

(** C7. When the candidate name is empty, made of whitespace only, or
    shorter than 2 characters once stripped, submitting the form yields the
    name error and no payload, [execute_ranking] returns its no-payload
    result, and the database and the log of calls are as before: no request
    went to the ranking API or to Flowise, and nothing was saved. *)
Theorem short_name_is_rejected
    (e : env) (w : world event)
    (cand_name cand_id cand_email cand_phone jd_t cv_t gh li port fb other : string) :
  cand_name = "" ∨ blank cand_name ∨ len (strip cand_name) < 2 ->
  submit format_percent format_results_ok format_flowise_output py_repr sqlite
    cand_name cand_id cand_email cand_phone jd_t cv_t gh li port fb other e w =
  (("Candidate name is required (at least 2 characters)", None,
    Returns ("Error: No payload", "", "", empty_response,
             "<p style='color: red;'>No data available</p>")), w).
Proof.
  intros H. unfold submit, validate_and_submit.
  by rewrite (validate_candidate_name_short _ H).
Qed.

End Submit.

Lemma short_name_is_rejected_witness :
  let e := {| ranking_api := fun _ => RaisesOther "unreachable";
              flowise_api := fun _ => RaisesOther "unreachable";
              now := 0; sqlite_io := Db.SqlOk; insert_committed := false;
              MAX_RECORDS := 5 |} in
  let w := {| store := Db.empty_db; log := [] |} in
  blank "   " ∧
  (submit (fun _ _ => "") (fun _ => ("", "", "")) (fun _ _ => "")
     Sample.no_repr Sample.sqlite
     "   " "" "" "" "job" "cv" "" "" "" "" "" e w).2 = w.
Proof.
  assert (blank "   ") as Hb by (repeat constructor).
  split; [exact Hb|].
  by rewrite (short_name_is_rejected (fun _ _ => "") (fun _ => ("", "", ""))
                (fun _ _ => "") Sample.no_repr Sample.sqlite
                _ _ "   " "" "" "" "job" "cv" "" "" "" "" ""
                (or_intror (or_introl Hb))).
Defined.

End ValidationFacts.

(* ===================================================================== *)
(** * Payloads *)
(* ===================================================================== *)

Module PayloadFacts.
Import Py Eff Claims.
Local Open Scope string_scope.
Local Open Scope Z_scope.

(** ** [prepare_payload] *)

Lemma provider_values (v1 v2 v3 v4 v5 : pyval) :
  Progress.values
    (<["other" := v5]> (<["facebook" := v4]> (<["portfolio" := v3]>
     (<["linkedin" := v2]> (<["github" := v1]> ∅))))) = [v5; v1; v4; v2; v3].
Proof. vm_compute. reflexivity. Qed.

Lemma truthy_links x : truthy (Progress.links x) = nonempty x.
Proof. unfold Progress.links. by destruct (nonempty x). Qed.

Lemma count_truthy_providers gh li po fb ot :
  Progress.count_truthy (Progress.provider_lists gh li po fb ot) =
  one_if gh + one_if li + one_if po + one_if fb + one_if ot.
Proof.
  unfold Progress.count_truthy, Progress.provider_lists.
  rewrite provider_values. cbn [List.filter]. rewrite !truthy_links.
  unfold one_if.
  by destruct (nonempty gh), (nonempty li), (nonempty po), (nonempty fb), (nonempty ot).
Qed.

Lemma provided_cons x l : provided (x :: l) = one_if x + provided l.
Proof.
  unfold provided, one_if. rewrite filter_cons.
  destruct (nonempty x) eqn:E.
  - rewrite decide_True; [simpl length; lia|].
    intros ->. done.
  - apply ValidationFacts.nonempty_false in E as ->.
    rewrite decide_False; [lia|]. by intros [].
Qed.

Lemma provided_five gh li po fb ot :
  provided [gh; li; po; fb; ot] =
  one_if gh + one_if li + one_if po + one_if fb + one_if ot.
Proof. rewrite !provided_cons. unfold provided. simpl. lia. Qed.

Lemma presence_lookup jd cv name cid email phone gh li po fb ot :
  Progress.social_media_profiles
    (Progress.prepare_payload jd cv name cid email phone gh li po fb ot)
    !! "presence_score" =
  Some (PFloat (py_min
    (inject_Z (Progress.count_truthy (Progress.provider_lists gh li po fb ot)) / 4) 1)).
Proof.
  unfold Progress.prepare_payload. simpl.
  rewrite lookup_insert_ne by done. by rewrite lookup_insert_eq.
Qed.

(** C8. The presence score attached to the payload is the number of social
    link fields filled in, divided by 4, clamped to [0, 1]. *)
Theorem presence_score_clamped
    (jd cv name cid email phone gh li po fb ot : string) :
  let p := Progress.prepare_payload jd cv name cid email phone gh li po fb ot in
  let n := provided [gh; li; po; fb; ot] in
  exists ps : Q,
    Progress.social_media_profiles p !! "presence_score" = Some (PFloat ps) ∧
    (ps == Qmax 0 (Qmin (inject_Z n / 4) 1))%Q ∧
    (0 <= ps)%Q ∧ (ps <= 1)%Q.
Proof.
  intros p n. eexists. split; [apply presence_lookup|].
  unfold n. rewrite count_truthy_providers, provided_five. unfold one_if.
  destruct (nonempty gh), (nonempty li), (nonempty po), (nonempty fb), (nonempty ot);
    vm_compute; (split_and!; [reflexivity|discriminate|discriminate]).
Qed.

Example presence_score_examples :
  (fun links : list string =>
     match links with
     | [gh; li; po; fb; ot] =>
         Progress.social_media_profiles
           (Progress.prepare_payload "jd" "cv" "Jane Doe" "" "" "" gh li po fb ot)
           !! "presence_score"
     | _ => None
     end) <$>
    [[""; ""; ""; ""; ""]; ["g"; ""; ""; ""; ""]; ["g"; "l"; ""; ""; "o"];
     ["g"; "l"; "p"; "f"; "o"]] =
  [Some (PFloat (0 # 4)); Some (PFloat (1 # 4)); Some (PFloat (3 # 4));
   Some (PFloat 1)].
Proof. vm_compute. reflexivity. Qed.

(** ** The two social-profile mappings *)

Lemma truthy_stripped x v :
  v = Gdpr.stripped_or_none x -> truthy v = true ->
  v = PStr (strip x) ∧ strip x ≠ "".
Proof.
  unfold Gdpr.stripped_or_none. intros -> Ht.
  destruct (nonempty (strip x)) eqn:E; [|done].
  split; [done|]. intros Heq. rewrite Heq in E. done.
Qed.

Lemma filtered_stripped (m : dict) k x :
  m !! k = Some (Gdpr.stripped_or_none x) ->
  filter (fun kv : string * pyval => truthy kv.2 = true) m !! k =
  if nonempty (strip x) then Some (PStr (strip x)) else None.
Proof.
  intros Hk. rewrite map_lookup_filter, Hk.
  unfold Gdpr.stripped_or_none.
  destruct (nonempty (strip x)) eqn:E; cbn [mbind option_bind].
  - rewrite option_guard_True; [done|]. exact E.
  - by rewrite option_guard_False.
Qed.

Ltac lookup_key :=
  repeat (rewrite lookup_insert_ne by done);
  first [apply lookup_insert_eq | apply lookup_empty].

(** C5, as the code has it. In [rank_cv_with_social_and_flowise] every
    entry of the social-profile mapping is a non-empty string, and a field
    left empty or blank has no key. In [prepare_payload] each of the five
    providers always is a key of the mapping: it holds the list of the one
    URL when the field was filled in, and the empty list when it was not. *)
Theorem social_profile_entries
    (jd cv name cid email phone gh li po fb ot : string) :
  let m := Gdpr.build_social_profiles email phone gh li po fb ot in
  let sp := Progress.social_media_profiles
              (Progress.prepare_payload jd cv name cid email phone gh li po fb ot) in
  (forall k v, m !! k = Some v -> exists s, v = PStr s ∧ s ≠ "") ∧
  (forall k x,
     (k, x) ∈ [("email", email); ("phone", phone); ("github", gh);
               ("linkedin", li); ("portfolio", po); ("facebook", fb);
               ("other", ot)] ->
     m !! k = if nonempty (strip x) then Some (PStr (strip x)) else None) ∧
  (forall k x,
     (k, x) ∈ [("github", gh); ("linkedin", li); ("portfolio", po);
               ("facebook", fb); ("other", ot)] ->
     sp !! k = Some (PList (if nonempty x then [x] else []))).
Proof.
  intros m sp. split_and!.
  - intros k v Hk. unfold m, Gdpr.build_social_profiles in Hk.
    assert (forall m0 : dict,
              m0 = filter (fun kv : string * pyval => truthy kv.2 = true)
                     (<["facebook" := Gdpr.stripped_or_none fb]>
                      (<["portfolio" := Gdpr.stripped_or_none po]>
                      (<["linkedin" := Gdpr.stripped_or_none li]>
                      (<["github" := Gdpr.stripped_or_none gh]>
                      (<["phone" := Gdpr.stripped_or_none phone]>
                      (<["email" := Gdpr.stripped_or_none email]> ∅)))))) ->
              m0 !! k = Some v -> exists s, v = PStr s ∧ s ≠ "") as Hfiltered.
    { intros m0 -> [Hin Ht]%map_lookup_filter_Some. cbn [snd] in Ht.
      repeat (apply lookup_insert_Some in Hin as [[_ Hv]|[_ Hin]];
              [symmetry in Hv; destruct (truthy_stripped _ _ Hv Ht) as [-> ?]; eauto|]).
      by rewrite lookup_empty in Hin. }
    destruct (nonempty (strip ot)) eqn:E.
    + apply lookup_insert_Some in Hk as [[_ <-]|[_ Hk]]; [|by eapply Hfiltered].
      eexists. split; [done|]. intros Heq. rewrite Heq in E. done.
    + by eapply Hfiltered.
  - intros k x Hin. unfold m, Gdpr.build_social_profiles.
    repeat (apply elem_of_cons in Hin as [[= -> ->]|Hin];
            [destruct (nonempty (strip ot));
             rewrite ?(lookup_insert_ne _ "other") by done;
             apply filtered_stripped; lookup_key|]).
    apply elem_of_cons in Hin as [[= -> ->]|Hin]; [|by apply elem_of_nil in Hin].
    destruct (nonempty (strip ot)) eqn:E.
    + apply lookup_insert_eq.
    + rewrite map_lookup_filter.
      rewrite !lookup_insert_ne by done. by rewrite lookup_empty.
  - intros k x Hin. unfold sp, Progress.prepare_payload.
    cbn [Progress.social_media_profiles].
    unfold Progress.provider_lists, Progress.links.
    repeat (apply elem_of_cons in Hin as [[= -> ->]|Hin]; [lookup_key|]).
    by apply elem_of_nil in Hin.
Qed.

Lemma social_profile_entries_witness :
  Gdpr.build_social_profiles "" "" "https://github.com/jane" "" "" "" "  " !! "github"
    = Some (PStr "https://github.com/jane") ∧
  Gdpr.build_social_profiles "" "" "https://github.com/jane" "" "" "" "  " !! "other"
    = None.
Proof.
  destruct (social_profile_entries "" "" "" "" "" "" "https://github.com/jane"
              "" "" "" "  ") as (_ & Hkeys & _).
  split.
  - apply (Hkeys "github" "https://github.com/jane").
    do 2 right. left.
  - apply (Hkeys "other" "  "). do 6 right. left.
Defined.

(** C5 as claimed fails: with no link filled in, the mapping
    [prepare_payload] sends to the ranking API has the key ["github"] with
    the empty list, and the request [execute_ranking] then sends to Flowise
    has the key ["github_url"] with [None]. *)
Lemma empty_links_are_sent :
  Progress.social_media_profiles Sample.jane_payload !! "github" = Some (PList []) ∧
  (fun body : dict => body !! "github_url") <$>
    flowise_requests (log Sample.progress_jane.2) = [Some PNone].
Proof. split; vm_compute; reflexivity. Qed.

End PayloadFacts.

(* ===================================================================== *)
(** * The pipeline of app_with_progress.py *)
(* ===================================================================== *)

Module ProgressFacts.
Import Py Eff Progress Claims.
Local Open Scope string_scope.
Local Open Scope Z_scope.

Lemma failed_ranking_reply (r : http_result ranking_response) :
  failed r -> exists msg st, ranking_reply r = error_response msg st.
Proof.
  destruct r as [c t [res|err]|err|err]; cbn [failed ranking_reply]; intros Hf.
  - destruct (Z.eqb_spec c 200); [done|]. by eexists _, _.
  - destruct (c =? 200); by eexists _, _.
  - by eexists _, _.
  - by eexists _, _.
Qed.



Lemma error_response_dict msg st :
  error_response msg st = PDict (Outcomes.error_fields msg st).
Proof. reflexivity. Qed.

Lemma error_fields_lookup msg st k :
  k ≠ "status_code" ->
  Outcomes.error_fields msg st !! k =
    if decide (k = "error") then Some (PStr msg) else None.
Proof.
  intros Hk. unfold Outcomes.error_fields, error_response.
  destruct st; [rewrite lookup_insert_ne by done|];
    (destruct (decide (k = "error")) as [->|];
     [apply lookup_insert_eq|by rewrite lookup_insert_ne, lookup_empty]).
Qed.

Lemma nonempty_strip s : nonempty (strip s) = true -> nonempty s = true.
Proof.
  intros H. destruct (nonempty s) eqn:E; [done|].
  apply ValidationFacts.nonempty_false in E. by rewrite E in H.
Qed.

Section Rendering.
Variable format_percent : nat -> Q -> string.
Variable format_results_ok : ranking_response -> string * string * string.
Variable format_flowise_output : ranking_response -> option payload -> string.
Variable py_repr : pyval -> string.
Variable sqlite : Db.conversions.

Abbreviation execute_ranking :=
  (Progress.execute_ranking format_percent format_results_ok format_flowise_output
     py_repr sqlite).

Lemma call_flowise_evaluation_run p score e w :
  let social_profiles := social_media_profiles p in
  Progress.call_flowise_evaluation format_percent
    (candidate_name p) (candidate_email p) (candidate_phone p)
    (first_link social_profiles "github") (first_link social_profiles "linkedin")
    (first_link social_profiles "portfolio") (first_link social_profiles "facebook")
    score e w =
  (Outcomes.flowise_result format_percent e p score,
   {| store := store w;
      log := log w ++ Outcomes.flowise_posts format_percent p score |}).
Proof.
  cbv zeta.
  unfold Progress.call_flowise_evaluation, Outcomes.flowise_result,
    Outcomes.flowise_posts, Outcomes.unnamed.
  destruct (negb (nonempty (candidate_name p)) ||
            negb (nonempty (strip (candidate_name p)))).
  - unfold ret. rewrite app_nil_r. by destruct w.
  - destruct (py_number score) as [q|].
    + reflexivity.
    + unfold ret. rewrite app_nil_r. by destruct w.
Qed.

Lemma save_block_run p r f e w :
  Progress.save_block format_percent sqlite p r f e w =
  (tt,
   {| store := Outcomes.after_save_block (sqlite_io e) (insert_committed e)
                 (MAX_RECORDS e) (now e)
                 (search_record format_percent sqlite p r f) (store w);
      log := log w ++ Outcomes.saves (search_record format_percent sqlite p r f) |}).
Proof.
  unfold Progress.save_block, Outcomes.after_save_block, Outcomes.saves,
    Outcomes.store_after_save.
  destruct (search_record format_percent sqlite p r f) as [a|].
  - unfold Progress.save_search_result, bind, ret, emit, ask, get_store, put_store.
    cbv beta iota zeta. cbn [store log].
    destruct (sqlite_io e).
    + by destruct (Db.save_search_result _ _ _ _) as [rid d'].
    + by destruct (insert_committed e).
  - unfold ret. rewrite app_nil_r. by destruct w.
Qed.

Abbreviation texts := (Outcomes.texts format_results_ok py_repr).

(** [execute_ranking] on a reply that is a dictionary. *)
Lemma execute_ranking_dict p e w d :
  ranking_reply (ranking_api e p) = PDict d ->
  let r := Outcomes.merged format_percent e p d in
  let a := Outcomes.saved format_percent sqlite e p d in
  execute_ranking (Some p) e w =
  (Returns ((texts d).1.1, (texts d).1.2, (texts d).2, r,
            format_flowise_output r (Some p)),
   {| store := Outcomes.after_save_block (sqlite_io e) (insert_committed e)
                 (MAX_RECORDS e) (now e) a (store w);
      log := log w ++ [PostRanking p] ++ Outcomes.posts format_percent p d ++
             Outcomes.saves a |}).
Proof.
  intros Hr. cbv zeta.
  unfold Progress.execute_ranking, call_ranking_api, post_ranking,
    bind, ret, emit, ask.
  cbv beta iota zeta. cbn [store log]. rewrite Hr.
  unfold format_results, has_error, Outcomes.texts, Outcomes.saved, Outcomes.merged,
    Outcomes.flowise_saved, Outcomes.posts, Outcomes.asked.
  cbn [py_in].
  destruct (d !! "error") as [v|] eqn:He.
  - cbn [default negb andb].
    rewrite save_block_run. cbn [store log]. by rewrite <- !app_assoc.
  - destruct (format_results_ok (PDict d)) as [[baseline social] delta].
    cbn [negb andb fst snd].
    destruct (nonempty (candidate_name p)).
    + rewrite call_flowise_evaluation_run. cbv beta iota zeta.
      unfold set_flowise_evaluation, Outcomes.score_of.
      rewrite save_block_run. cbn [store log]. by rewrite <- !app_assoc.
    + rewrite save_block_run. cbn [store log]. by rewrite <- !app_assoc.
Qed.

(** [execute_ranking] on a reply that is no dictionary: nothing is asked
    of Flowise and nothing saved, and with a candidate name the function
    is left by an exception. *)
Lemma execute_ranking_other p e w :
  (forall d, ranking_reply (ranking_api e p) ≠ PDict d) ->
  (execute_ranking (Some p) e w).2 =
    {| store := store w; log := log w ++ [PostRanking p] |} ∧
  (nonempty (candidate_name p) = true ->
   exists err, (execute_ranking (Some p) e w).1 = Raises err).
Proof.
  intros Hr.
  unfold Progress.execute_ranking, call_ranking_api, post_ranking,
    bind, ret, emit, ask.
  cbv beta iota zeta. cbn [store log].
  destruct (ranking_reply (ranking_api e p)) as [|b|z|q|s|l|l|d] eqn:Er;
    try (by destruct (Hr d));
    unfold format_results, has_error; cbn [py_in];
    try (split; [reflexivity|intros _; eexists; reflexivity]).
  - destruct (is_infix _ _); [split; [reflexivity|intros _; by eexists]|].
    destruct (format_results_ok _) as [[baseline social] delta]. cbn [negb andb].
    destruct (nonempty (candidate_name p)); cbn [fst snd].
    + split; [reflexivity|intros _; by eexists].
    + rewrite save_block_run. cbn [search_record save_arguments].
      unfold search_record, save_arguments. cbn [Outcomes.after_save_block Outcomes.saves].
      rewrite app_nil_r. split; [reflexivity|done].
  - destruct (existsb _ _); [split; [reflexivity|intros _; by eexists]|].
    destruct (format_results_ok _) as [[baseline social] delta]. cbn [negb andb].
    destruct (nonempty (candidate_name p)); cbn [fst snd].
    + split; [reflexivity|intros _; by eexists].
    + rewrite save_block_run.
      unfold search_record, save_arguments. cbn [Outcomes.after_save_block Outcomes.saves].
      rewrite app_nil_r. split; [reflexivity|done].
  - destruct (existsb _ _); [split; [reflexivity|intros _; by eexists]|].
    destruct (format_results_ok _) as [[baseline social] delta]. cbn [negb andb].
    destruct (nonempty (candidate_name p)); cbn [fst snd].
    + split; [reflexivity|intros _; by eexists].
    + rewrite save_block_run.
      unfold search_record, save_arguments. cbn [Outcomes.after_save_block Outcomes.saves].
      rewrite app_nil_r. split; [reflexivity|done].
Qed.

(** When the social evaluation is requested. *)
Lemma posts_cases p d :
  (d !! "error" = None ∧ nonempty (strip (candidate_name p)) = true ∧
   exists q, py_number (Outcomes.score_of d) = Some q ∧
             Outcomes.posts format_percent p d =
               [PostFlowise (flowise_request format_percent p q)]) ∨
  (Outcomes.posts format_percent p d = [] ∧
   ¬ (d !! "error" = None ∧ nonempty (strip (candidate_name p)) = true ∧
      is_Some (py_number (Outcomes.score_of d)))).
Proof.
  unfold Outcomes.posts, Outcomes.asked, Outcomes.flowise_posts, Outcomes.unnamed.
  destruct (d !! "error") as [v|]; [right; split; [done|by intros [? _]]|].
  destruct (nonempty (strip (candidate_name p))) eqn:Hs.
  - rewrite (nonempty_strip _ Hs). cbn [negb orb].
    destruct (py_number (Outcomes.score_of d)) as [q|] eqn:Hq.
    + left. split_and!; [done..|]. by exists q.
    + right. split; [done|]. intros (_ & _ & [? ?]). done.
  - right. split; [|by intros (_ & ? & _)].
    destruct (nonempty (candidate_name p)); [|done]. by rewrite orb_true_r.
Qed.

Lemma len_prefix n s : len (prefix n s) <= Z.of_nat n.
Proof.
  unfold prefix. rewrite ValidationFacts.len_str, length_take. lia.
Qed.

(** What every record handed to the INSERT carries. *)
Lemma search_record_fields p r f a :
  search_record format_percent sqlite p r f = Some a ->
  Db.arg_candidate_name a = candidate_name p ∧
  Db.arg_flowise_response a = Some f ∧
  exists recommendation,
    Db.arg_recommendation a = Some recommendation ∧ len recommendation <= 200.
Proof.
  unfold search_record, save_arguments.
  destruct r as [| | | | | | |d]; try done.
  destruct (recommendation_of _ _ _) as [rec|]; [|done].
  destruct rec as [| | | |s|l|l|]; try done; cbn [slice_200]; unfold Db.bind;
    cbn [Db.call_job_title Db.call_match_score Db.call_recommendation
         Db.call_candidate_name Db.call_flowise_response Db.bind_text];
    destruct (Db.bind_text sqlite _) as [[job|]|]; try done;
    destruct (Db.bind_real sqlite _) as [score|]; try done.
  intros [= <-]. cbn. split_and!; [done..|].
  eexists. split; [reflexivity|]. apply (len_prefix 200).
Qed.

(** What [execute_ranking] returns and the calls it makes depend on the
    answers of the two services only. *)
Lemma execute_ranking_answers p e e' w :
  ranking_api e p = ranking_api e' p ->
  (forall body, flowise_api e body = flowise_api e' body) ->
  (execute_ranking (Some p) e w).1 = (execute_ranking (Some p) e' w).1 ∧
  log (execute_ranking (Some p) e w).2 = log (execute_ranking (Some p) e' w).2.
Proof.
  intros Hr Hf.
  destruct (ranking_reply (ranking_api e p)) as [|b|z|q|s|l|l|d] eqn:Er.
  8: { rewrite (execute_ranking_dict p e w d Er).
       rewrite Hr in Er. rewrite (execute_ranking_dict p e' w d Er).
       assert (Outcomes.flowise_result format_percent e p (Outcomes.score_of d) =
               Outcomes.flowise_result format_percent e' p (Outcomes.score_of d)) as Hfl.
       { unfold Outcomes.flowise_result. destruct (Outcomes.unnamed p); [done|].
         destruct (py_number _); [|done]. by rewrite Hf. }
       unfold Outcomes.saved, Outcomes.merged, Outcomes.flowise_saved.
       rewrite Hfl. done. }
  all: unfold Progress.execute_ranking, call_ranking_api, post_ranking,
         bind, ret, emit, ask;
       cbv beta iota zeta; cbn [store log]; rewrite <- Hr, Er;
       unfold format_results, has_error; cbn [py_in]; try done.
  - destruct (is_infix _ _); [done|].
    destruct (format_results_ok _) as [[baseline social] delta]. cbn [negb andb].
    destruct (nonempty (candidate_name p)); [done|].
    by rewrite !save_block_run.
  - destruct (existsb _ _); [done|].
    destruct (format_results_ok _) as [[baseline social] delta]. cbn [negb andb].
    destruct (nonempty (candidate_name p)); [done|].
    by rewrite !save_block_run.
  - destruct (existsb _ _); [done|].
    destruct (format_results_ok _) as [[baseline social] delta]. cbn [negb andb].
    destruct (nonempty (candidate_name p)); [done|].
    by rewrite !save_block_run.
Qed.

(** The record saved after a failed ranking call. *)
Lemma failed_search_record p msg st :
  search_record format_percent sqlite p (error_response msg st) (PDict ∅) =
  Some {| Db.arg_candidate_name := candidate_name p;
          Db.arg_job_title := "Job Position";
          Db.arg_match_score := Db.Real 0;
          Db.arg_recommendation :=
            Some (prefix 200 ("Match score: " ++ format_percent 1 0%Q));
          Db.arg_social_profiles := PDict ∅;
          Db.arg_flowise_response := Some (PDict ∅);
          Db.arg_notes := "" |}.
Proof.
  rewrite error_response_dict.
  unfold search_record, save_arguments, recommendation_of.
  rewrite !error_fields_lookup by done. cbn [decide default].
  repeat (destruct (decide _) as [?|_]; [done|]).
  cbn [default truthy py_number]. reflexivity.
Qed.

End Rendering.

End ProgressFacts.

(* ===================================================================== *)
(** * The pipeline of app_gdpr_compliant.py *)
(* ===================================================================== *)

Module GdprFacts.
Import Py Eff Gdpr Claims.
Local Open Scope string_scope.
Local Open Scope Z_scope.


Lemma ranking_outcome {A} (r : http_result A) :
  failed r ∨ exists t res, r = Response 200 t (Json res).
Proof.
  destruct r as [c t [res|err]|err|err]; cbn [failed]; try by left.
  destruct (decide (c = 200)) as [->|]; [right; eauto|by left].
Qed.

Lemma failed_not_scored {A} (r : http_result A) t res :
  failed r -> r ≠ Response 200 t (Json res).
Proof. intros Hf ->. by apply Hf. Qed.


Lemma inputs_present_spec name cv jd :
  inputs_present name cv jd = true ->
  nonempty (strip name) = true ∧ nonempty (strip cv) = true ∧
  nonempty (strip jd) = true.
Proof.
  unfold inputs_present. by intros [[? ?]%andb_prop ?]%andb_prop.
Qed.

Section Rendering.
Variable API_URL : string.
Variable build_query :
  string -> string -> string -> string -> string -> string -> string -> string ->
  option string -> string.
Variable format_explanation : dict -> string + string.
Variable format_flowise_evaluation : dict -> string + string.
Variable json_dumps : dict -> string.
Variable py_repr : pyval -> string.
Variable strftime : Z -> string.
Variable format_history : list Db.history_record -> string.
Variable sqlite : Db.conversions.

Abbreviation rank_cv :=
  (rank_cv_with_social_and_flowise API_URL build_query format_explanation
     format_flowise_evaluation json_dumps py_repr strftime format_history sqlite).
Abbreviation question := (build_flowise_question_from_fields build_query).
Abbreviation social_step := (Outcomes.social_step format_flowise_evaluation py_repr).


Lemma gdpr_save_block_run a e w :
  Gdpr.save_block a e w =
  (tt,
   {| store := Outcomes.after_save_block (sqlite_save e) (insert_committed e)
                 (MAX_RECORDS e) (now e) a (store w);
      log := log w ++ Outcomes.gdpr_saves a |}).
Proof.
  unfold Gdpr.save_block, Outcomes.after_save_block, Outcomes.gdpr_saves,
    Outcomes.store_after_save.
  destruct a as [a|].
  - unfold Gdpr.save_search_result, bind, ret, emit, ask, get_store, put_store.
    cbv beta iota zeta. cbn [store log].
    destruct (sqlite_save e).
    + by destruct (Db.save_search_result _ _ _ _) as [rid d'].
    + by destruct (insert_committed e).
  - unfold ret. rewrite app_nil_r. by destruct w.
Qed.

(** The history display does not touch the world. *)
Lemma format_search_history_display_world e w :
  (format_search_history_display format_history e w).2 = w.
Proof.
  unfold format_search_history_display, bind, ret, ask, get_store.
  by destruct (sqlite_read e).
Qed.


Section Run.
Variables jd_title jd cv name email phone gh li po fb ot : string.
Variable evaluate_social : bool.
Variable e : env.
Variable w : world event.

Let sp := build_social_profiles email phone gh li po fb ot.
Let payload := ranking_payload jd_title jd cv name sp.
Let q := question name email phone gh li po fb ot (prefix 300 cv).
Let run := rank_cv jd_title jd cv name email phone gh li po fb ot evaluate_social e w.

Lemma run_rejected :
  inputs_present name cv jd = false ->
  run.2 = w ∧ out_match_score run.1 = PNone.
Proof.
  unfold inputs_present, run, rank_cv_with_social_and_flowise.
  destruct (nonempty (strip name)); [|done].
  destruct (nonempty (strip cv)); [|done].
  by destruct (nonempty (strip jd)).
Qed.

Lemma run_ranking_failed :
  inputs_present name cv jd = true ->
  failed (ranking_api e payload) ->
  run.2 = {| store := store w; log := log w ++ [PostRanking payload] |} ∧
  out_match_score run.1 = PNone.
Proof.
  intros (Hn & Hc & Hj)%inputs_present_spec Hf.
  unfold run, rank_cv_with_social_and_flowise. rewrite Hn, Hc, Hj.
  cbn [negb]. fold sp. fold payload.
  unfold bind, ret, emit, ask. cbv beta iota zeta. cbn [store log].
  destruct (ranking_api e payload) as [c t [res|err]|err|err];
    cbn [failed] in Hf; try done.
  - destruct (Z.eqb_spec c 200); [done|]. done.
  - by destruct (c =? 200).
Qed.

(** The reply came, and reading it raised. *)
Lemma run_unread t result err :
  inputs_present name cv jd = true ->
  ranking_api e payload = Response 200 t (Json result) ->
  read_result format_explanation result = inr err ->
  run = (error_output err,
         {| store := store w; log := log w ++ [PostRanking payload] |}).
Proof.
  intros (Hn & Hc & Hj)%inputs_present_spec Hr Hread.
  unfold run, rank_cv_with_social_and_flowise. rewrite Hn, Hc, Hj.
  cbn [negb]. fold sp. fold payload.
  unfold bind, ret, emit, ask. cbv beta iota zeta. cbn [store log].
  rewrite Hr. cbn [Z.eqb Pos.eqb negb]. by rewrite Hread.
Qed.

(** The reply came and was read. *)
Lemma run_scored t result score recommendation explanation :
  inputs_present name cv jd = true ->
  ranking_api e payload = Response 200 t (Json result) ->
  read_result format_explanation result = inl (score, recommendation, explanation) ->
  run =
  match social_step e evaluate_social sp q explanation with
  | inr err =>
      (error_output err,
       {| store := store w;
          log := log w ++ [PostRanking payload] ++
                 Outcomes.questions evaluate_social sp q |})
  | inl (flowise_evaluation, social_presence_score, explanation) =>
      let a := search_record strftime sqlite jd_title name score recommendation sp
                 social_presence_score (now e) in
      let w' :=
        {| store := Outcomes.after_save_block (sqlite_save e) (insert_committed e)
                      (MAX_RECORDS e) (now e) a (store w);
           log := log w ++ [PostRanking payload] ++
                  Outcomes.questions evaluate_social sp q ++ Outcomes.gdpr_saves a |} in
      (match (format_search_history_display format_history e w').1 with
       | inl history_display =>
           (score, recommendation, explanation,
            if dict_truthy sp then json_dumps sp else "No social profiles provided",
            flowise_evaluation, history_display)
       | inr err => error_output err
       end, w')
  end.
Proof.
  intros (Hn & Hc & Hj)%inputs_present_spec Hr Hread.
  unfold run, rank_cv_with_social_and_flowise. rewrite Hn, Hc, Hj.
  cbn [negb]. fold sp. fold payload. fold q.
  unfold Outcomes.social_step, Outcomes.questions, Outcomes.social.
  unfold evaluate_with_flowise_via_be, post_flowise, bind, ret, emit, ask.
  cbv beta iota zeta. cbn [store log].
  rewrite Hr. cbn [Z.eqb Pos.eqb negb]. rewrite Hread. cbv beta iota zeta.
  destruct (evaluate_social && dict_truthy sp).
  - cbv beta iota zeta. cbn [store log].
    destruct (read_flowise_result _ _ _ _) as [[[fe sps] expl]|err].
    + rewrite gdpr_save_block_run. cbn [store log].
      rewrite <- !app_assoc.
      set (w' := {| store := _; log := _ |}).
      pose proof (format_search_history_display_world e w') as Hw.
      destruct (format_search_history_display format_history e w') as [h w2].
      cbn [snd] in Hw. subst w2. cbn [fst]. by destruct h.
    + by rewrite <- app_assoc.
  - cbv beta iota zeta. rewrite gdpr_save_block_run. cbn [store log].
    rewrite <- !app_assoc.
    set (w' := {| store := _; log := _ |}).
    pose proof (format_search_history_display_world e w') as Hw.
    destruct (format_search_history_display format_history e w') as [h w2].
    cbn [snd] in Hw. subst w2. cbn [fst]. by destruct h.
Qed.

End Run.


End Rendering.

End GdprFacts.

(* ===================================================================== *)
(** * The two pipelines: failures and the social step *)
(* ===================================================================== *)

Module PipelineFacts.
Import Py Eff Claims.
Local Open Scope string_scope.
Local Open Scope Z_scope.





Section Rendering.
Variable format_percent : nat -> Q -> string.
Variable format_results_ok : Progress.ranking_response -> string * string * string.
Variable format_flowise_output :
  Progress.ranking_response -> option Progress.payload -> string.
Variable py_repr : pyval -> string.
Variable sqlite : Db.conversions.
Variable API_URL : string.
Variable build_query :
  string -> string -> string -> string -> string -> string -> string -> string ->
  option string -> string.
Variable format_explanation : dict -> string + string.
Variable format_flowise_evaluation : dict -> string + string.
Variable json_dumps : dict -> string.
Variable strftime : Z -> string.
Variable format_history : list Db.history_record -> string.

Abbreviation execute_ranking :=
  (Progress.execute_ranking format_percent format_results_ok format_flowise_output
     py_repr sqlite).
Abbreviation rank_cv :=
  (Gdpr.rank_cv_with_social_and_flowise API_URL build_query format_explanation
     format_flowise_evaluation json_dumps py_repr strftime format_history sqlite).
Abbreviation history_display := (Gdpr.format_search_history_display format_history).

(** ** When the ranking call fails *)

(** C1 fails in [execute_ranking]. Whenever the ranking call fails (status
    other than 200, timeout, transport error, body that is not JSON), the
    function shows the error and then calls [save_search_result]: the log
    holds the request and the save, of a record with match score 0, and
    with SQLite working the store is the one that save leaves. *)
Theorem failed_ranking_is_saved
    (p : Progress.payload) (e : Progress.env) (w : world Progress.event) :
  failed (Progress.ranking_api e p) ->
  exists msg st a,
    let r := Progress.error_response msg st in
    Progress.search_record format_percent sqlite p r (PDict ∅) = Some a ∧
    (execute_ranking (Some p) e w).1 =
      Progress.Returns
        ("Error: " ++ msg, "", "", r, format_flowise_output r (Some p)) ∧
    log (execute_ranking (Some p) e w).2 =
      (log w ++ [Progress.PostRanking p; Progress.SaveSearchResult a])%list ∧
    Db.arg_match_score a = Db.Real 0 ∧
    (Progress.sqlite_io e = Db.SqlOk ->
     store (execute_ranking (Some p) e w).2 =
     (Db.save_search_result (Progress.MAX_RECORDS e) (Progress.now e) a (store w)).2).
Proof.
  intros (msg & st & Hr)%ProgressFacts.failed_ranking_reply.
  exists msg, st. eexists. cbv zeta.
  rewrite ProgressFacts.error_response_dict in Hr.
  rewrite (ProgressFacts.execute_ranking_dict format_percent format_results_ok
             format_flowise_output py_repr sqlite p e w _ Hr).
  unfold Outcomes.saved, Outcomes.merged, Outcomes.flowise_saved, Outcomes.posts,
    Outcomes.asked, Outcomes.texts.
  rewrite ProgressFacts.error_fields_lookup by done. cbn [decide].
  destruct (decide _) as [_|?]; [|done].
  rewrite <- ProgressFacts.error_response_dict.
  rewrite ProgressFacts.failed_search_record.
  cbn [fst snd log store Outcomes.saves Outcomes.after_save_block app
       Progress.py_str]. split_and!.
  - reflexivity.
  - reflexivity.
  - reflexivity.
  - reflexivity.
  - by intros ->.
Qed.

(** In [rank_cv_with_social_and_flowise] a failed ranking call ends the
    run: only the request is in the log, the store is as before and no
    score is returned. *)
Lemma gdpr_failed_ranking_not_saved
    jd_title jd cv name email phone gh li po fb ot evaluate_social
    (e : Gdpr.env) (w : world Gdpr.event) :
  let sp := Gdpr.build_social_profiles email phone gh li po fb ot in
  let payload := Gdpr.ranking_payload jd_title jd cv name sp in
  let run := rank_cv jd_title jd cv name email phone gh li po fb ot evaluate_social e w in
  Gdpr.inputs_present name cv jd = true ->
  failed (Gdpr.ranking_api e payload) ->
  run.2 = {| store := store w; log := (log w ++ [Gdpr.PostRanking payload])%list |} ∧
  Gdpr.out_match_score run.1 = PNone.
Proof. intros sp payload run. by apply GdprFacts.run_ranking_failed. Qed.

(** ** When the social evaluation fails *)


(** ** When the social step runs *)


End Rendering.

Lemma failed_ranking_is_saved_witness :
  failed (Progress.ranking_api Sample.ranking_down Sample.jane_payload) ∧
  exists a,
    log (Progress.execute_ranking Sample.no_percent Sample.no_results Sample.no_html
           Sample.no_repr Sample.sqlite
           (Some Sample.jane_payload) Sample.ranking_down Sample.fresh).2 =
    [Progress.PostRanking Sample.jane_payload; Progress.SaveSearchResult a] ∧
    Db.arg_match_score a = Db.Real 0.
Proof.
  split; [exact I|].
  destruct (failed_ranking_is_saved Sample.no_percent Sample.no_results Sample.no_html
              Sample.no_repr Sample.sqlite
              Sample.jane_payload Sample.ranking_down Sample.fresh I)
    as (msg & st & a & _ & _ & Hlog & Hscore & _).
  exists a. split; [exact Hlog|exact Hscore].
Defined.

(** The record that is left in the history after the failed call. *)
Lemma failed_ranking_row :
  let run := Progress.execute_ranking Sample.no_percent Sample.no_results Sample.no_html
               Sample.no_repr Sample.sqlite
               (Some Sample.jane_payload) Sample.ranking_down Sample.fresh in
  (fun r => (Db.row_id r, Db.row_candidate_name r, Db.row_job_title r,
             Db.row_match_score r)) <$> Db.rows (store run.2) =
  [(1, "Jane Doe", "Job Position", Db.Real 0)].
Proof. vm_compute. reflexivity. Qed.





End PipelineFacts.

(* ===================================================================== *)
(** * The search history: ids, round trips, maintenance *)
(* ===================================================================== *)

Module StoreFacts.
Import Py Db History Maintenance.
Local Open Scope Z_scope.

(** ** Looking a record up *)

Lemma lookup_unique (t : list row) (r : row) :
  NoDup (row_id <$> t) -> r ∈ t ->
  head (filter (fun x => row_id x = row_id r) t) = Some r.
Proof.
  induction t as [|x t IH]; intros Hnd Hin; [by apply elem_of_nil in Hin|].
  rewrite fmap_cons in Hnd. apply NoDup_cons in Hnd as [Hx Hnd].
  apply elem_of_cons in Hin as [->|Hin].
  - by rewrite filter_cons_True.
  - rewrite filter_cons_False; [by apply IH|].
    intros Heq. apply Hx. rewrite Heq. by apply list_elem_of_fmap_2.
Qed.

Lemma lookup_absent (t : list row) (i : Z) :
  i ∉ row_id <$> t -> head (filter (fun x => row_id x = i) t) = None.
Proof.
  induction t as [|x t IH]; intros Hn; [done|].
  rewrite fmap_cons in Hn. apply not_elem_of_cons in Hn as [Hx Hn].
  rewrite filter_cons_False by congruence. by apply IH.
Qed.

Lemma consistent_NoDup d : consistent d -> NoDup (row_id <$> rows d).
Proof. intros [Hs _]. by apply HistoryFacts.ids_increasing_NoDup. Qed.

(** Every row a save removes is older than every row it keeps. *)
Lemma evicted_are_older (N now : Z) a d x y :
  consistent d ->
  x ∈ evicted N now a d -> y ∈ rows (save_search_result N now a d).2 -> older x y.
Proof.
  intros Hc Hx Hy.
  pose proof (HistoryFacts.save_split N now a d Hc) as He. cbv zeta in He.
  pose proof (HistoryFacts.save_rows_perm N now a d Hc) as Hk. cbv zeta in Hk.
  rewrite He in Hx. rewrite Hk in Hy.
  eapply StronglySorted_app_1_elem_of; [|exact Hx|exact Hy].
  rewrite take_drop. by apply HistoryFacts.order_asc_sorted, HistoryFacts.table_after_insert.
Qed.

Lemma older_irrefl x : ¬ older x x.
Proof. unfold older. lia. Qed.

Lemma inserted_not_older (now : Z) a d y :
  Forall (fun r => row_timestamp r <= now) (rows d) ->
  y ∈ rows d ++ [inserted_row now a d] -> ¬ older (inserted_row now a d) y.
Proof.
  intros Hts [Hy| ->%list_elem_of_singleton]%elem_of_app; [|apply older_irrefl].
  rewrite Forall_forall in Hts. specialize (Hts y Hy).
  destruct (HistoryFacts.next_rowid_fresh d) as [_ Hf].
  rewrite Forall_forall in Hf. specialize (Hf y Hy).
  unfold older. rewrite HistoryFacts.inserted_row_id. simpl. lia.
Qed.

Lemma saved_row_is_kept (N now : Z) (a : save_args) (d : db) :
  consistent d -> 1 <= N ->
  Forall (fun r => row_timestamp r <= now) (rows d) ->
  get_search_result_by_id (save_search_result N now a d).1
    (save_search_result N now a d).2 = Some (inserted_row now a d).
Proof.
  intros Hc HN Hts.
  set (r := inserted_row now a d). set (t := rows d ++ [r]).
  pose proof (HistoryFacts.save_rows_perm N now a d Hc) as Hk. cbv zeta in Hk.
  fold r t in Hk. set (n := Z.to_nat (count t - N)) in Hk.
  set (s := order_by_timestamp_asc t) in Hk.
  assert (StronglySorted older (take n s ++ drop n s)) as Hsorted.
  { rewrite take_drop. by apply HistoryFacts.order_asc_sorted, HistoryFacts.table_after_insert. }
  assert (r ∈ rows (save_search_result N now a d).2) as Hkept.
  { rewrite Hk.
    assert (r ∈ take n s ++ drop n s) as [Hin|Hin]%elem_of_app;
      [|exfalso|done].
    { rewrite take_drop. unfold s. rewrite HistoryFacts.order_asc_perm.
      apply elem_of_app. right. by apply list_elem_of_singleton. }
    destruct (drop n s) as [|y l] eqn:Hd.
    - assert (length (drop n s) = 0%nat) as Hlen by by rewrite Hd.
      rewrite length_drop in Hlen.
      assert (length s = S (length (rows d))) as Hs.
      { unfold s. rewrite HistoryFacts.order_asc_perm. unfold t.
        rewrite length_app. simpl. lia. }
      assert (count t = Z.of_nat (S (length (rows d)))) as Ht.
      { unfold count, t. rewrite length_app. simpl. lia. }
      unfold n in Hlen. lia.
    - apply (inserted_not_older now a d y Hts).
      + assert (y ∈ s) as Hy.
        { rewrite <- (take_drop n s), Hd. apply elem_of_app. right. left. }
        unfold s in Hy. by rewrite HistoryFacts.order_asc_perm in Hy.
      + eapply StronglySorted_app_1_elem_of; [exact Hsorted|exact Hin|left]. }
  unfold get_search_result_by_id.
  change (save_search_result N now a d).1 with (row_id r).
  apply lookup_unique; [|exact Hkept].
  apply consistent_NoDup. by apply HistoryFacts.save_consistent.
Qed.

(** X2. Round trip of a save: when the capacity is at least 1 and the
    clock reading is not earlier than the timestamps already stored,
    [get_search_result_by_id] on the id the save returned gives back the
    values that were saved, with the clock reading as timestamp; a
    [flowise_response] that is [None], [{}] or another false value comes
    back as [{}]. *)
Theorem save_then_lookup (N now : Z) (a : save_args) (d : db) :
  consistent d -> 1 <= N ->
  Forall (fun r => row_timestamp r <= now) (rows d) ->
  search_result (save_search_result N now a d).1 (save_search_result N now a d).2 =
  Some {| res_id := (save_search_result N now a d).1;
          res_timestamp := now;
          res_candidate_name := arg_candidate_name a;
          res_job_title := arg_job_title a;
          res_match_score := arg_match_score a;
          res_recommendation := arg_recommendation a;
          res_social_profiles := arg_social_profiles a;
          res_flowise_response :=
            match arg_flowise_response a with
            | Some f => if truthy f then f else PDict ∅
            | None => PDict ∅
            end;
          res_notes := arg_notes a |}.
Proof.
  intros Hc HN Hts. unfold search_result.
  rewrite saved_row_is_kept by done.
  unfold result_of_row, inserted_row. cbn [fmap option_fmap option_map row_id
    row_timestamp row_candidate_name row_job_title row_match_score
    row_recommendation row_social_profiles row_flowise_response row_notes fst].
  do 2 f_equal.
  destruct (arg_flowise_response a) as [f|]; [|done].
  by destruct (truthy f).
Qed.

Lemma save_then_lookup_witness :
  res_candidate_name <$>
    search_result 6 (save_search_result 5 60 Sample.jane Sample.five).2 =
  Some "Jane Doe"%string.
Proof.
  assert (consistent Sample.five) as Hc.
  { apply (HistoryFacts.reachable_consistent 5).
    repeat apply (reach_save 5). constructor. }
  pose proof (save_then_lookup 5 60 Sample.jane Sample.five Hc) as H.
  change (save_search_result 5 60 Sample.jane Sample.five).1 with 6 in H.
  rewrite H.
  - reflexivity.
  - lia.
  - vm_compute. repeat constructor; discriminate.
Defined.

(** X3. When the store is full and the clock reading is earlier than every
    stored timestamp, the record just saved is the one evicted: the rows
    are as before the save and the id returned finds nothing. *)
Theorem save_with_clock_set_back (N now : Z) (a : save_args) (d : db) :
  consistent d -> count (rows d) = N ->
  Forall (fun r => now < row_timestamp r) (rows d) ->
  rows (save_search_result N now a d).2 = rows d ∧
  get_search_result_by_id (save_search_result N now a d).1
    (save_search_result N now a d).2 = None.
Proof.
  intros Hc HN Hts.
  set (r := inserted_row now a d). set (t := rows d ++ [r]).
  assert (count t = N + 1) as Ht.
  { unfold count, t in *. rewrite length_app. simpl. lia. }
  assert (Forall (fun x => row_id x < row_id r) (rows d)) as Hfresh
    by apply HistoryFacts.next_rowid_fresh.
  pose proof (HistoryFacts.table_after_insert now a d Hc) as Hinc. fold r t in Hinc.
  assert (rows (save_search_result N now a d).2 = rows d) as Hrows.
  { rewrite HistoryFacts.save_evicts by (fold r t; lia). fold r t.
    replace (Z.to_nat (count t - N)) with 1%nat by lia.
    set (s := order_by_timestamp_asc t).
    pose proof (HistoryFacts.order_asc_sorted t Hinc) as Hs. fold s in Hs.
    assert (r ∈ s) as Hr.
    { unfold s. rewrite HistoryFacts.order_asc_perm. apply elem_of_app. right.
      by apply list_elem_of_singleton. }
    destruct s as [|h s'] eqn:Es; [by apply elem_of_nil in Hr|].
    assert (h = r) as ->.
    { apply elem_of_cons in Hr as [->|Hr]; [done|]. exfalso.
      apply StronglySorted_cons in Hs as [Hh _].
      rewrite Forall_forall in Hh. specialize (Hh r Hr).
      assert (h ∈ t) as Hin.
      { rewrite <- (HistoryFacts.order_asc_perm t). fold s. rewrite Es. left. }
      apply elem_of_app in Hin as [Hin| ->%list_elem_of_singleton];
        [|by apply older_irrefl in Hh].
      rewrite Forall_forall in Hts. specialize (Hts h Hin).
      unfold older in Hh. simpl in Hh. lia. }
    simpl take. unfold delete_where_id_in. unfold t. rewrite filter_app.
    rewrite filter_cons_False by (intros Hn; apply Hn; left).
    rewrite filter_nil, app_nil_r.
    clear -Hfresh. induction Hfresh as [|x l Hx _ IH]; [done|].
    rewrite filter_cons_True; [by rewrite IH|].
    intros Heq%list_elem_of_singleton. lia. }
  split; [exact Hrows|].
  unfold get_search_result_by_id. rewrite Hrows.
  apply lookup_absent.
  change (save_search_result N now a d).1 with (row_id r).
  intros (x & Hid & Hx)%list_elem_of_fmap.
  rewrite Forall_forall in Hfresh. specialize (Hfresh x Hx). lia.
Qed.

Lemma save_with_clock_set_back_witness :
  rows (save_search_result 5 5 Sample.jane Sample.five).2 = rows Sample.five.
Proof.
  assert (consistent Sample.five) as Hc.
  { apply (HistoryFacts.reachable_consistent 5).
    repeat apply (reach_save 5). constructor. }
  destruct (save_with_clock_set_back 5 5 Sample.jane Sample.five Hc) as [H _].
  - vm_compute. reflexivity.
  - vm_compute. repeat constructor.
  - exact H.
Defined.

(** ** Deleting a stored record *)

Lemma delete_one_length (t : list row) (r : row) :
  NoDup (row_id <$> t) -> r ∈ t ->
  S (length (delete_where_id_eq (row_id r) t)) = length t.
Proof.
  unfold delete_where_id_eq.
  induction t as [|x t IH]; intros Hnd Hin; [by apply elem_of_nil in Hin|].
  rewrite fmap_cons in Hnd. apply NoDup_cons in Hnd as [Hx Hnd].
  apply elem_of_cons in Hin as [->|Hin].
  - rewrite filter_cons_False by (intros Hn; by apply Hn).
    simpl. f_equal. clear IH Hnd.
    induction t as [|y t IH]; [done|].
    rewrite fmap_cons in Hx. apply not_elem_of_cons in Hx as [Hxy Hx].
    rewrite filter_cons_True by congruence. simpl. f_equal. by apply IH.
  - rewrite filter_cons_True.
    + simpl. f_equal. by apply IH.
    + intros Heq. apply Hx. rewrite Heq. by apply list_elem_of_fmap_2.
Qed.

Lemma lookup_after_delete (t : list row) (i j : Z) :
  i ≠ j ->
  head (filter (fun x => row_id x = i) (delete_where_id_eq j t)) =
  head (filter (fun x => row_id x = i) t).
Proof.
  intros Hij. unfold delete_where_id_eq.
  induction t as [|x t IH]; [done|].
  destruct (decide (row_id x = j)) as [Hj|Hj].
  - rewrite (filter_cons_False (fun r => row_id r ≠ j)) by (intros Hn; by apply Hn).
    rewrite (filter_cons_False (fun r => row_id r = i)) by congruence. exact IH.
  - rewrite (filter_cons_True (fun r => row_id r ≠ j)) by done.
    destruct (decide (row_id x = i)) as [Hi|Hi].
    + by rewrite !(filter_cons_True (fun r => row_id r = i)) by done.
    + by rewrite !(filter_cons_False (fun r => row_id r = i)) by done.
Qed.

(** X4. Deleting the id of a stored record returns [True], removes that
    record and nothing else: the count drops by one, the id finds nothing
    afterwards, every other id finds what it found before, and the id
    counter is untouched. *)
Theorem delete_stored_record (r : row) (d : db) :
  consistent d -> r ∈ rows d ->
  (delete_search_record SqlOk (row_id r) d).1 = true ∧
  count (rows (delete_search_record SqlOk (row_id r) d).2) = count (rows d) - 1 ∧
  get_search_result_by_id (row_id r) (delete_search_record SqlOk (row_id r) d).2 = None ∧
  (forall i, i ≠ row_id r ->
     get_search_result_by_id i (delete_search_record SqlOk (row_id r) d).2 =
     get_search_result_by_id i d) ∧
  sqlite_sequence (delete_search_record SqlOk (row_id r) d).2 = sqlite_sequence d.
Proof.
  intros Hc Hr. simpl. split_and!; try done.
  - pose proof (delete_one_length (rows d) r (consistent_NoDup d Hc) Hr).
    unfold count. lia.
  - unfold get_search_result_by_id. simpl. apply lookup_absent.
    intros (x & Hid & [Hx _]%list_elem_of_filter)%list_elem_of_fmap. congruence.
  - intros i Hi. unfold get_search_result_by_id. simpl.
    by apply lookup_after_delete.
Qed.

Lemma delete_stored_record_witness :
  count (rows (delete_search_record SqlOk 3 Sample.five).2) = 4.
Proof.
  assert (consistent Sample.five) as Hc.
  { apply (HistoryFacts.reachable_consistent 5).
    repeat apply (reach_save 5). constructor. }
  assert (exists r, r ∈ rows Sample.five ∧ row_id r = 3) as (r & Hr & Hid).
  { eexists. split; [vm_compute; do 2 right; left|reflexivity]. }
  destruct (delete_stored_record r Sample.five Hc Hr) as (_ & H & _).
  rewrite Hid in H. rewrite H. vm_compute. reflexivity.
Defined.

(** ** Ids over a sequence of calls *)

Lemma cleanup_consistent N d : consistent d -> consistent (cleanup_old_records N d).
Proof.
  intros [Hs Hf]. unfold cleanup_old_records.
  destruct (N <? count (rows d)); [|done].
  split; cbn [rows sqlite_sequence].
  - by apply HistoryFacts.ids_increasing_filter.
  - apply Forall_forall. intros x [_ Hx]%list_elem_of_filter.
    rewrite Forall_forall in Hf. by apply Hf.
Qed.

Lemma step_ids N o d :
  consistent d ->
  consistent (step N o d).2 ∧
  sqlite_sequence d <= sqlite_sequence (step N o d).2 ∧
  (forall i, (step N o d).1 = Some i ->
     sqlite_sequence d < i ∧ sqlite_sequence (step N o d).2 = i ∧
     Forall (fun r => row_id r < i) (rows d)).
Proof.
  intros Hc. destruct o as [now a|io record_id| |].
  - change (step N (OpSave now a) d) with
      (Some (next_rowid d), (save_search_result N now a d).2).
    cbn [fst snd]. destruct (HistoryFacts.next_rowid_fresh d) as [Hlt Hf].
    split_and!.
    + by apply HistoryFacts.save_consistent.
    + cbn [save_search_result snd sqlite_sequence]. lia.
    + intros i [= <-]. done.
  - cbn [step fst snd]. split_and!; [by apply HistoryFacts.delete_consistent| |done].
    destruct io; cbn; lia.
  - cbn [step fst snd]. split_and!; [split; constructor|cbn; lia|done].
  - cbn [step fst snd]. split_and!; [by apply cleanup_consistent| |done].
    unfold cleanup_old_records. destruct (N <? count (rows d)); cbn; lia.
Qed.

Lemma run_cons N o ops d :
  run N (o :: ops) d =
  (match (step N o d).1 with
   | Some i => i :: (run N ops (step N o d).2).1
   | None => (run N ops (step N o d).2).1
   end, (run N ops (step N o d).2).2).
Proof.
  cbn [run]. destruct (step N o d) as [i d']. cbn [fst snd].
  by destruct (run N ops d').
Qed.

(** X1. Over any sequence of saves, deletions, clearings and clean-ups on
    a store, the ids the saves return strictly increase, each is larger
    than every id stored or handed out before, and the store is left
    consistent: an id is never given twice, also after its record was
    deleted or evicted. *)
Theorem saved_ids_increase (N : Z) (ops : list op) (d : db) :
  consistent d ->
  StronglySorted Z.lt (run N ops d).1 ∧
  Forall (fun i => sqlite_sequence d < i ∧ Forall (fun r => row_id r < i) (rows d))
         (run N ops d).1 ∧
  consistent (run N ops d).2 ∧
  sqlite_sequence d <= sqlite_sequence (run N ops d).2.
Proof.
  revert d. induction ops as [|o ops IH]; intros d Hc.
  - cbn. split_and!; [constructor|constructor|done|lia].
  - rewrite run_cons. cbn [fst snd].
    destruct (step_ids N o d Hc) as (Hc' & Hseq & Hid).
    destruct (IH _ Hc') as (Hs & Hf & Hc'' & Hseq').
    assert (Forall (fun i => sqlite_sequence d < i ∧
                             Forall (fun r => row_id r < i) (rows d))
              (run N ops (step N o d).2).1) as Hf'.
    { eapply Forall_impl; [exact Hf|]. intros i [Hi _]. split; [lia|].
      destruct Hc as [_ Hb]. eapply Forall_impl; [exact Hb|].
      intros r Hr. simpl in Hr. lia. }
    destruct (step N o d).1 as [i|] eqn:Hi.
    + destruct (Hid i eq_refl) as (Hlt & Heq & Hrows).
      split_and!; [|by constructor|done|lia].
      constructor; [done|].
      eapply Forall_impl; [exact Hf|]. intros j [Hj _]. lia.
    + split_and!; [done|done|done|lia].
Qed.

Lemma saved_ids_increase_witness :
  (run 2 [OpSave 10 Sample.jane; OpSave 20 Sample.jane; OpDelete SqlOk 2;
          OpSave 30 Sample.jane; OpClear; OpSave 5 Sample.jane] empty_db).1
  = [1; 2; 3; 4] ∧
  StronglySorted Z.lt
    (run 2 [OpSave 10 Sample.jane; OpSave 20 Sample.jane; OpDelete SqlOk 2;
            OpSave 30 Sample.jane; OpClear; OpSave 5 Sample.jane] empty_db).1.
Proof.
  split; [vm_compute; reflexivity|].
  apply saved_ids_increase. split; constructor.
Defined.

(** ** The manual clean-up *)

Lemma cleanup_rows N d :
  consistent d -> N < count (rows d) -> 0 <= N ->
  rows (cleanup_old_records N d) ≡ₚ
  drop (Z.to_nat (count (rows d) - N)) (order_by_timestamp_asc (rows d)).
Proof.
  intros Hc HN H0. unfold cleanup_old_records.
  destruct (Z.ltb_spec N (count (rows d))) as [_|?]; [|lia].
  cbn [rows]. unfold limit.
  destruct (Z.ltb_spec (count (rows d) - N) 0) as [?|_]; [lia|].
  apply HistoryFacts.delete_first_of_ordering.
  - apply HistoryFacts.order_asc_perm.
  - by apply consistent_NoDup.
Qed.

(** X6. [cleanup_old_records] leaves the [MAX_RECORDS] newest records:
    afterwards the store holds [min(count, MAX_RECORDS)] records, every
    record it removed is older than every record it kept, a store within
    capacity is returned as it is, and a second clean-up changes
    nothing. *)
Theorem cleanup_keeps_the_newest (N : Z) (d : db) :
  0 <= N -> consistent d ->
  count (rows (cleanup_old_records N d)) = Z.min (count (rows d)) N ∧
  (forall x y, x ∈ rows d -> x ∉ rows (cleanup_old_records N d) ->
               y ∈ rows (cleanup_old_records N d) -> older x y) ∧
  (count (rows d) <= N -> cleanup_old_records N d = d) ∧
  cleanup_old_records N (cleanup_old_records N d) = cleanup_old_records N d.
Proof.
  intros H0 Hc.
  assert (count (rows d) <= N -> cleanup_old_records N d = d) as Hsmall.
  { intros Hle. unfold cleanup_old_records.
    by destruct (Z.ltb_spec N (count (rows d))) as [?|_]; [lia|]. }
  assert (count (rows (cleanup_old_records N d)) = Z.min (count (rows d)) N) as Hcount.
  { destruct (Z.le_gt_cases (count (rows d)) N) as [Hle|Hgt].
    - rewrite Hsmall by done. lia.
    - unfold count at 1. rewrite (cleanup_rows N d Hc) by lia.
      rewrite length_drop, HistoryFacts.order_asc_perm. unfold count in *. lia. }
  split_and!; [done| |done|].
  - intros x y Hx Hnx Hy.
    destruct (Z.le_gt_cases (count (rows d)) N) as [Hle|Hgt].
    { rewrite Hsmall in Hnx by done. done. }
    pose proof (cleanup_rows N d Hc ltac:(lia) H0) as Hp.
    set (n := Z.to_nat (count (rows d) - N)) in Hp.
    set (s := order_by_timestamp_asc (rows d)) in Hp.
    rewrite Hp in Hnx, Hy.
    assert (x ∈ take n s ++ drop n s) as [Hin|Hin]%elem_of_app; [|clear Hx|done].
    { rewrite take_drop. unfold s. by rewrite HistoryFacts.order_asc_perm. }
    eapply StronglySorted_app_1_elem_of; [|exact Hin|exact Hy].
    rewrite take_drop. apply HistoryFacts.order_asc_sorted. by destruct Hc.
  - unfold cleanup_old_records at 1.
    by destruct (Z.ltb_spec N (count (rows (cleanup_old_records N d)))) as [?|_]; [lia|].
Qed.

Lemma cleanup_keeps_the_newest_witness :
  row_id <$> rows (cleanup_old_records 5
    (Sample.saves 8 [10; 20; 30; 40; 50; 60; 70] empty_db)) = [3; 4; 5; 6; 7] ∧
  count (rows (cleanup_old_records 5
    (Sample.saves 8 [10; 20; 30; 40; 50; 60; 70] empty_db))) = Z.min 7 5.
Proof.
  split; [vm_compute; reflexivity|].
  refine (proj1 (cleanup_keeps_the_newest 5
    (Sample.saves 8 [10; 20; 30; 40; 50; 60; 70] empty_db) _ _)); [lia|].
  apply (HistoryFacts.reachable_consistent 8).
  repeat apply (reach_save 8). constructor.
Defined.

(** ** The listing *)

Lemma listing_within_capacity (N : Z) (d : db) :
  0 <= N -> count (rows d) <= N ->
  get_search_history N d ≡ₚ record_of_row <$> rows d.
Proof.
  intros H0 Hle. unfold get_search_history, limit.
  destruct (Z.ltb_spec N 0) as [?|_]; [lia|].
  rewrite take_ge.
  - by rewrite HistoryFacts.order_desc_perm.
  - rewrite HistoryFacts.order_desc_perm. unfold count in Hle. lia.
Qed.

(** X7. When the store holds at most [MAX_RECORDS] records, as after any
    save, [get_search_history] lists every stored record exactly once:
    its result is a reordering of the table, so every id that
    [get_search_result_by_id] finds is listed. *)
Theorem history_lists_every_record (N : Z) (d : db) :
  0 <= N -> count (rows d) <= N ->
  get_search_history N d ≡ₚ record_of_row <$> rows d ∧
  (forall i r, get_search_result_by_id i d = Some r ->
               record_of_row r ∈ get_search_history N d).
Proof.
  intros H0 Hle. split; [by apply listing_within_capacity|].
  intros i r Hr. rewrite listing_within_capacity by done.
  apply list_elem_of_fmap_2. unfold get_search_result_by_id in Hr.
  apply head_Some_elem_of in Hr. by apply list_elem_of_filter in Hr as [_ ?].
Qed.

Lemma history_lists_every_record_witness :
  get_search_history 5 Sample.five ≡ₚ record_of_row <$> rows Sample.five.
Proof.
  apply (history_lists_every_record 5 Sample.five); [lia|vm_compute; discriminate].
Defined.

End StoreFacts.

(* ===================================================================== *)
(** * The forms: e-mail addresses, the two form checks *)
(* ===================================================================== *)

Module FormFacts.
Import Py Progress Claims Grammar.
Local Open Scope string_scope.
Local Open Scope Z_scope.

(** ** Cutting at a character *)

Lemma split_first_some a l u v :
  split_first a l = Some (u, v) <-> l = (u ++ a :: v)%list ∧ a ∉ u.
Proof.
  revert u v. induction l as [|c l IH]; intros u v; cbn [split_first].
  - split; [done|]. intros [H _]. by destruct u.
  - destruct (Ascii.eqb_spec c a) as [->|Hne].
    + split.
      * intros [= <- <-]. split; [done|]. apply not_elem_of_nil.
      * intros [H Hu]. destruct u as [|x u]; [by injection H as ->|].
        injection H as -> _. exfalso. apply Hu. left.
    + destruct (split_first a l) as [[u' v']|] eqn:Hs.
      * split.
        -- intros [= <- <-]. destruct (proj1 (IH u' v') eq_refl) as [-> Hu].
           split; [done|]. apply not_elem_of_cons. split; [congruence|done].
        -- intros [H Hu]. destruct u as [|x u]; [injection H as H _; congruence|].
           injection H as -> H. apply not_elem_of_cons in Hu as [_ Hu].
           assert (Some (u', v') = Some (u, v)) as [= -> ->]; [|done].
           by apply IH.
      * split; [done|]. intros [H Hu].
        destruct u as [|x u]; [injection H as H _; congruence|].
        injection H as -> H. apply not_elem_of_cons in Hu as [_ Hu].
        assert (None = Some (u, v)); [|done]. by apply IH.
Qed.

Lemma elem_of_rev {A} (a : A) l : a ∈ rev l <-> a ∈ l.
Proof. by rewrite !list_elem_of_In, <- in_rev. Qed.

Lemma split_last_some a l u v :
  split_last a l = Some (u, v) <-> l = (u ++ a :: v)%list ∧ a ∉ v.
Proof.
  unfold split_last.
  destruct (split_first a (rev l)) as [[x y]|] eqn:Hs.
  - apply split_first_some in Hs as [Hl Hx].
    assert (l = (rev y ++ a :: rev x)%list) as Hl'.
    { rewrite <- (rev_involutive l), Hl, rev_app_distr. cbn [rev].
      by rewrite <- app_assoc. }
    split.
    + intros [= <- <-]. split; [done|]. by rewrite elem_of_rev.
    + intros [Hl2 Hv].
      assert (split_first a (rev l) = Some (rev v, rev u)) as Hs2.
      { apply split_first_some. split.
        - rewrite Hl2, rev_app_distr. cbn [rev]. by rewrite <- app_assoc.
        - by rewrite elem_of_rev. }
      assert (split_first a (rev l) = Some (x, y)) as Hs1.
      { apply split_first_some. split; [done|done]. }
      rewrite Hs1 in Hs2. injection Hs2 as -> ->.
      by rewrite !rev_involutive.
  - split; [done|]. intros [Hl Hv].
    assert (split_first a (rev l) = Some (rev v, rev u)) as Hs2; [|congruence].
    apply split_first_some. split.
    + rewrite Hl, rev_app_distr. cbn [rev]. by rewrite <- app_assoc.
    + by rewrite elem_of_rev.
Qed.

Lemma forallb_Forall {A} (f : A -> bool) l :
  forallb f l = true <-> Forall (fun x => f x = true) l.
Proof. rewrite forallb_forall, Forall_forall. by setoid_rewrite list_elem_of_In. Qed.

Lemma nonempty_forallb {A} (f : A -> bool) (l : list A) :
  match l with [] => false | _ => forallb f l end = true <->
  l ≠ [] ∧ Forall (fun x => f x = true) l.
Proof.
  destruct l as [|x l]; [split; [done|by intros [? _]]|].
  rewrite forallb_Forall. split; [by intros ?|by intros [_ ?]].
Qed.

Lemma email_shape_spec l : email_shape l = true <-> address l.
Proof.
  unfold email_shape, address. split.
  - destruct (split_first "@" l) as [[local rest]|] eqn:H1; [|done].
    intros [Hlocal H2]%andb_prop.
    destruct (split_last "." rest) as [[domain tld]|] eqn:H3; [|done].
    apply andb_prop in H2 as [[Hdomain Hlen]%andb_prop Htld].
    apply split_first_some in H1 as [-> _].
    apply split_last_some in H3 as [-> _].
    apply nonempty_forallb in Hlocal as [? ?], Hdomain as [? ?].
    apply forallb_Forall in Htld. apply Nat.leb_le in Hlen.
    by exists local, domain, tld.
  - intros (local & domain & tld & -> & Hl & Hlc & Hd & Hdc & Hlen & Htld).
    assert (split_first "@" (local ++ "@"%char :: domain ++ "."%char :: tld) =
            Some (local, (domain ++ "."%char :: tld)%list)) as ->.
    { apply split_first_some. split; [done|]. intros Hin.
      rewrite Forall_forall in Hlc. by specialize (Hlc _ Hin). }
    assert (split_last "." (domain ++ "."%char :: tld) = Some (domain, tld)) as ->.
    { apply split_last_some. split; [done|]. intros Hin.
      rewrite Forall_forall in Htld. by specialize (Htld _ Hin). }
    apply andb_true_intro. split; [by apply nonempty_forallb|].
    apply andb_true_intro. split; [apply andb_true_intro; split|].
    + by apply nonempty_forallb.
    + by apply Nat.leb_le.
    + by apply forallb_Forall.
Qed.

Lemma address_last l c : address (l ++ [c]) -> isalpha_ascii c = true.
Proof.
  intros (local & domain & tld & Heq & _ & _ & _ & _ & Hlen & Htld).
  destruct (exists_last (l := tld)) as (tld' & c' & ->).
  { intros ->. simpl in Hlen. lia. }
  replace (local ++ "@"%char :: domain ++ "."%char :: tld' ++ [c'])%list
    with ((local ++ "@"%char :: domain ++ "."%char :: tld') ++ [c'])%list in Heq.
  - apply app_inj_tail in Heq as [_ ->].
    rewrite Forall_forall in Htld. apply Htld.
    apply elem_of_app. right. left.
  - rewrite <- !app_assoc. cbn [app]. rewrite <- !app_assoc. by cbn [app].
Qed.

Lemma chars_nil s : chars s = [] -> s = "".
Proof.
  intros H. rewrite <- (string_of_list_ascii_of_string s).
  unfold chars in H. by rewrite H.
Qed.

Lemma email_pattern_match_spec email :
  email_pattern_match email = true <->
  address (chars email) ∨
  exists l, chars email = (l ++ ["010"%char])%list ∧ address l.
Proof.
  unfold email_pattern_match.
  destruct (rev (chars email)) as [|c l'] eqn:Hrev.
  - apply (f_equal (@rev ascii)) in Hrev. rewrite rev_involutive in Hrev.
    cbn [rev] in Hrev. rewrite Hrev, email_shape_spec. split; [by left|].
    intros [H|(l & Hl & _)]; [done|]. by destruct l.
  - assert (chars email = (rev l' ++ [c])%list) as Hl.
    { rewrite <- (rev_involutive (chars email)), Hrev. by cbn [rev]. }
    destruct (Ascii.eqb_spec c "010") as [->|Hne]; rewrite email_shape_spec.
    + split.
      * intros H. right. by exists (rev l').
      * intros [H|(l & Hl2 & H)].
        -- rewrite Hl in H. by apply address_last in H.
        -- rewrite Hl in Hl2. by apply app_inj_tail in Hl2 as [-> _].
    + split; [by left|]. intros [H|(l & Hl2 & _)]; [done|].
      rewrite Hl in Hl2. by apply app_inj_tail in Hl2 as [_ ->].
Qed.

Lemma validate_email_result email :
  validate_email email =
  if (validate_email email).1 then (true, "") else (false, "Invalid email format").
Proof.
  unfold validate_email.
  destruct (nonempty email); cbn [negb]; [|done].
  by destruct (email_pattern_match email).
Qed.

Lemma validate_phone_result phone :
  validate_phone phone =
  if (validate_phone phone).1 then (true, "")
  else (false, "Invalid phone format (must be 7+ digits)").
Proof.
  unfold validate_phone.
  destruct (nonempty phone); cbn [negb]; [|done].
  by destruct ((7 <=? len (remove_separators phone)) &&
               str_isdigit (remove_separators phone)).
Qed.

(** X8. [validate_email] accepts the empty text and the texts that read
    as local part, [@], domain, [.] and two or more letters, the parts
    drawn from the character classes of the pattern; it also accepts such
    an address followed by one line feed. Everything else gets the
    message "Invalid email format". *)
Theorem validate_email_accepts (email : string) :
  ((validate_email email).1 = true <->
   email = "" ∨ address (chars email) ∨
   exists l, chars email = (l ++ ["010"%char])%list ∧ address l) ∧
  ((validate_email email).1 = true -> validate_email email = (true, "")) ∧
  ((validate_email email).1 = false ->
   validate_email email = (false, "Invalid email format")).
Proof.
  split; [|rewrite (validate_email_result email) at 2 4;
            by destruct (validate_email email).1].
  unfold validate_email.
  destruct (nonempty email) eqn:Hne; cbn [negb].
  - assert (email ≠ "") as Hemail.
    { intros ->. done. }
    destruct (email_pattern_match email) eqn:Hm; cbn [fst].
    + split; [|done]. intros _. right. by apply email_pattern_match_spec.
    + split; [done|]. intros [?|H]; [done|].
      apply email_pattern_match_spec in H. congruence.
  - apply ValidationFacts.nonempty_false in Hne as ->. cbn [fst].
    split; [by left|done].
Qed.

Example address_examples :
  (fun s => (validate_email s).1) <$>
    [""; "jane.doe@example.com"; "jane@example.com" ++ String "010" "";
     "jane@example"; "jane doe@example.com"; "jane@@example.com"; "jane@example.c"] =
  [true; true; true; false; false; false; false].
Proof. vm_compute. reflexivity. Qed.

Lemma validate_email_accepts_witness :
  (validate_email "jane.doe@example.com").1 = true.
Proof.
  apply (proj1 (validate_email_accepts "jane.doe@example.com")). right. left.
  exists (chars "jane.doe"), (chars "example"), (chars "com").
  split_and!; try done; try (apply forallb_Forall; vm_compute; reflexivity).
  simpl. lia.
Defined.

(** ** The form of [app_with_progress.py] *)

Lemma str_or_nonempty a b : nonempty a = true -> str_or a b = a.
Proof. unfold str_or. by intros ->. Qed.

(** X9. [validate_and_submit] hands a payload on exactly when the four
    validators accept, asked in the order name, CV and job description,
    e-mail, phone; the payload is then [prepare_payload] of the fields, it
    carries the name as typed (never the default "Unknown"), and its name
    is not blank. Otherwise the message is that of a validator that
    refused. *)
Theorem validate_and_submit_payload
    (cand_name cand_id cand_email cand_phone jd_t cv_t gh li port fb other : string) :
  let out := validate_and_submit cand_name cand_id cand_email cand_phone
               jd_t cv_t gh li port fb other in
  let p := prepare_payload jd_t cv_t cand_name cand_id cand_email cand_phone
             gh li port fb other in
  let accepted :=
    (validate_candidate_name cand_name).1 && (validate_cv_jd cv_t jd_t).1 &&
    (validate_email cand_email).1 && (validate_phone cand_phone).1 in
  (accepted = true ->
   out = ("", "All fields valid! Processing...", Some p, "") ∧
   candidate_name p = cand_name ∧
   nonempty (strip (candidate_name p)) = true ∧
   2 <= len (strip (candidate_name p)) ∧
   20 <= len (strip (cv_text p)) ∧ 20 <= len (strip (jd_description p))) ∧
  (accepted = false ->
   exists msg, out = ("", msg, None, "") ∧
     msg ∈ [(validate_candidate_name cand_name).2; (validate_cv_jd cv_t jd_t).2;
            (validate_email cand_email).2; (validate_phone cand_phone).2] ∧
     msg ≠ "").
Proof.
  intros out p accepted. subst out accepted. unfold validate_and_submit.
  unfold validate_candidate_name, validate_cv_jd.
  destruct (nonempty cand_name) eqn:Hn; cbn [negb orb];
    [destruct (Z.ltb_spec (len (strip cand_name)) 2) as [Hlen|Hlen]|];
    cbn [negb fst snd andb];
    try (split; [done|]; intros _; eexists; split; [reflexivity|];
         split; [left|done]).
  destruct (nonempty cv_t) eqn:Hcv; cbn [negb orb];
    [destruct (Z.ltb_spec (len (strip cv_t)) 20) as [Hcl|Hcl]|];
    cbn [negb fst snd andb];
    try (split; [done|]; intros _; eexists; split; [reflexivity|];
         split; [right; left|done]).
  destruct (nonempty jd_t) eqn:Hjd; cbn [negb orb];
    [destruct (Z.ltb_spec (len (strip jd_t)) 20) as [Hjl|Hjl]|];
    cbn [negb fst snd andb];
    try (split; [done|]; intros _; eexists; split; [reflexivity|];
         split; [right; left|done]).
  rewrite (validate_email_result cand_email).
  destruct (validate_email cand_email).1; cbn [negb andb fst snd].
  2:{ split; [done|]. intros _. eexists. split; [reflexivity|].
      split; [do 2 right; left|done]. }
  rewrite (validate_phone_result cand_phone).
  destruct (validate_phone cand_phone).1; cbn [negb andb fst snd].
  2:{ split; [done|]. intros _. eexists. split; [reflexivity|].
      split; [do 3 right; left|done]. }
  split; [|done]. intros _. subst p.
  cbn [candidate_name cv_text jd_description prepare_payload].
  rewrite str_or_nonempty by done.
  split_and!; try done; try lia.
  unfold nonempty. destruct (String.eqb_spec (strip cand_name) "") as [Heq|]; [|done].
  rewrite Heq in Hlen. vm_compute in Hlen. done.
Qed.

Lemma validate_and_submit_payload_witness :
  (validate_and_submit "Jane Doe" "" "" "" Sample.jd80 Sample.cv150 "" "" "" "" "").1.2 =
  Some Sample.jane_payload.
Proof.
  destruct (validate_and_submit_payload "Jane Doe" "" "" "" Sample.jd80 Sample.cv150
              "" "" "" "" "") as [H _].
  destruct H as [H _]; [vm_compute; reflexivity|].
  rewrite H. reflexivity.
Defined.

(** ** The form of [app_gdpr_compliant.py] *)

Lemma nonempty_len s : nonempty s = negb (len s =? 0).
Proof.
  destruct s as [|c s]; [done|]. unfold nonempty, len.
  cbn [String.eqb String.length negb].
  by destruct (Z.eqb_spec (Z.of_nat (S (String.length s))) 0); [lia|].
Qed.

Lemma strip_empty_len s : nonempty s = false -> len (strip s) = 0.
Proof. by intros ->%ValidationFacts.nonempty_false. Qed.

Lemma len_nonneg s : 0 <= len s.
Proof. unfold len. lia. Qed.

(** X10. The GDPR form is valid, and its Rank button enabled, exactly when
    the name is not blank, the job description has at least 50 characters
    and the CV at least 100, surrounding white space not counted. A valid
    form passes the three checks at the head of
    [rank_cv_with_social_and_flowise]; an invalid one gets the message
    built from a non-empty list of errors. *)
Theorem gdpr_form_accepts (render_errors : list string -> string)
    (jd_description cv_text candidate_name : string) :
  (GdprForm.check_form_validity render_errors jd_description cv_text candidate_name = true <->
   0 < len (strip candidate_name) ∧ 50 <= len (strip jd_description) ∧
   100 <= len (strip cv_text)) ∧
  (GdprForm.check_form_validity render_errors jd_description cv_text candidate_name = true ->
   Gdpr.inputs_present candidate_name cv_text jd_description = true) ∧
  (GdprForm.check_form_validity render_errors jd_description cv_text candidate_name = false ->
   exists errors,
     errors ≠ [] ∧
     GdprForm.validate_form_inputs render_errors jd_description cv_text candidate_name =
     (false, render_errors errors)).
Proof.
  unfold GdprForm.check_form_validity, GdprForm.validate_form_inputs,
    GdprForm.form_errors, Gdpr.inputs_present.
  pose proof (strip_empty_len candidate_name) as Hn0.
  pose proof (strip_empty_len jd_description) as Hj0.
  pose proof (strip_empty_len cv_text) as Hc0.
  pose proof (len_nonneg (strip candidate_name)) as Hn1.
  pose proof (len_nonneg (strip jd_description)) as Hj1.
  pose proof (len_nonneg (strip cv_text)) as Hc1.
  rewrite !(nonempty_len (strip _)).
  destruct (nonempty candidate_name), (nonempty jd_description), (nonempty cv_text);
    try specialize (Hn0 eq_refl); try specialize (Hj0 eq_refl);
    try specialize (Hc0 eq_refl);
    destruct (Z.eqb_spec (len (strip candidate_name)) 0),
             (Z.eqb_spec (len (strip jd_description)) 0),
             (Z.eqb_spec (len (strip cv_text)) 0);
    destruct (Z.ltb_spec (len (strip jd_description)) 50),
             (Z.ltb_spec (len (strip cv_text)) 100);
    cbn [negb orb andb app fst];
    (split; [split; [try done; lia|try done; lia]|split];
     [try done; lia
     |first [done|intros _; eexists; (split; [|reflexivity]); done]]).
Qed.

Lemma gdpr_form_accepts_witness :
  GdprForm.check_form_validity (fun _ => "") Sample.jd80 Sample.cv150 "Jane Doe" = true ∧
  Gdpr.inputs_present "Jane Doe" Sample.cv150 Sample.jd80 = true.
Proof.
  destruct (gdpr_form_accepts (fun _ => "") Sample.jd80 Sample.cv150 "Jane Doe")
    as (Hiff & Hpresent & _).
  assert (GdprForm.check_form_validity (fun _ => "") Sample.jd80 Sample.cv150 "Jane Doe"
          = true) as Hvalid.
  { apply Hiff. by vm_compute. }
  split; [exact Hvalid|exact (Hpresent Hvalid)].
Defined.

End FormFacts.

(* ===================================================================== *)
(** * Uploaded files and export names *)
(* ===================================================================== *)

Module FileFacts.
Import Py FileHandler Maintenance.
Local Open Scope string_scope.
Local Open Scope Z_scope.

Example file_ext_examples :
  file_ext <$>
    ["cv.pdf"; "CV.PDF"; "a.tar.gz"; ".pdf"; "cv."; "cv"; "dir.d/cv"; "dir/cv.txt";
     "cv.pdf/"; ""; "."; ".."; "a..b"; "a/.b.c"; "/"; "a//b.TXT"; "..pdf"; "a.b."] =
  ["pdf"; "pdf"; "gz"; ""; ""; ""; ""; "txt";
   "pdf"; ""; ""; ""; "b"; "c"; ""; "txt"; "pdf"; ""].
Proof. vm_compute. reflexivity. Qed.

(** ** The extension of a file name *)

Lemma lower_char_dot c : lower_char c = "."%char -> c = "."%char.
Proof.
  destruct c as [b0 b1 b2 b3 b4 b5 b6 b7].
  destruct b0, b1, b2, b3, b4, b5, b6, b7; vm_compute; congruence.
Qed.

Lemma lower_str l : lower (str l) = str (map lower_char l).
Proof. unfold lower. by rewrite ValidationFacts.chars_str. Qed.

Lemma str_cons c l : str (c :: l) = String c (str l).
Proof. done. Qed.

Lemma str_inj l1 l2 : str l1 = str l2 -> l1 = l2.
Proof.
  intros H. apply (f_equal chars) in H. by rewrite !ValidationFacts.chars_str in H.
Qed.

(** The suffix is empty, or a dot followed by a non-empty text without
    dots. *)
Lemma suffix_shape filename :
  suffix filename = "" ∨
  exists d ext, suffix filename = str ("."%char :: d :: ext) ∧ "."%char ∉ d :: ext.
Proof.
  unfold suffix, rsplit.
  destruct (Progress.split_last "." (path_name filename)) as [[u v]|] eqn:H; [|by left].
  destruct u as [|c stem]; [by left|]. destruct v as [|d ext]; [by left|].
  right. exists d, ext. split; [done|].
  by apply FormFacts.split_last_some in H as [_ ?].
Qed.

Lemma file_ext_suffix filename :
  (lower (suffix filename) = "" ∧ file_ext filename = "") ∨
  (lower (suffix filename) = String "." (file_ext filename) ∧ file_ext filename ≠ "").
Proof.
  unfold file_ext.
  destruct (suffix_shape filename) as [->|(d & ext & -> & Hdot)]; [by left|].
  right. rewrite lower_str, ValidationFacts.chars_str. cbn [map lstrip_dots].
  apply not_elem_of_cons in Hdot as [Hd _].
  destruct (Ascii.eqb_spec (lower_char d) ".") as [Heq|_].
  - apply lower_char_dot in Heq. congruence.
  - done.
Qed.

Lemma split_on_none a l : a ∉ l -> split_on a l = [l].
Proof.
  induction l as [|c l IH]; intros Hn; [done|].
  apply not_elem_of_cons in Hn as [Hc Hn]. cbn [split_on].
  rewrite IH by done. by destruct (Ascii.eqb_spec c a).
Qed.

Lemma path_name_plain l :
  "/"%char ∉ l -> l ≠ [] -> l ≠ ["."%char] -> path_name (str l) = l.
Proof.
  intros Hs Hne Hdot. unfold path_name.
  rewrite ValidationFacts.chars_str, split_on_none by done.
  cbn [List.filter].
  destruct l as [|c l]; [done|]. cbn [negb andb].
  destruct (String.eqb_spec (str (c :: l)) ".") as [Heq|_]; [|done].
  exfalso. apply Hdot. by apply str_inj.
Qed.

(** The extension of [stem.ext]: the text after the last dot, in lower
    case. *)
Lemma file_ext_of_name stem ext :
  stem ≠ [] -> ext ≠ [] -> "/"%char ∉ stem -> "/"%char ∉ ext -> "."%char ∉ ext ->
  file_ext (str (stem ++ "."%char :: ext)) = lower (str ext).
Proof.
  intros Hs He Hs1 He1 Hdot. unfold file_ext, suffix, rsplit.
  rewrite path_name_plain.
  - assert (Progress.split_last "." (stem ++ "."%char :: ext) = Some (stem, ext)) as ->
      by by apply FormFacts.split_last_some.
    destruct stem as [|c stem]; [done|]. destruct ext as [|d ext]; [done|].
    rewrite !lower_str, ValidationFacts.chars_str. cbn [map lstrip_dots].
    apply not_elem_of_cons in Hdot as [Hd _].
    destruct (Ascii.eqb_spec (lower_char d) ".") as [Heq|_]; [|done].
    apply lower_char_dot in Heq. congruence.
  - rewrite elem_of_app, elem_of_cons. intros [?|[?|?]]; done.
  - by destruct stem.
  - destruct stem as [|c [|c' stem]]; [done| |done]. by destruct ext.
Qed.

Lemma existsb_eqb (x : string) (l : list string) :
  existsb (String.eqb x) l = true <-> x ∈ l.
Proof.
  rewrite existsb_exists. split.
  - intros (y & Hy & ->%String.eqb_eq). by apply list_elem_of_In.
  - intros Hx. exists x. split; [by apply list_elem_of_In|apply String.eqb_refl].
Qed.

Lemma validate_file_upload_valid MB allowed content filename :
  (validate_file_upload MB allowed content filename).1 = true <->
  0 < Z.of_nat (length content) <= MB * 1024 * 1024 ∧ file_ext filename ∈ allowed.
Proof.
  unfold validate_file_upload, MAX_FILE_SIZE_BYTES.
  destruct (Z.ltb_spec (MB * 1024 * 1024) (Z.of_nat (length content))); cbn [fst].
  { split; [done|lia]. }
  destruct (existsb (String.eqb (file_ext filename)) allowed) eqn:Hx; cbn [negb fst].
  - apply existsb_eqb in Hx.
    destruct (Z.eqb_spec (Z.of_nat (length content)) 0); cbn [fst].
    + split; [done|lia].
    + split; [|done]. intros _. split; [lia|done].
  - split; [done|]. intros [_ Hin%existsb_eqb]. congruence.
Qed.

(** X11. A file named [stem.ext] is accepted exactly when it is not empty,
    not larger than [MAX_FILE_SIZE_MB] megabytes, and [ext] in lower case
    is one of the allowed extensions: only the text after the last dot
    counts, whatever its case. The size is checked first, then the
    extension, then emptiness. *)
Theorem validate_file_upload_accepts
    (MB : Z) (allowed : list string) (content : list Byte.byte) (stem ext : list ascii) :
  stem ≠ [] -> ext ≠ [] -> "/"%char ∉ stem -> "/"%char ∉ ext -> "."%char ∉ ext ->
  let filename := str (stem ++ "."%char :: ext) in
  let size := Z.of_nat (length content) in
  ((validate_file_upload MB allowed content filename).1 = true <->
   0 < size <= MB * 1024 * 1024 ∧ lower (str ext) ∈ allowed) ∧
  (MB * 1024 * 1024 < size ->
   validate_file_upload MB allowed content filename =
   (false, "File too large. Maximum size: " ++ pretty MB ++ "MB")) ∧
  (size <= MB * 1024 * 1024 -> lower (str ext) ∉ allowed ->
   validate_file_upload MB allowed content filename =
   (false, "Invalid file type. Allowed types: " ++ join_comma allowed)) ∧
  (size = 0 -> 0 <= MB -> lower (str ext) ∈ allowed ->
   validate_file_upload MB allowed content filename = (false, "File is empty")).
Proof.
  intros Hs He Hs1 He1 Hdot filename size.
  pose proof (file_ext_of_name stem ext Hs He Hs1 He1 Hdot) as Hext. fold filename in Hext.
  split; [by rewrite validate_file_upload_valid, Hext|].
  unfold validate_file_upload, MAX_FILE_SIZE_BYTES. fold size. rewrite Hext.
  destruct (Z.ltb_spec (MB * 1024 * 1024) size).
  { split_and!; [done|lia|lia]. }
  split; [lia|].
  destruct (existsb (String.eqb (lower (str ext))) allowed) eqn:Hx; cbn [negb].
  - apply existsb_eqb in Hx. split; [done|]. intros -> _ _. done.
  - split; [done|]. intros _ _ Hin%existsb_eqb. congruence.
Qed.

Lemma validate_file_upload_accepts_witness :
  (validate_file_upload 10 default_extensions [Byte.x25; Byte.x50] "CV.final.PDF").1 = true.
Proof.
  refine (proj2 (proj1 (validate_file_upload_accepts 10 default_extensions
    [Byte.x25; Byte.x50] (chars "CV.final") (chars "PDF") _ _ _ _ _)) _);
    try (vm_compute; discriminate).
  - vm_compute. intros H. repeat (apply elem_of_cons in H as [H|H]; [discriminate|]).
    by apply elem_of_nil in H.
  - vm_compute. intros H. repeat (apply elem_of_cons in H as [H|H]; [discriminate|]).
    by apply elem_of_nil in H.
  - vm_compute. intros H. repeat (apply elem_of_cons in H as [H|H]; [discriminate|]).
    by apply elem_of_nil in H.
  - split; [vm_compute; done|]. vm_compute. left.
Defined.

(** ** From the check to the reader *)

(** X12. With the allowed extensions among [pdf], [docx] and [txt], a
    file that [process_file_upload] accepts is not empty and is handed to
    the reader of its extension; the text returned is what that reader
    gives, so the branch "Unsupported file type" is never reached. A file
    that is refused yields no text. *)
Theorem accepted_upload_is_read
    (MB : Z) (allowed : list string)
    (decode_utf8 : list Byte.byte -> string)
    (read_pdf read_docx : list Byte.byte -> string + string)
    (format_file_info : string -> Z -> string)
    (path : string) (content : list Byte.byte) :
  (forall x, x ∈ allowed -> x ∈ default_extensions) ->
  let filename := str (path_name path) in
  let out := GdprForm.process_file_upload MB allowed decode_utf8 read_pdf read_docx
               format_file_info (Some path) (inl content) in
  ((validate_file_upload MB allowed content filename).1 = false ->
   out = ("", (validate_file_upload MB allowed content filename).2)) ∧
  ((validate_file_upload MB allowed content filename).1 = true ->
   content ≠ [] ∧
   file_ext filename ∈ allowed ∧
   out.1 =
     (if String.eqb (file_ext filename) "txt" then decode_utf8 content
      else if String.eqb (file_ext filename) "pdf" then
        match read_pdf content with
        | inl text => text
        | inr e => "Error reading PDF: " ++ e
        end
      else
        match read_docx content with
        | inl text => text
        | inr e => "Error reading DOCX: " ++ e
        end)).
Proof.
  intros Hsub filename out. subst out. unfold GdprForm.process_file_upload.
  fold filename.
  pose proof (validate_file_upload_valid MB allowed content filename) as Hv.
  destruct (validate_file_upload MB allowed content filename) as [v m].
  cbn [fst snd] in *. destruct v; cbn [negb]; (split; [done|]); [|done].
  intros _. destruct (proj1 Hv eq_refl) as [Hsize Hin].
  split_and!; [intros ->; simpl in Hsize; lia|done|]. cbn [fst].
  unfold extract_text_from_file.
  specialize (Hsub _ Hin).
  destruct (file_ext_suffix filename) as [[_ He]|[-> _]].
  { rewrite He in Hsub. exfalso. unfold default_extensions in Hsub.
    repeat (apply elem_of_cons in Hsub as [Hsub|Hsub]; [discriminate|]).
    by apply elem_of_nil in Hsub. }
  unfold default_extensions in Hsub.
  apply elem_of_cons in Hsub as [->|Hsub]; [done|].
  apply elem_of_cons in Hsub as [->|Hsub]; [done|].
  apply elem_of_cons in Hsub as [->|Hsub]; [done|].
  by apply elem_of_nil in Hsub.
Qed.

Lemma accepted_upload_is_read_witness :
  (GdprForm.process_file_upload 10 default_extensions
     (fun _ => "decoded") (fun _ => inl "pages") (fun _ => inl "paragraphs")
     (fun _ _ => "") (Some "/tmp/gradio/CV.PDF") (inl [Byte.x25; Byte.x50])).1 = "pages".
Proof.
  destruct (accepted_upload_is_read 10 default_extensions
     (fun _ => "decoded") (fun _ => inl "pages") (fun _ => inl "paragraphs")
     (fun _ _ => "") "/tmp/gradio/CV.PDF" [Byte.x25; Byte.x50]) as [_ H];
    [done|].
  destruct H as (_ & _ & ->); [vm_compute; reflexivity|].
  vm_compute. reflexivity.
Defined.

(** With an extension allowed that has no reader, an accepted file comes
    back as the text "Unsupported file type". *)
Example allowed_without_reader :
  (GdprForm.process_file_upload 10 ["pdf"; "doc"]
     (fun _ => "decoded") (fun _ => inl "pages") (fun _ => inl "paragraphs")
     (fun _ _ => "info") (Some "cv.doc") (inl [Byte.x25])) =
  ("Unsupported file type: .doc", "info - Extracted successfully").
Proof. vm_compute. reflexivity. Qed.

(** ** Export file names *)

Lemma chars_app s1 s2 : chars (s1 ++ s2) = (chars s1 ++ chars s2)%list.
Proof.
  unfold chars. induction s1 as [|c s1 IH]; [done|].
  simpl. f_equal. exact IH.
Qed.

Lemma chars_replace a b s :
  chars (replace_char a b s) = map (fun c => if Ascii.eqb c a then b else c) (chars s).
Proof. unfold replace_char. by rewrite ValidationFacts.chars_str. Qed.

Lemma chars_safe_name s :
  chars (safe_name s) =
  take 50 (map (fun c => if Ascii.eqb c "/" then "_"%char else c)
             (map (fun c => if Ascii.eqb c " " then "_"%char else c) (chars s))).
Proof.
  unfold safe_name, prefix.
  by rewrite ValidationFacts.chars_str, !chars_replace.
Qed.

Lemma safe_char c :
  let c' := if Ascii.eqb (if Ascii.eqb c " " then "_"%char else c) "/"
            then "_"%char else (if Ascii.eqb c " " then "_"%char else c) in
  c' ≠ "/"%char ∧ c' ≠ " "%char.
Proof.
  cbv zeta. destruct (Ascii.eqb_spec c " ") as [->|Hs]; [done|].
  by destruct (Ascii.eqb_spec c "/") as [->|Hd].
Qed.

Lemma safe_name_chars s c : c ∈ chars (safe_name s) -> c ≠ "/"%char ∧ c ≠ " "%char.
Proof.
  rewrite chars_safe_name, map_map. intros Hin.
  apply elem_of_take in Hin as (i & Hi & _).
  apply list_elem_of_lookup_2, list_elem_of_fmap in Hi as (x & -> & _).
  apply safe_char.
Qed.

Lemma chars_inj s1 s2 : chars s1 = chars s2 -> s1 = s2.
Proof.
  intros H. rewrite <- (string_of_list_ascii_of_string s1),
    <- (string_of_list_ascii_of_string s2). unfold chars in H. by rewrite H.
Qed.

Lemma safe_name_length s : (length (chars (safe_name s)) <= 50)%nat.
Proof. rewrite chars_safe_name, length_take. lia. Qed.

Lemma safe_name_idempotent s : safe_name (safe_name s) = safe_name s.
Proof.
  apply chars_inj. rewrite (chars_safe_name (safe_name s)), map_map.
  pose proof (safe_name_length s) as Hlen.
  pose proof (safe_name_chars s) as Hc.
  set (l := chars (safe_name s)) in *. clearbody l.
  rewrite take_ge by (rewrite length_map; lia).
  clear Hlen. induction l as [|c l IH]; [done|]. cbn [map].
  destruct (Hc c) as [Hslash Hspace]; [left|].
  destruct (Ascii.eqb_spec c " ") as [|_]; [done|].
  destruct (Ascii.eqb_spec c "/") as [|_]; [done|].
  f_equal. apply IH. intros x Hx. apply Hc. by right.
Qed.

(** X13. The file an export writes lies directly in [exports/], whatever
    the candidate name: the name is cut to 50 characters and carries
    neither a space nor a slash. Cleaning a name that is already clean
    changes nothing, so the two cleanings of [export_results_action] and
    of the export functions give the file name of one. *)
Theorem export_name_is_safe (candidate_name timestamp ext : string) :
  "/"%char ∉ chars timestamp -> "/"%char ∉ chars ext ->
  (exists file, chars (export_path candidate_name timestamp ext) =
                (chars "exports/" ++ file)%list ∧ "/"%char ∉ file) ∧
  (" "%char ∉ chars (safe_name candidate_name)) ∧
  len (safe_name candidate_name) <= 50 ∧
  export_path (safe_name candidate_name) timestamp ext =
  export_path candidate_name timestamp ext.
Proof.
  intros Hts Hext. split_and!.
  - unfold export_path. rewrite chars_app. eexists. split; [reflexivity|].
    rewrite !chars_app, !elem_of_app. intros [H|[H|[H|[H|H]]]].
    + by apply safe_name_chars in H as [? _].
    + apply list_elem_of_singleton in H. discriminate.
    + done.
    + apply list_elem_of_singleton in H. discriminate.
    + done.
  - intros H. by apply safe_name_chars in H as [_ ?].
  - unfold len. rewrite <- (string_of_list_ascii_of_string (safe_name candidate_name)).
    pose proof (safe_name_length candidate_name) as Hlen. unfold chars in Hlen.
    revert Hlen. generalize (list_ascii_of_string (safe_name candidate_name)).
    intros l Hl. replace (String.length (string_of_list_ascii l)) with (length l); [lia|].
    clear Hl. induction l as [|c l IH]; [done|]. simpl. by rewrite IH.
  - unfold export_path. by rewrite safe_name_idempotent.
Qed.

Lemma export_name_is_safe_witness :
  export_path (safe_name "Jane /../ Doe") "20240101_120000" "json" =
  "exports/Jane__..__Doe_20240101_120000.json".
Proof.
  destruct (export_name_is_safe "Jane /../ Doe" "20240101_120000" "json")
    as (_ & _ & _ & ->).
  - vm_compute. intros H. repeat (apply elem_of_cons in H as [H|H]; [discriminate|]).
    by apply elem_of_nil in H.
  - vm_compute. intros H. repeat (apply elem_of_cons in H as [H|H]; [discriminate|]).
    by apply elem_of_nil in H.
  - vm_compute. reflexivity.
Defined.

End FileFacts.

(* ===================================================================== *)
(** * The history tab *)
(* ===================================================================== *)

Module TabFacts.
Import Py Db History HistoryTab.
Local Open Scope string_scope.
Local Open Scope Z_scope.

Lemma limit_elem (k : Z) (l : list row) x : x ∈ limit k l -> x ∈ l.
Proof.
  unfold limit. destruct (k <? 0); [done|].
  intros (i & Hi & _)%elem_of_take. by eapply list_elem_of_lookup_2.
Qed.

(** Every listed record is the image of a stored row. *)
Lemma listed_is_stored (N : Z) (d : db) h :
  h ∈ get_search_history N d -> exists r, r ∈ rows d ∧ h = record_of_row r.
Proof.
  unfold get_search_history. intros (r & -> & Hr%limit_elem)%list_elem_of_fmap.
  exists r. split; [|done]. by rewrite HistoryFacts.order_desc_perm in Hr.
Qed.

(** X14. The delete button: an id that is not positive is refused and the
    store left alone; when SQLite raises, the failure is reported and the
    store left alone; otherwise the record of that id is gone from the
    store and from the listing the action returns, and every other id
    still finds its record. *)
Theorem delete_action_removes
    (N : Z) (render_history : list history_record -> string)
    (io_delete io_read : sqlite) (record_id : Z) (d : db) :
  let out := delete_search_record_action N render_history io_delete io_read record_id d in
  (record_id <= 0 -> out = ("Invalid record ID", d)) ∧
  (0 < record_id -> io_delete = SqlRaises ->
   out = ("Failed to delete record " ++ pretty record_id, d)) ∧
  (0 < record_id -> io_delete = SqlOk ->
   out.1 = load_search_history N render_history io_read out.2 ∧
   get_search_result_by_id record_id out.2 = None ∧
   (forall h, h ∈ get_search_history N out.2 -> h_id h ≠ record_id) ∧
   (forall i, i ≠ record_id ->
      get_search_result_by_id i out.2 = get_search_result_by_id i d)).
Proof.
  intros out. subst out. unfold delete_search_record_action.
  destruct (Z.eqb_spec record_id 0) as [->|Hne]; cbn [negb andb].
  { split_and!; [done|lia|lia]. }
  destruct (Z.ltb_spec 0 record_id) as [Hpos|Hle].
  2:{ split_and!; [done|lia|lia]. }
  split; [lia|]. split.
  - intros _ ->. done.
  - intros _ ->. cbn [delete_search_record fst snd].
    split_and!; [done| | |].
    + unfold get_search_result_by_id. cbn [rows]. apply StoreFacts.lookup_absent.
      intros (x & Hid & [Hx _]%list_elem_of_filter)%list_elem_of_fmap. congruence.
    + intros h (r & Hr & ->)%listed_is_stored. cbn [rows] in Hr.
      by apply list_elem_of_filter in Hr as [Hr _].
    + intros i Hi. unfold get_search_result_by_id. cbn [rows].
      by apply StoreFacts.lookup_after_delete.
Qed.

Lemma delete_action_removes_witness :
  h_id <$> get_search_history 5
    (delete_search_record_action 5 (fun _ => "") SqlOk SqlOk 3 Sample.five).2 =
  [5; 4; 2; 1] ∧
  get_search_result_by_id 3
    (delete_search_record_action 5 (fun _ => "") SqlOk SqlOk 3 Sample.five).2 = None.
Proof.
  split; [vm_compute; reflexivity|].
  destruct (delete_action_removes 5 (fun _ => "") SqlOk SqlOk 3 Sample.five)
    as (_ & _ & H).
  destruct H as (_ & H & _); [lia|done|exact H].
Defined.

End TabFacts.

(* ===================================================================== *)
(** * One run of [execute_ranking], whatever the services answer *)
(* ===================================================================== *)

Module RunFacts.
Import Py Eff Progress Claims.
Local Open Scope string_scope.
Local Open Scope Z_scope.

Lemma inserted_consistent now a d :
  History.consistent d -> History.consistent (Db.inserted now a d).
Proof.
  intros Hc. split.
  - by apply HistoryFacts.table_after_insert.
  - cbn [Db.rows Db.sqlite_sequence Db.inserted].
    apply Forall_app. split.
    + destruct (HistoryFacts.next_rowid_fresh d) as [_ Hf].
      eapply Forall_impl; [exact Hf|]. cbn. intros; lia.
    + constructor; [|constructor]. rewrite HistoryFacts.inserted_row_id. lia.
Qed.

Section Rendering.
Variable format_percent : nat -> Q -> string.
Variable format_results_ok : ranking_response -> string * string * string.
Variable format_flowise_output : ranking_response -> option payload -> string.
Variable py_repr : pyval -> string.
Variable sqlite : Db.conversions.

Abbreviation execute_ranking :=
  (Progress.execute_ranking format_percent format_results_ok format_flowise_output
     py_repr sqlite).
Abbreviation flowise_request := (Progress.flowise_request format_percent).

(** X15. Every run of [execute_ranking] on a payload posts to the ranking
    API once, then to Flowise at most once, then hands at most one record
    to the INSERT of [save_search_result], in that order and whatever the
    two services answer. A record handed over carries the name of the
    payload and a recommendation of at most 200 characters. A run that
    hands over no record leaves the store as it was; a run that is left
    by an exception has posted to the ranking API only. Without a payload
    nothing is called. *)
Theorem execute_ranking_calls (p : payload) (e : env) (w : world event) :
  (exists posted saved,
     log (execute_ranking (Some p) e w).2 =
       (log w ++ [PostRanking p] ++ posted ++ saved)%list ∧
     (posted = [] ∨ exists score, posted = [PostFlowise (flowise_request p score)]) ∧
     (saved = [] ∨
      exists a recommendation,
        saved = [SaveSearchResult a] ∧
        Db.arg_candidate_name a = candidate_name p ∧
        Db.arg_recommendation a = Some recommendation ∧
        len recommendation <= 200) ∧
     (saved = [] -> store (execute_ranking (Some p) e w).2 = store w) ∧
     (forall err, (execute_ranking (Some p) e w).1 = Raises err ->
                  posted = [] ∧ saved = [])) ∧
  (execute_ranking None e w).2 = w.
Proof.
  split; [|reflexivity].
  destruct (ranking_reply (ranking_api e p)) as [|b|z|q|s|l|l|d] eqn:Er.
  8: { rewrite (ProgressFacts.execute_ranking_dict format_percent format_results_ok
                  format_flowise_output py_repr sqlite p e w d Er).
       cbn [fst snd log store].
       exists (Outcomes.posts format_percent p d),
              (Outcomes.saves (Outcomes.saved format_percent sqlite e p d)).
       split_and!.
       - reflexivity.
       - destruct (ProgressFacts.posts_cases format_percent p d)
           as [(_ & _ & x & _ & ->)|[-> _]]; eauto.
       - unfold Outcomes.saved.
         destruct (search_record _ _ _ _ _) as [a|] eqn:Ea; [|by left].
         right. apply ProgressFacts.search_record_fields in Ea
           as (Hname & _ & rec & Hrec & Hlen).
         by exists a, rec.
       - destruct (Outcomes.saved _ _ _ _ _); [done|]. done.
       - done. }
  all: destruct (ProgressFacts.execute_ranking_other format_percent format_results_ok
                   format_flowise_output py_repr sqlite p e w) as [-> _];
         [intros d; rewrite Er; done|];
       exists [], []; cbn [log store]; split_and!; eauto.
Qed.

(** X16. When SQLite raises during the save of [execute_ranking], the
    function returns what it returns when the save goes through, and
    makes the same calls. The store is left as it was when the INSERT was
    not committed. When it was, the new row stays and nothing is evicted:
    a history that was full then holds one record more than the capacity,
    and the next save that goes through brings it back to the
    capacity. *)
Theorem interrupted_save_leaves_row (p : payload) (e : env) (w : world event) :
  sqlite_io e = Db.SqlRaises ->
  let run := execute_ranking (Some p) e w in
  let ok := execute_ranking (Some p) (Outcomes.sqlite_works e) w in
  run.1 = ok.1 ∧ log run.2 = log ok.2 ∧
  (insert_committed e = false -> store run.2 = store w) ∧
  (insert_committed e = true ->
   forall a, last (log run.2) = Some (SaveSearchResult a) ->
     store run.2 = Db.inserted (now e) a (store w) ∧
     Db.rows (store run.2) =
       (Db.rows (store w) ++ [Db.inserted_row (now e) a (store w)])%list ∧
     (History.consistent (store w) -> 0 <= MAX_RECORDS e ->
      Z.of_nat (length (Db.rows (store w))) = MAX_RECORDS e ->
      Z.of_nat (length (Db.rows (store run.2))) = MAX_RECORDS e + 1 ∧
      forall now' a',
        Z.of_nat (length (Db.rows
          (Db.save_search_result (MAX_RECORDS e) now' a' (store run.2)).2)) =
        MAX_RECORDS e)).
Proof.
  intros Hio run ok.
  destruct (ProgressFacts.execute_ranking_answers format_percent format_results_ok
              format_flowise_output py_repr sqlite p e (Outcomes.sqlite_works e) w
              eq_refl (fun _ => eq_refl)) as [H1 H2].
  split; [exact H1|]. split; [exact H2|]. clear H1 H2 ok. subst run.
  destruct (ranking_reply (ranking_api e p)) as [|b|z|q|s|l|l|d] eqn:Er.
  8: { rewrite (ProgressFacts.execute_ranking_dict format_percent format_results_ok
                  format_flowise_output py_repr sqlite p e w d Er).
       cbn [fst snd log store]. rewrite Hio.
       unfold Outcomes.after_save_block, Outcomes.store_after_save.
       destruct (Outcomes.saved format_percent sqlite e p d) as [a|].
       - cbn [Outcomes.saves].
         split; [by intros ->|]. intros -> a'.
         rewrite !app_assoc, last_snoc. intros [= <-].
         split; [reflexivity|]. split; [reflexivity|].
         intros Hc HN Hfull. cbn [Db.inserted Db.rows].
         split; [rewrite length_app; cbn [length]; lia|].
         intros now' a'.
         pose proof (HistoryFacts.save_count (MAX_RECORDS e) now' a'
                       (Db.inserted (now e) a (store w)) HN
                       (inserted_consistent _ _ _ Hc)) as Hn.
         unfold Db.count in Hn. rewrite Hn.
         cbn [Db.inserted Db.rows]. rewrite length_app. cbn [length]. lia.
       - split; [done|]. intros _ a'. cbn [Outcomes.saves].
         rewrite app_nil_r.
         destruct (ProgressFacts.posts_cases format_percent p d)
           as [(_ & _ & x & _ & ->)|[-> _]].
         + rewrite !app_assoc, last_snoc. discriminate.
         + rewrite app_nil_r, last_snoc. discriminate. }
  all: destruct (ProgressFacts.execute_ranking_other format_percent format_results_ok
                   format_flowise_output py_repr sqlite p e w) as [-> _];
         [intros d; rewrite Er; done|];
       cbn [log store]; (split; [done|]); intros _ a;
       rewrite last_snoc; discriminate.
Qed.

End Rendering.

Lemma execute_ranking_calls_witness :
  (length (log Sample.progress_jane.2) <= 3)%nat.
Proof.
  destruct (execute_ranking_calls Sample.no_percent Sample.no_results Sample.no_html
              Sample.no_repr Sample.sqlite
              Sample.jane_payload Sample.flowise_down Sample.fresh)
    as [(posted & saved & Hlog & Hposted & Hsaved & _) _].
  unfold Sample.progress_jane. change {| store := Db.empty_db; log := [] |}
    with (@Sample.fresh event).
  rewrite Hlog.
  destruct Hposted as [->|(? & ->)]; destruct Hsaved as [->|(? & ? & -> & _)];
    cbn; lia.
Defined.

Lemma interrupted_save_leaves_row_witness :
  Db.row_id <$>
    Db.rows (store (Progress.execute_ranking Sample.no_percent Sample.no_results
                      Sample.no_html Sample.no_repr Sample.sqlite
                      (Some Sample.jane_payload) Sample.eviction_fails
                      {| store := Sample.five; log := [] |}).2) =
  [1; 2; 3; 4; 5; 6].
Proof.
  destruct (interrupted_save_leaves_row Sample.no_percent Sample.no_results
              Sample.no_html Sample.no_repr Sample.sqlite
              Sample.jane_payload Sample.eviction_fails
              {| store := Sample.five; log := [] |} eq_refl)
    as (_ & _ & _ & Hrow).
  edestruct (Hrow eq_refl) as (_ & -> & _); [vm_compute; reflexivity|].
  vm_compute. reflexivity.
Defined.

End RunFacts.

(* ===================================================================== *)
(** * What [rank_cv_with_social_and_flowise] saves *)
(* ===================================================================== *)

Module SavedFacts.
Import Py Eff Gdpr Claims.
Local Open Scope string_scope.
Local Open Scope Z_scope.

Lemma not_saved (l : list event) a :
  SaveSearchResult a ∈ l ->
  Forall (fun ev => match ev with SaveSearchResult _ => False | _ => True end) l ->
  False.
Proof. intros Hin Hall. by apply (proj1 (Forall_forall _ _) Hall _) in Hin. Qed.

Lemma questions_not_saved evaluate_social sp q :
  Forall (fun ev => match ev with SaveSearchResult _ => False | _ => True end)
         (Outcomes.questions evaluate_social sp q).
Proof.
  unfold Outcomes.questions. destruct (Outcomes.social _ _); repeat constructor.
Qed.

Section Rendering.
Variable API_URL : string.
Variable build_query :
  string -> string -> string -> string -> string -> string -> string -> string ->
  option string -> string.
Variable format_explanation : dict -> string + string.
Variable format_flowise_evaluation : dict -> string + string.
Variable json_dumps : dict -> string.
Variable py_repr : pyval -> string.
Variable strftime : Z -> string.
Variable format_history : list Db.history_record -> string.
Variable sqlite : Db.conversions.

(** X17. [rank_cv_with_social_and_flowise] hands a record to the INSERT
    of [save_search_result] exactly when the three inputs are present,
    the ranking API answered 200 with a JSON body from which score,
    recommendation and explanation were read without an exception, the
    social step, if taken, was read without an exception, and the INSERT
    accepts the score and the recommendation of the reply. With SQLite
    working the store is then the one that save leaves; a run that hands
    over no record leaves the store as it was. *)
Theorem only_scored_runs_are_saved
    (jd_title jd cv name email phone gh li po fb ot : string)
    (evaluate_social : bool) (e : env) (d : Db.db) :
  let sp := build_social_profiles email phone gh li po fb ot in
  let payload := ranking_payload jd_title jd cv name sp in
  let q := build_flowise_question_from_fields build_query
             name email phone gh li po fb ot (prefix 300 cv) in
  let run := rank_cv_with_social_and_flowise API_URL build_query format_explanation
               format_flowise_evaluation json_dumps py_repr strftime format_history
               sqlite jd_title jd cv name email phone gh li po fb ot evaluate_social
               e {| store := d; log := [] |} in
  (forall a,
     SaveSearchResult a ∈ log run.2 <->
     inputs_present name cv jd = true ∧
     exists t result score recommendation explanation evaluation presence explanation',
       ranking_api e payload = Response 200 t (Json result) ∧
       read_result format_explanation result =
         inl (score, recommendation, explanation) ∧
       Outcomes.social_step format_flowise_evaluation py_repr e evaluate_social sp q
         explanation = inl (evaluation, presence, explanation') ∧
       search_record strftime sqlite jd_title name score recommendation sp presence
         (now e) = Some a) ∧
  (forall a,
     SaveSearchResult a ∈ log run.2 -> sqlite_save e = Db.SqlOk ->
     store run.2 = (Db.save_search_result (MAX_RECORDS e) (now e) a d).2) ∧
  ((forall a, SaveSearchResult a ∉ log run.2) -> store run.2 = d).
Proof.
  intros sp payload q run.
  pose proof (GdprFacts.run_rejected API_URL build_query format_explanation
    format_flowise_evaluation json_dumps py_repr strftime format_history sqlite
    jd_title jd cv name email phone gh li po fb ot evaluate_social e
    {| store := d; log := [] |}) as Hrej.
  pose proof (GdprFacts.run_ranking_failed API_URL build_query format_explanation
    format_flowise_evaluation json_dumps py_repr strftime format_history sqlite
    jd_title jd cv name email phone gh li po fb ot evaluate_social e
    {| store := d; log := [] |}) as Hfail.
  pose proof (GdprFacts.run_unread API_URL build_query format_explanation
    format_flowise_evaluation json_dumps py_repr strftime format_history sqlite
    jd_title jd cv name email phone gh li po fb ot evaluate_social e
    {| store := d; log := [] |}) as Hunread.
  pose proof (GdprFacts.run_scored API_URL build_query format_explanation
    format_flowise_evaluation json_dumps py_repr strftime format_history sqlite
    jd_title jd cv name email phone gh li po fb ot evaluate_social e
    {| store := d; log := [] |}) as Hscored.
  cbv zeta in Hrej, Hfail, Hunread, Hscored.
  fold sp payload q run in Hrej, Hfail, Hunread, Hscored.
  destruct (inputs_present name cv jd) eqn:Hin.
  2: { destruct (Hrej eq_refl) as [-> _]. cbn [log store].
       split_and!; [|intros a Ha; by apply elem_of_nil in Ha|done].
       intros a. split.
       - intros Ha. by apply elem_of_nil in Ha.
       - by intros [? _]. }
  destruct (GdprFacts.ranking_outcome (ranking_api e payload))
    as [Hf|(t & result & Hr)].
  { destruct (Hfail eq_refl Hf) as [-> _]. cbn [log store app].
    split_and!; [|intros a Ha; apply list_elem_of_singleton in Ha; discriminate|done].
    intros a. split.
    - intros Ha. apply list_elem_of_singleton in Ha. discriminate.
    - intros (_ & t & result & ? & ? & ? & ? & ? & ? & Hr & _).
      by destruct (GdprFacts.failed_not_scored _ t result Hf). }
  destruct (read_result format_explanation result)
    as [[[score recommendation] explanation]|err] eqn:Hread.
  2: { rewrite (Hunread t result err eq_refl Hr Hread). cbn [snd log store app].
       split_and!; [|intros a Ha; apply list_elem_of_singleton in Ha; discriminate|done].
       intros a. split.
       - intros Ha. apply list_elem_of_singleton in Ha. discriminate.
       - intros (_ & t' & result' & ? & ? & ? & ? & ? & ? & Hr' & Hread' & _).
         rewrite Hr in Hr'. injection Hr' as _ <-. congruence. }
  rewrite (Hscored t result score recommendation explanation eq_refl Hr Hread).
  destruct (Outcomes.social_step format_flowise_evaluation py_repr e evaluate_social
              sp q explanation) as [[[evaluation presence] explanation']|err] eqn:Hs.
  2: { cbn [snd log store app].
       split_and!; [| |done].
       - intros a. split.
         + intros Ha. exfalso. apply (not_saved _ _ Ha).
           constructor; [done|]. apply questions_not_saved.
         + intros (_ & t' & result' & ? & ? & ? & ? & ? & ? & Hr' & Hread' & Hs' & _).
           rewrite Hr in Hr'. injection Hr' as _ <-.
           rewrite Hread in Hread'. injection Hread' as <- <- <-. congruence.
       - intros a Ha. exfalso. apply (not_saved _ _ Ha).
         constructor; [done|]. apply questions_not_saved. }
  cbv zeta. cbn [snd log store app].
  destruct (search_record strftime sqlite jd_title name score recommendation sp
              presence (now e)) as [a0|] eqn:Ea;
    cbn [Outcomes.gdpr_saves Outcomes.after_save_block].
  - assert (forall a, SaveSearchResult a ∈
              PostRanking payload ::
              (Outcomes.questions evaluate_social sp q ++ [SaveSearchResult a0])%list ->
              a = a0) as Hone.
    { intros a Ha. apply elem_of_cons in Ha as [?|Ha]; [discriminate|].
      apply elem_of_app in Ha as [Ha|Ha].
      - exfalso. apply (not_saved _ _ Ha), questions_not_saved.
      - apply list_elem_of_singleton in Ha. by injection Ha. }
    split_and!.
    + intros a. split.
      * intros ->%Hone. split; [done|]. by do 8 eexists.
      * intros (_ & t' & result' & ? & ? & ? & ? & ? & ? & Hr' & Hread' & Hs' & Ha).
        rewrite Hr in Hr'. injection Hr' as _ <-.
        rewrite Hread in Hread'. injection Hread' as <- <- <-.
        rewrite Hs in Hs'. injection Hs' as <- <- <-.
        rewrite Ea in Ha. injection Ha as <-.
        right. apply elem_of_app. right. by apply list_elem_of_singleton.
    + intros a ->%Hone ->. reflexivity.
    + intros Hnone. exfalso. apply (Hnone a0).
      right. apply elem_of_app. right. by apply list_elem_of_singleton.
  - rewrite app_nil_r. split_and!; [| |done].
    + intros a. split.
      * intros Ha. exfalso. apply (not_saved _ _ Ha).
        constructor; [done|]. apply questions_not_saved.
      * intros (_ & t' & result' & ? & ? & ? & ? & ? & ? & Hr' & Hread' & Hs' & Ha).
        rewrite Hr in Hr'. injection Hr' as _ <-.
        rewrite Hread in Hread'. injection Hread' as <- <- <-.
        rewrite Hs in Hs'. injection Hs' as <- <- <-. congruence.
    + intros a Ha. exfalso. apply (not_saved _ _ Ha).
      constructor; [done|]. apply questions_not_saved.
Qed.

End Rendering.

Lemma only_scored_runs_are_saved_witness :
  exists a, SaveSearchResult a ∈ log Sample.gdpr_jane.2 ∧
            Db.arg_match_score a = Db.Real (18 # 25).
Proof.
  eexists. split.
  - refine (proj2 (proj1 (only_scored_runs_are_saved "" Sample.no_query
      Sample.no_explanation Sample.no_evaluation Sample.no_text Sample.no_repr
      Sample.no_time Sample.no_history Sample.sqlite
      "Engineer" Sample.jd80 Sample.cv150 "Jane Doe"
      "" "" "" "" "" "" "" true Sample.gdpr_flowise_down Db.empty_db) _) _).
    split; [vm_compute; reflexivity|].
    exists "", Sample.gdpr_scored, (PFloat (18 # 25)), (PStr "Good match"), "", "",
      (PFloat 0), "".
    split_and!; vm_compute; reflexivity.
  - reflexivity.
Defined.

End SavedFacts.

(* ===================================================================== *)
(** * What [prepare_payload] counts *)
(* ===================================================================== *)

Module LinkFacts.
Import Py Eff Claims.
Local Open Scope string_scope.
Local Open Scope Z_scope.







Example payload_counts_links_examples :
  (fun links : list string =>
     match links with
     | [gh; li; po; fb; ot] =>
         let p := Progress.prepare_payload "jd" "cv" "" "" "" "" gh li po fb ot in
         (Progress.social_media_profiles p !! "total_links",
          Progress.include_social_weighting p, Progress.candidate_name p)
     | _ => (None, false, "")
     end) <$>
    [[""; ""; ""; ""; ""]; ["g"; ""; ""; ""; "o"]; ["g"; "l"; "p"; "f"; "o"]] =
  [(Some (PInt 0), false, "Unknown"); (Some (PInt 2), true, "Unknown");
   (Some (PInt 5), true, "Unknown")].
Proof. vm_compute. reflexivity. Qed.

End LinkFacts.

(* ===================================================================== *)
(** * From the form to the history *)
(* ===================================================================== *)

Module SubmitFacts.
Import Py Eff Progress Claims.
Local Open Scope string_scope.
Local Open Scope Z_scope.

Lemma accepted_form
    (cand_name cand_id cand_email cand_phone jd_t cv_t gh li port fb other : string) :
  (validate_candidate_name cand_name).1 = true ->
  (validate_cv_jd cv_t jd_t).1 = true ->
  (validate_email cand_email).1 = true ->
  (validate_phone cand_phone).1 = true ->
  validate_and_submit cand_name cand_id cand_email cand_phone jd_t cv_t gh li port fb other =
  ("", "All fields valid! Processing...",
   Some (prepare_payload jd_t cv_t cand_name cand_id cand_email cand_phone
           gh li port fb other), "").
Proof.
  intros Hn Hc He Hp. unfold validate_and_submit.
  destruct (validate_candidate_name cand_name) as [v1 m1]. cbn [fst] in Hn. subst v1.
  destruct (validate_cv_jd cv_t jd_t) as [v2 m2]. cbn [fst] in Hc. subst v2.
  destruct (validate_email cand_email) as [v3 m3]. cbn [fst] in He. subst v3.
  destruct (validate_phone cand_phone) as [v4 m4]. cbn [fst] in Hp. subst v4.
  reflexivity.
Qed.

Lemma valid_name_is_kept jd cv name cid email phone gh li po fb ot :
  (validate_candidate_name name).1 = true ->
  candidate_name (prepare_payload jd cv name cid email phone gh li po fb ot) = name.
Proof.
  unfold validate_candidate_name, prepare_payload. cbn [candidate_name].
  unfold str_or. destruct (nonempty name); [done|]. cbn [negb orb fst]. done.
Qed.

Section Rendering.
Variable format_percent : nat -> Q -> string.
Variable format_results_ok : ranking_response -> string * string * string.
Variable format_flowise_output : ranking_response -> option payload -> string.
Variable py_repr : pyval -> string.
Variable sqlite : Db.conversions.

(** X5. A form the four validators accept ends up in the history once
    [execute_ranking] hands its record to the INSERT, as it does whenever
    the ranking call fails: with SQLite working, a capacity of at least
    1, a consistent store and a clock not behind the stored timestamps,
    after [validate_and_submit] and [execute_ranking] the listing of
    [get_search_history] holds a record with the candidate name as typed,
    the clock reading as timestamp and an id never used before. The
    listing holds at most [MAX_RECORDS] records in every case. *)
Theorem submitted_form_is_listed
    (e : env) (w : world event)
    (cand_name cand_id cand_email cand_phone jd_t cv_t gh li port fb other : string) :
  (validate_candidate_name cand_name).1 = true ->
  (validate_cv_jd cv_t jd_t).1 = true ->
  (validate_email cand_email).1 = true ->
  (validate_phone cand_phone).1 = true ->
  sqlite_io e = Db.SqlOk -> 1 <= MAX_RECORDS e ->
  History.consistent (store w) ->
  Forall (fun r => Db.row_timestamp r <= now e) (Db.rows (store w)) ->
  let p := prepare_payload jd_t cv_t cand_name cand_id cand_email cand_phone
             gh li port fb other in
  let run := submit format_percent format_results_ok format_flowise_output
               py_repr sqlite
               cand_name cand_id cand_email cand_phone jd_t cv_t gh li port fb other e w in
  let history := Db.get_search_history (MAX_RECORDS e) (store run.2) in
  (forall a,
     last (log run.2) = Some (SaveSearchResult a) ->
     exists h, h ∈ history ∧
       Db.h_candidate_name h = cand_name ∧
       Db.h_timestamp h = now e ∧
       Db.h_id h = Db.next_rowid (store w) ∧
       Forall (fun r => Db.row_id r < Db.h_id h) (Db.rows (store w))) ∧
  (failed (ranking_api e p) -> exists a, last (log run.2) = Some (SaveSearchResult a)) ∧
  Z.of_nat (length history) <= MAX_RECORDS e.
Proof.
  intros Hn Hc He Hp Hio HN Hcons Hts p run history.
  assert (run.2 = (Progress.execute_ranking format_percent format_results_ok
                     format_flowise_output py_repr sqlite (Some p) e w).2) as Hrun.
  { subst run. unfold submit. rewrite accepted_form by done.
    unfold bind, ret. cbv beta iota zeta. fold p.
    by destruct (Progress.execute_ranking _ _ _ _ _ _ _ _). }
  split_and!.
  - intros a Hlast.
    assert (store run.2 =
              (Db.save_search_result (MAX_RECORDS e) (now e) a (store w)).2 ∧
            Db.arg_candidate_name a = cand_name) as (Hstore & Hname).
    { rewrite Hrun in Hlast |- *.
      destruct (ranking_reply (ranking_api e p)) as [| | | | | | |d] eqn:Er.
      8: { rewrite (ProgressFacts.execute_ranking_dict format_percent
                      format_results_ok format_flowise_output py_repr sqlite
                      p e w d Er) in Hlast |- *.
           cbn [snd log store] in Hlast |- *. rewrite Hio.
           unfold Outcomes.saved in *.
           destruct (search_record _ _ _ _ _) as [a0|] eqn:Ea.
           - cbn [Outcomes.saves Outcomes.after_save_block
                  Outcomes.store_after_save] in Hlast |- *.
             rewrite !app_assoc, last_snoc in Hlast. injection Hlast as ->.
             split; [done|].
             apply ProgressFacts.search_record_fields in Ea as (-> & _).
             by apply valid_name_is_kept.
           - cbn [Outcomes.saves] in Hlast. rewrite app_nil_r in Hlast.
             destruct (ProgressFacts.posts_cases format_percent p d)
               as [(_ & _ & x & _ & Hx)|[Hx _]]; rewrite Hx in Hlast.
             + rewrite !app_assoc, last_snoc in Hlast. discriminate.
             + rewrite app_nil_r, last_snoc in Hlast. discriminate. }
      all: destruct (ProgressFacts.execute_ranking_other format_percent
                       format_results_ok format_flowise_output py_repr sqlite p e w)
             as [Hw _]; [intros d; rewrite Er; done|];
           rewrite Hw in Hlast; cbn [log] in Hlast;
           rewrite last_snoc in Hlast; discriminate. }
    subst history. rewrite Hstore.
    exists (Db.record_of_row (Db.inserted_row (now e) a (store w))).
    split_and!.
    + apply list_elem_of_fmap_2.
      assert (Db.inserted_row (now e) a (store w) ∈
              Db.rows (Db.save_search_result (MAX_RECORDS e) (now e) a (store w)).2)
        as Hin.
      { pose proof (StoreFacts.saved_row_is_kept (MAX_RECORDS e) (now e) a (store w)
                      Hcons HN Hts) as Hk.
        unfold Db.get_search_result_by_id in Hk.
        apply head_Some_elem_of in Hk. by apply list_elem_of_filter in Hk as [_ ?]. }
      unfold Db.limit. destruct (Z.ltb_spec (MAX_RECORDS e) 0) as [?|_]; [lia|].
      rewrite take_ge; [by rewrite HistoryFacts.order_desc_perm|].
      rewrite HistoryFacts.order_desc_perm.
      pose proof (HistoryFacts.save_count (MAX_RECORDS e) (now e) a (store w)
                    ltac:(lia) Hcons) as Hcount.
      unfold Db.count in Hcount. lia.
    + done.
    + done.
    + done.
    + apply HistoryFacts.next_rowid_fresh.
  - intros (msg & st & Hr)%ProgressFacts.failed_ranking_reply.
    rewrite Hrun. rewrite ProgressFacts.error_response_dict in Hr.
    rewrite (ProgressFacts.execute_ranking_dict format_percent format_results_ok
               format_flowise_output py_repr sqlite p e w _ Hr).
    cbn [snd log].
    unfold Outcomes.saved, Outcomes.merged, Outcomes.flowise_saved, Outcomes.posts,
      Outcomes.asked.
    rewrite ProgressFacts.error_fields_lookup by done.
    destruct (decide _) as [_|?]; [|done].
    rewrite <- ProgressFacts.error_response_dict.
    rewrite ProgressFacts.failed_search_record. cbn [Outcomes.saves].
    eexists. rewrite !app_assoc. apply last_snoc.
  - unfold history, Db.get_search_history. rewrite length_fmap.
    apply HistoryFacts.limit_length. lia.
Qed.

End Rendering.

Lemma submitted_form_is_listed_witness :
  Db.h_candidate_name <$>
    Db.get_search_history 5
      (store (submit Sample.no_percent Sample.no_results Sample.no_html
                Sample.no_repr Sample.sqlite
                "Jane Doe" "" "" "" Sample.jd80 Sample.cv150 "" "" "" "" ""
                Sample.ranking_down {| store := Sample.five; log := [] |}).2) =
  replicate 5 "Jane Doe" ∧
  exists h,
    h ∈ Db.get_search_history 5
      (store (submit Sample.no_percent Sample.no_results Sample.no_html
                Sample.no_repr Sample.sqlite
                "Jane Doe" "" "" "" Sample.jd80 Sample.cv150 "" "" "" "" ""
                Sample.ranking_down {| store := Sample.five; log := [] |}).2) ∧
    Db.h_id h = 6.
Proof.
  split; [vm_compute; reflexivity|].
  destruct (submitted_form_is_listed Sample.no_percent Sample.no_results Sample.no_html
    Sample.no_repr Sample.sqlite
    Sample.ranking_down {| store := Sample.five; log := [] |}
    "Jane Doe" "" "" "" Sample.jd80 Sample.cv150 "" "" "" "" "")
    as (Hlisted & _ & _); try (vm_compute; reflexivity).
  - cbn. lia.
  - apply (HistoryFacts.reachable_consistent 5).
    repeat apply (History.reach_save 5). constructor.
  - vm_compute. repeat constructor; discriminate.
  - edestruct Hlisted as (h & Hin & _ & _ & Hid & _); [vm_compute; reflexivity|].
    exists h. split; [exact Hin|]. rewrite Hid. vm_compute. reflexivity.
Defined.

End SubmitFacts.

